(** * irisctl: the analyze pipeline, the shared filters and the metadata fetch loop

    A shallow embedding of the parts of [internal/analyze], [internal/common],
    [internal/meas] and [internal/list] that filter, classify, aggregate and
    list measurement metadata, followed by the properties proved about them.

    Conventions.
    - Go [string]s are byte strings: [String.string].
    - Go [int] and [time.Duration] are [Z]; a [time.Time] is the number of
      nanoseconds since 0001-01-01T00:00:00 UTC, in [Z].
    - A finite [float64] is the rational number it denotes; every
      [float64] operation rounds its exact result to binary64.
    - Go maps are stdpp [gmap]s.
    - The package-level accumulators of [analyze] are threaded explicitly
      through a record; what the code prints is collected as a list of
      structured output events. *)

From Stdlib Require Import ZArith QArith Qround Qpower String Ascii List Bool Lia Lqa Sorted.
From Stdlib Require Import Floats.PrimFloat Floats.SpecFloat Floats.FloatOps.
From Stdlib Require Uint63.
From stdpp Require Import gmap strings.
From Equations Require Import Equations.
Import ListNotations.

(* The unfolding lemmas of the two loops defined by well-founded recursion
   are proved without functional extensionality. *)
Unset Equations With Funext.

Local Open Scope string_scope.
Local Open Scope Z_scope.

(** ** Go's [strings] package, on byte strings *)

Module GoStrings.

(** [strings.HasPrefix(s, p)]. *)
Fixpoint HasPrefix (s p : string) {struct p} : bool :=
  match p, s with
  | EmptyString, _ => true
  | String _ _, EmptyString => false
  | String a p', String b s' => if Ascii.eqb a b then HasPrefix s' p' else false
  end.

(** The scan behind [strings.Index]: [i] is the offset of [s] in the
    original string. *)
Fixpoint IndexFrom (i : Z) (s sep : string) : Z :=
  if HasPrefix s sep then i
  else match s with
       | EmptyString => -1
       | String _ s' => IndexFrom (i + 1) s' sep
       end.

(** [strings.Index(s, sep)]: offset of the first occurrence, or [-1]. *)
Definition Index (s sep : string) : Z := IndexFrom 0 s sep.

(** [strings.Contains(s, substr)] is [Index(s, substr) >= 0]. *)
Definition Contains (s substr : string) : bool := 0 <=? Index s substr.

(** [s[i:]] for an offset [i] within the string. *)
Fixpoint dropn (n : nat) (s : string) : string :=
  match n, s with
  | O, _ => s
  | S _, EmptyString => EmptyString
  | S n', String _ s' => dropn n' s'
  end.

Fixpoint taken (n : nat) (s : string) : string :=
  match n, s with
  | O, _ => EmptyString
  | S _, EmptyString => EmptyString
  | S n', String c s' => String c (taken n' s')
  end.

Definition sliceFrom (s : string) (i : Z) : string := dropn (Z.to_nat i) s.

(** [s[i:j]]. *)
Definition slice (s : string) (i j : Z) : string :=
  taken (Z.to_nat (j - i)) (dropn (Z.to_nat i) s).

(** [strings.ReplaceAll(s, old, new)] for a non-empty [old]: occurrences
    are replaced from the left and do not overlap; [skip] counts the bytes
    of a replaced occurrence that are still to be passed over. *)
Fixpoint replaceAllFrom (skip : nat) (s old new : string) : string :=
  match s with
  | EmptyString => EmptyString
  | String c s' =>
      match skip with
      | S k => replaceAllFrom k s' old new
      | O =>
          if HasPrefix s old
          then (new ++ replaceAllFrom (String.length old - 1)%nat s' old new)%string
          else String c (replaceAllFrom O s' old new)
      end
  end.

Definition ReplaceAll (s old new : string) : string := replaceAllFrom O s old new.

(** [strings.ToLower] on ASCII text: the letters [A]..[Z] are mapped to
    [a]..[z] and every other byte is kept.  This is Go's function on
    ASCII text only: outside ASCII Go maps every Unicode letter and
    replaces invalid UTF-8.  Where the code is compared with the
    specification's case-insensitive matching, the measurement tags are
    taken to be ASCII text. *)
Definition lowerByte (c : ascii) : ascii :=
  let n := nat_of_ascii c in
  if ((65 <=? n) && (n <=? 90))%nat then ascii_of_nat (n + 32) else c.

Fixpoint ToLower (s : string) : string :=
  match s with
  | EmptyString => EmptyString
  | String c s' => String (lowerByte c) (ToLower s')
  end.

(** [strings.Join(elems, sep)]. *)
Fixpoint Join (elems : list string) (sep : string) : string :=
  match elems with
  | [] => ""
  | x :: rest =>
      match rest with
      | [] => x
      | _ :: _ => x ++ sep ++ Join rest sep
      end
  end.

End GoStrings.

(** ** Go's [float64]

    A finite [float64] is held as the rational number it denotes, and
    every operation rounds its exact result to the nearest binary64
    value, ties to even (IEEE 754: 53 bits of precision, smallest
    exponent -1074).  Infinities, NaN and the negative zero are left
    out: the values of the pipeline are sums, products and quotients of
    64-bit counts and stay finite.  The operations are compared with
    Rocq's primitive binary64 floats on concrete values at the end of
    the file. *)

Module Float64.

Definition prec : Z := 53.
Definition emin : Z := -1074.

Definition pow2 (e : Z) : Q := Qpower 2 e.

(** The exponent of the leading bit of a positive [x]: the [k] with
    [2^k <= x < 2^(k+1)]. *)
Definition ilog2 (x : Q) : Z :=
  let k := Z.log2 (Qnum x) - Z.log2 (Zpos (Qden x)) in
  if Qle_bool (pow2 k) x then k else k - 1.

(** The nearest whole number, the even one of two that are equally
    near. *)
Definition nearestEven (x : Q) : Z :=
  let f := Qfloor x in
  match (x - inject_Z f ?= 1 # 2)%Q with
  | Lt => f
  | Gt => f + 1
  | Eq => if Z.even f then f else f + 1
  end.

(** The exponent of the last bit of the binary64 values next to a
    positive [x]. *)
Definition expOf (x : Q) : Z := Z.max (ilog2 x - (prec - 1)) emin.

(** The binary64 value nearest to a positive [x]. *)
Definition roundPos (x : Q) : Q :=
  (inject_Z (nearestEven (x / pow2 (expOf x))) * pow2 (expOf x))%Q.

(** The binary64 value nearest to [x]. *)
Definition round (x : Q) : Q :=
  match (x ?= 0)%Q with
  | Eq => 0%Q
  | Gt => roundPos x
  | Lt => (- roundPos (- x))%Q
  end.

(** [x + y], [x * y] and, for a divisor other than zero, [x / y] on
    [float64]. *)
Definition add (x y : Q) : Q := round (x + y).
Definition mul (x y : Q) : Q := round (x * y).
Definition div (x y : Q) : Q := round (x / y).

(** [float64(z)] for an integer [z]. *)
Definition ofInt (z : Z) : Q := round (inject_Z z).

(** The whole part of [x]. *)
Definition trunc (x : Q) : Z := Z.quot (Qnum x) (Zpos (Qden x)).

(** [int64(x)]: the fraction is dropped.  For a value outside the range
    of [int64] the language leaves the result to the implementation;
    the conversion instruction of amd64 returns the smallest [int64],
    which is what is modelled. *)
Definition toInt64 (x : Q) : Z :=
  let t := trunc x in
  if (- 2 ^ 63 <=? t) && (t <? 2 ^ 63) then t else - 2 ^ 63.

(** The rational that a finite primitive float denotes. *)
Definition ofPrim (f : float) : option Q :=
  match Prim2SF f with
  | S754_zero _ => Some 0%Q
  | S754_finite s m e =>
      let v := (inject_Z (Zpos m) * pow2 e)%Q in
      Some (if s then - v else v)%Q
  | _ => None
  end.

(** The rational [x] is the value of the primitive float [f]. *)
Definition agrees (x : Q) (f : float) : bool :=
  match ofPrim f with
  | Some y => Qeq_bool x y
  | None => false
  end.

End Float64.

(** ** Go's [time] package *)

Module GoTime.

(** An instant: nanoseconds since 0001-01-01T00:00:00 UTC, the instant
    of Go's zero [time.Time].  Every time the pipeline handles is parsed
    without a zone, so its calendar fields are read in UTC. *)
Definition Time := Z.

(** [time.Duration]: a signed 64-bit count of nanoseconds. *)
Definition Duration := Z.

Definition Nanosecond : Duration := 1.
Definition Microsecond : Duration := 1000 * Nanosecond.
Definition Millisecond : Duration := 1000 * Microsecond.
Definition Second : Duration := 1000 * Millisecond.
Definition Minute : Duration := 60 * Second.
Definition Hour : Duration := 60 * Minute.

Definition minDuration : Duration := - 2 ^ 63.
Definition maxDuration : Duration := 2 ^ 63 - 1.

Definition zeroTime : Time := 0.

(** [t.After(u)], [t.Before(u)], [t.Equal(u)]. *)
Definition After (t u : Time) : bool := u <? t.
Definition Before (t u : Time) : bool := t <? u.
Definition Equal (t u : Time) : bool := t =? u.

(** [t.Sub(u)]: the difference, or the largest (smallest) duration when
    the difference does not fit in 64 bits. *)
Definition Sub (t u : Time) : Duration :=
  let d := t - u in
  if d <? minDuration then minDuration
  else if maxDuration <? d then maxDuration
  else d.

(** [d.Seconds()]: [float64(d / Second) + float64(d % Second) / 1e9],
    Go's division truncating toward zero. *)
Definition Seconds (d : Duration) : Q :=
  let sec := Z.quot d Second in
  let nsec := Z.rem d Second in
  Float64.add (Float64.ofInt sec)
    (Float64.div (Float64.ofInt nsec) (inject_Z 1000000000)).

(** 64-bit signed wrap-around. *)
Definition wrap64 (z : Z) : Z := (z + 2 ^ 63) mod 2 ^ 64 - 2 ^ 63.

(** [time.Duration(x * float64(time.Second))]: a [float64] product
    converted to [int64]. *)
Definition ofSeconds (x : Q) : Duration :=
  Float64.toInt64 (Float64.mul x (Float64.ofInt Second)).

(** [d.Round(m)]: to the nearest multiple of [m], halves away from
    zero; the largest or smallest duration when the result overflows. *)
Definition Round (d m : Duration) : Duration :=
  if m <=? 0 then d
  else
    let r := Z.rem d m in
    if d <? 0 then
      let r := - r in
      if r + r <? m then d + r
      else
        let d1 := wrap64 (d - m + r) in
        if d1 <? d then d1 else minDuration
    else
      if r + r <? m then d - r
      else
        let d1 := wrap64 (d + m - r) in
        if d <? d1 then d1 else maxDuration.

Definition nsPerDay : Z := 24 * Hour.

(** Days since 0001-01-01 of the calendar day that contains [t]. *)
Definition dayNumber (t : Time) : Z := t / nsPerDay.

(** Proleptic Gregorian date of a day number: year, month, day. *)
Definition civil (days : Z) : Z * Z * Z :=
  let z := days + 306 in
  let era := z / 146097 in
  let doe := z - era * 146097 in
  let yoe := (doe - doe / 1460 + doe / 36524 - doe / 146096) / 365 in
  let doy := doe - (365 * yoe + yoe / 4 - yoe / 100) in
  let mp := (5 * doy + 2) / 153 in
  let d := doy - (153 * mp + 2) / 5 + 1 in
  let m := if mp <? 10 then mp + 3 else mp - 9 in
  let y := yoe + era * 400 + (if m <=? 2 then 1 else 0) in
  (y, m, d).

(** Day number of a proleptic Gregorian date. *)
Definition daysFromCivil (y m d : Z) : Z :=
  let y' := if m <=? 2 then y - 1 else y in
  let era := y' / 400 in
  let yoe := y' - era * 400 in
  let mp := if 2 <? m then m - 3 else m + 9 in
  let doy := (153 * mp + 2) / 5 + d - 1 in
  let doe := yoe * 365 + yoe / 4 - yoe / 100 + doy in
  era * 146097 + doe - 306.

Definition Year (t : Time) : Z := fst (fst (civil (dayNumber t))).
Definition Month (t : Time) : Z := snd (fst (civil (dayNumber t))).
Definition Day (t : Time) : Z := snd (civil (dayNumber t)).
Definition HourOf (t : Time) : Z := (t mod nsPerDay) / Hour.

(** [time.Date(y, m, d, hh, mm, ss, 0, time.UTC)]. *)
Definition Date (y m d hh mm ss : Z) : Time :=
  daysFromCivil y m d * nsPerDay + hh * Hour + mm * Minute + ss * Second.

(** [t.AddDate(0, 0, n)] in UTC. *)
Definition AddDays (t : Time) (n : Z) : Time := t + n * nsPerDay.

Definition digit (n : Z) : ascii := ascii_of_nat (48 + Z.to_nat (n mod 10)).

(** [fmt.Sprintf("%02d", n)] for [0 <= n < 100]. *)
Definition pad2 (n : Z) : string :=
  String (digit (n / 10)) (String (digit n) EmptyString).

Definition pad4 (n : Z) : string :=
  String (digit (n / 1000)) (String (digit (n / 100)) (pad2 n)).

(** [t.Format("2006-01-02")] for years 0 to 9999. *)
Definition FormatDate (t : Time) : string :=
  (pad4 (Year t) ++ "-" ++ pad2 (Month t) ++ "-" ++ pad2 (Day t))%string.

Definition isDigit (c : ascii) : bool :=
  let n := nat_of_ascii c in ((48 <=? n) && (n <=? 57))%nat.

Definition digitVal (c : ascii) : Z := Z.of_nat (nat_of_ascii c) - 48.

Definition isLeap (y : Z) : bool :=
  ((y mod 4 =? 0) && negb (y mod 100 =? 0)) || (y mod 400 =? 0).

Definition daysIn (y m : Z) : Z :=
  if m =? 2 then (if isLeap y then 29 else 28)
  else if (m =? 4) || (m =? 6) || (m =? 9) || (m =? 11) then 30 else 31.

(** [time.Parse("2006-01-02", value)]: four digits, a dash, two digits,
    a dash, two digits, and then the end of the value; text left over
    after the layout is consumed is the error "extra text".  [None] is
    a parse error. *)
Definition ParseDate (value : string) : option Time :=
  match value with
  | String y1 (String y2 (String y3 (String y4 (String s1
      (String m1 (String m2 (String s2 (String d1 (String d2 rest))))))))) =>
      if forallb isDigit [y1; y2; y3; y4; m1; m2; d1; d2]
         && Ascii.eqb s1 "-" && Ascii.eqb s2 "-"
      then
        let y := 1000 * digitVal y1 + 100 * digitVal y2 + 10 * digitVal y3 + digitVal y4 in
        let m := 10 * digitVal m1 + digitVal m2 in
        let d := 10 * digitVal d1 + digitVal d2 in
        if (1 <=? m) && (m <=? 12) && (1 <=? d) && (d <=? daysIn y m)
        then match rest with
             | EmptyString => Some (Date y m d 0 0 0)
             | String _ _ => None
             end
        else None
      else None
  | _ => None
  end.

(** The pieces of [time.Parse] that the layout "2006-01-02 15:04:05"
    needs: [getnum] reads two digits, or just one when the field is not
    of fixed width. *)
Definition getnum (s : string) (fixed : bool) : option (Z * string) :=
  match s with
  | String a rest =>
      if isDigit a then
        match rest with
        | String b rest' =>
            if isDigit b then Some (10 * digitVal a + digitVal b, rest')
            else if fixed then None else Some (digitVal a, rest)
        | EmptyString => if fixed then None else Some (digitVal a, rest)
        end
      else None
  | EmptyString => None
  end.

Definition getyear (s : string) : option (Z * string) :=
  match s with
  | String a (String b (String c (String d rest))) =>
      if forallb isDigit [a; b; c; d]
      then Some (1000 * digitVal a + 100 * digitVal b + 10 * digitVal c + digitVal d, rest)
      else None
  | _ => None
  end.

Definition skipByte (c : ascii) (s : string) : option string :=
  match s with
  | String a rest => if Ascii.eqb a c then Some rest else None
  | EmptyString => None
  end.

Fixpoint cutspace (s : string) : string :=
  match s with
  | String a rest => if Ascii.eqb a " " then cutspace rest else s
  | EmptyString => s
  end.

(** A space of the layout stands for a run of spaces in the value. *)
Definition skipSpace (s : string) : option string :=
  match s with
  | String a _ => if Ascii.eqb a " " then Some (cutspace s) else None
  | EmptyString => Some s
  end.

(** Leading digits of [s], at most [n] of them kept, and what follows
    all the leading digits. *)
Fixpoint spanDigits (n : nat) (s : string) : list Z * string :=
  match s with
  | String a rest =>
      if isDigit a then
        let '(ds, r) := spanDigits (Nat.pred n) rest in
        (match n with O => ds | S _ => digitVal a :: ds end, r)
      else ([], s)
  | EmptyString => ([], s)
  end.

(** A fractional second that the value carries after the seconds field
    although the layout names none: nanoseconds and the rest. *)
Definition fraction (s : string) : Z * string :=
  match s with
  | String p (String d rest) =>
      if (Ascii.eqb p "." || Ascii.eqb p ",") && isDigit d then
        let '(ds, r) := spanDigits 9 (String d rest) in
        (fold_left (fun acc x => 10 * acc + x) ds 0 * 10 ^ (9 - Z.of_nat (length ds)), r)
      else (0, s)
  | _ => (0, s)
  end.

(** [time.Parse("2006-01-02 15:04:05", value)]; [None] is a parse
    error. *)
Definition ParseDateTime (value : string) : option Time :=
  '(y, v) ← getyear value;
  v ← skipByte "-" v;
  '(m, v) ← getnum v true;
  v ← skipByte "-" v;
  '(d, v) ← getnum v true;
  v ← skipSpace v;
  '(hh, v) ← getnum v false;
  v ← skipByte ":" v;
  '(mi, v) ← getnum v true;
  v ← skipByte ":" v;
  '(ss, v) ← getnum v true;
  let '(ns, v) := fraction v in
  if String.eqb v ""
     && (1 <=? m) && (m <=? 12) && (1 <=? d) && (d <=? daysIn y m)
     && (hh <? 24) && (mi <? 60) && (ss <? 60)
  then Some (Date y m d hh mi ss + ns)
  else None.

(** [t.Unix()]: seconds since 1970-01-01 UTC. *)
Definition Unix (t : Time) : Z := t / Second - 62135596800.

End GoTime.

(** ** Go's [sort] package and gonum's [stat] package

    The duration samples are [float64] seconds, held as the rationals
    they denote.  The order statistics below only compare samples, count
    them and select one of them.  The counts and the products [0.5 * n]
    and [0.9 * n] that the quantile compares are rounded in binary64 to
    the same side of every whole number as their exact values for any
    number of samples a run can hold, so they are taken exactly;
    [Stat64] below runs the quantile in binary64 itself.  The mean is
    computed with the rounded operations of [Float64].

    The sorts are insertion sorts: the library's algorithm differs, its
    result is the same ascending list. *)

Module GoSort.

Fixpoint insertQ (a : Q) (l : list Q) : list Q :=
  match l with
  | [] => [a]
  | b :: l' => if Qle_bool a b then a :: l else b :: insertQ a l'
  end.

(** [sort.Float64s(x)]: ascending order. *)
Fixpoint Float64s (x : list Q) : list Q :=
  match x with
  | [] => []
  | a :: x' => insertQ a (Float64s x')
  end.

(** [sort.Float64sAreSorted(x)]. *)
Fixpoint Float64sAreSorted (x : list Q) : bool :=
  match x with
  | [] => true
  | a :: x' =>
      match x' with
      | [] => true
      | b :: _ => Qle_bool a b && Float64sAreSorted x'
      end
  end.

Fixpoint insertS (a : string) (l : list string) : list string :=
  match l with
  | [] => [a]
  | b :: l' => if String.leb a b then a :: l else b :: insertS a l'
  end.

(** [sort.Strings(x)]: ascending byte-wise order. *)
Fixpoint Strings (x : list string) : list string :=
  match x with
  | [] => []
  | a :: x' => insertS a (Strings x')
  end.

Fixpoint insertZ (a : Z) (l : list Z) : list Z :=
  match l with
  | [] => [a]
  | b :: l' => if a <=? b then a :: l else b :: insertZ a l'
  end.

(** [sort.Ints(x)]. *)
Fixpoint Ints (x : list Z) : list Z :=
  match x with
  | [] => []
  | a :: x' => insertZ a (Ints x')
  end.

Fixpoint insertSR (a : string) (l : list string) : list string :=
  match l with
  | [] => [a]
  | b :: l' => if String.leb b a then a :: l else b :: insertSR a l'
  end.

(** [sort.Sort(sort.Reverse(sort.StringSlice(x)))]: descending
    byte-wise order. *)
Fixpoint StringsReverse (x : list string) : list string :=
  match x with
  | [] => []
  | a :: x' => insertSR a (StringsReverse x')
  end.

End GoSort.

Module Stat.

(** [floats.Sum(x)]: the samples are added to a sum that starts at
    zero, from the first to the last, each addition rounded.  (This is
    gonum's portable loop; its amd64 kernel adds the samples in several
    lanes, so for three or more samples its last bit can differ.) *)
Definition Sum (x : list Q) : Q := fold_left Float64.add x 0%Q.

(** [stat.Mean(x, nil)]: [floats.Sum(x) / float64(len(x))]. *)
Definition Mean (x : list Q) : Q :=
  Float64.div (Sum x) (Float64.ofInt (Z.of_nat (length x))).

(** The loop of [empiricalQuantile] with [weights == nil]: [cumsum]
    grows by one per sample and the first sample at which it reaches
    [fidx] is returned.  [None] is the [panic("impossible")] after the
    loop. *)
Fixpoint empiricalQuantile (fidx cumsum : Q) (x : list Q) : option Q :=
  match x with
  | [] => None
  | xi :: x' =>
      let cumsum := (cumsum + 1)%Q in
      if Qle_bool fidx cumsum then Some xi else empiricalQuantile fidx cumsum x'
  end.

(** [stat.Quantile(p, stat.Empirical, x, nil)].  [None] is a panic: [p]
    outside [0, 1], an empty [x], or an [x] that is not sorted. *)
Definition Quantile (p : Q) (x : list Q) : option Q :=
  if negb (Qle_bool 0 p && Qle_bool p 1) then None
  else match x with
       | [] => None
       | _ :: _ =>
           if negb (GoSort.Float64sAreSorted x) then None
           else
             let sumWeights := inject_Z (Z.of_nat (length x)) in
             empiricalQuantile (p * sumWeights)%Q 0%Q x
       end.

End Stat.

(** The same quantile in IEEE binary64 arithmetic, as the code runs it.
    It is evaluated below on the ten samples of the examples, where it
    agrees with the model above. *)

Module Stat64.

(** [float64(n)] for a count [n]. *)
Fixpoint ofNat (n : nat) : float :=
  match n with
  | O => 0%float
  | S k => (ofNat k + 1)%float
  end.

Fixpoint empiricalQuantile (fidx cumsum : float) (x : list float) : option float :=
  match x with
  | [] => None
  | xi :: x' =>
      let cumsum := (cumsum + 1)%float in
      if (fidx <=? cumsum)%float then Some xi else empiricalQuantile fidx cumsum x'
  end.

Definition Quantile (p : float) (x : list float) : option float :=
  empiricalQuantile (p * ofNat (length x))%float 0%float x.

(** [float64(n)] for an integer from 0 to 2^63 - 1. *)
Definition ofZ (n : Z) : float := of_uint63 (Uint63.of_Z n).

(** [d.Seconds()] for a duration of [sec] seconds and [nsec]
    nanoseconds, and the product [x * float64(time.Second)]. *)
Definition Seconds (sec nsec : Z) : float :=
  (ofZ sec + ofZ nsec / 1000000000)%float.

Definition nanoseconds (x : float) : float := (x * 1000000000)%float.

End Stat64.

(** ** Package [common]: the measurement model and the shared matchers *)

Module Common.

(** [Agent]: the fields the pipeline reads; the tool and probing
    statistics fields are carried through untouched. *)
Record Agent := {
  AgentUUID : string;
  AgentState : string
}.

Record Measurement := {
  Tool : string;
  Tags : list string;
  UUID : string;
  UserID : string;
  CreationTime : GoTime.Time;
  StartTime : GoTime.Time;
  EndTime : GoTime.Time;
  State : string;
  Agents : list Agent
}.

(** [MatchState]: linear search for an equal state. *)
Fixpoint MatchState (mState : string) (states : list string) : bool :=
  match states with
  | [] => false
  | state :: rest => if String.eqb state mState then true else MatchState mState rest
  end.

(** The inner loop of [MatchTag]: is [tag] contained in the lower-cased
    form of one of the measurement's tags? *)
Fixpoint tagFound (mTags : list string) (tag : string) : bool :=
  match mTags with
  | [] => false
  | measTag :: rest =>
      if GoStrings.Contains (GoStrings.ToLower measTag) tag then true
      else tagFound rest tag
  end.

(** The outer loop of [MatchTag]; [found] is the variable of that name. *)
Fixpoint matchTagLoop (mTags tags : list string) (tagsAnd found : bool) : bool :=
  match tags with
  | [] => found
  | tag :: rest =>
      let found := tagFound mTags tag in
      if found && negb tagsAnd then true
      else if negb found && tagsAnd then false
      else matchTagLoop mTags rest tagsAnd found
  end.

Definition MatchTag (mTags tags : list string) (tagsAnd : bool) : bool :=
  matchTagLoop mTags tags tagsAnd false.

(** The error value that [ValidateState] returns. *)
Inductive ValidationError :=
| ErrInvalidState.

(** [ValidateState]: the first state that is none of the four known
    ones, with [ErrInvalidState]; the empty string and no error when
    there is none. *)
Fixpoint ValidateState (states : list string) : string * option ValidationError :=
  match states with
  | [] => ("", None)
  | state :: rest =>
      if String.eqb state "finished" then ValidateState rest
      else if String.eqb state "ongoing" then ValidateState rest
      else if String.eqb state "canceled" then ValidateState rest
      else if String.eqb state "agent_failure" then ValidateState rest
      else (state, Some ErrInvalidState)
  end.

(** [CustomTime.Set]: [time.Parse("2006-01-02T15:04:05.999999", value)];
    [None] is the parse error that [Set] returns.  The fractional
    second of the layout may be absent from the value or have any
    number of digits. *)
Definition CustomTimeSet (value : string) : option GoTime.Time :=
  '(y, v) ← GoTime.getyear value;
  v ← GoTime.skipByte "-" v;
  '(m, v) ← GoTime.getnum v true;
  v ← GoTime.skipByte "-" v;
  '(d, v) ← GoTime.getnum v true;
  v ← GoTime.skipByte "T" v;
  '(hh, v) ← GoTime.getnum v false;
  v ← GoTime.skipByte ":" v;
  '(mi, v) ← GoTime.getnum v true;
  v ← GoTime.skipByte ":" v;
  '(ss, v) ← GoTime.getnum v true;
  let '(ns, v) := GoTime.fraction v in
  if String.eqb v ""
     && (1 <=? m) && (m <=? 12) && (1 <=? d) && (d <=? GoTime.daysIn y m)
     && (hh <? 24) && (mi <? 60) && (ss <? 60)
  then Some (GoTime.Date y m d hh mi ss + ns)
  else None.

End Common.

(** ** Package [agents]: the agent directory *)

Module Agents.

(** [GetAgentName]: the host name recorded for an agent UUID in the
    table [agentsUUIDName], or ["?"]. *)
Definition GetAgentName (agentsUUIDName : gmap string string) (uuid : string) : string :=
  default "?" (agentsUUIDName !! uuid).

End Agents.

(** ** Package [analyze] *)

Module Analyze.
Import Common.

Definition FirstMeasurementDate : string := "2020-01-01T00:00:00.000".
Definition LastMeasurementDate : string := "2040-01-01T00:00:00.000".

Definition DurationNone : Z := 1.
Definition DurationTooLong : Z := 2.
Definition DurationOK : Z := 3.

Definition hours : list string :=
  ["00"; "01"; "02"; "03"; "04"; "05"; "06"; "07";
   "08"; "09"; "10"; "11"; "12"; "13"; "14"; "15";
   "16"; "17"; "18"; "19"; "20"; "21"; "22"; "23"].

(** The command-line flags of [analyze] and the root [--verbose] flag. *)
Record Flags := {
  fAnalyzeAllUsers : bool;
  fAnalyzeBefore : GoTime.Time;
  fAnalyzeAfter : GoTime.Time;
  fAnalyzeState : list string;
  fAnalyzeTag : list string;
  fAnalyzeTagsAnd : bool;
  fAnalyzeAgents : list string;
  fHoursChart : bool;
  fTablesMeasUUID : string;
  fVerbose : bool
}.

(** The flags after [init()] and with nothing given on the command
    line. *)
Definition defaultFlags : Flags := {|
  fAnalyzeAllUsers := false;
  fAnalyzeBefore := GoTime.Date 2040 1 1 0 0 0;
  fAnalyzeAfter := GoTime.Date 2020 1 1 0 0 0;
  fAnalyzeState := [];
  fAnalyzeTag := [];
  fAnalyzeTagsAnd := false;
  fAnalyzeAgents := [];
  fHoursChart := false;
  fTablesMeasUUID := "";
  fVerbose := false
|}.

(** What the code prints, one event per print statement. *)
Inductive Out :=
| WarnNoCreationTime (uuid : string)
| WarnNoStartTime (uuid : string) (c : GoTime.Time)
| WarnNoEndTime (uuid : string) (s : GoTime.Time)
| MeasDetails (n : Z) (m : Measurement) (abbr : string) (issues : list string)
| NothingToPrint
| VerboseNewline
| TagsSection (tags : list string)
| StatesSection (found agentFailure canceled finished ongoing : Z)
| DurationHeader
| DurationRow (min max avg p50 p90 : GoTime.Duration) (label : string)
| AgentsSection (rows : list (Z * Z)) (results : Z)
| SkippingMeas (uuid : string)
| SkippingNoAgents (uuid : string)
| WarnNoTables (uuid : string)
| MeasTablesLine (uuid : string) (tags : list string) (state : string)
    (nFound : Z) (expectedError : option Z)
| Progress (n : Z) (uuid : string) (newline : bool)
| SkippingTable (name : string)
| MeasHeader (uuid : string)
| TableLine (name modTime : string) (rows bytes : Z) (host : string) (warning : bool)
| BlankLine.

(** The errors that the functions below return. *)
Inductive Error :=
| ErrInvalidTableName
| ErrZeroLength
| ErrParseTime (value : string)
| ErrStartDate
| ErrOther (msg : string).

(** How a function stops early: [log.Fatal], a run-time panic, or a
    returned error. *)
Inductive Abort :=
| FatalError (msg : string)
| Panic (msg : string)
| Returned (err : Error).

(** The package-level accumulators, and the output so far. *)
Record Acc := {
  totFound : Z;
  totAgentFailure : Z;
  totCanceled : Z;
  totFinished : Z;
  totOngoing : Z;
  nResults : Z;
  durationCS : list Q;
  durationSE : list Q;
  agentsPerMeas : gmap Z Z;
  stdout : list Out
}.

Definition initAcc : Acc := {|
  totFound := 0; totAgentFailure := 0; totCanceled := 0; totFinished := 0;
  totOngoing := 0; nResults := 0; durationCS := []; durationSE := [];
  agentsPerMeas := ∅; stdout := []
|}.

Definition print (o : Out) (a : Acc) : Acc :=
  {| totFound := totFound a; totAgentFailure := totAgentFailure a;
     totCanceled := totCanceled a; totFinished := totFinished a;
     totOngoing := totOngoing a; nResults := nResults a;
     durationCS := durationCS a; durationSE := durationSE a;
     agentsPerMeas := agentsPerMeas a; stdout := stdout a ++ [o] |}.

(** [verbose(...)]: prints only under [--verbose]. *)
Definition verbose (fl : Flags) (o : Out) (a : Acc) : Acc :=
  if fVerbose fl then print o a else a.

Definition setDurations (cs se : list Q) (a : Acc) : Acc :=
  {| totFound := totFound a; totAgentFailure := totAgentFailure a;
     totCanceled := totCanceled a; totFinished := totFinished a;
     totOngoing := totOngoing a; nResults := nResults a;
     durationCS := cs; durationSE := se;
     agentsPerMeas := agentsPerMeas a; stdout := stdout a |}.

Definition setCounters (found af ca fi on : Z) (a : Acc) : Acc :=
  {| totFound := found; totAgentFailure := af; totCanceled := ca;
     totFinished := fi; totOngoing := on; nResults := nResults a;
     durationCS := durationCS a; durationSE := durationSE a;
     agentsPerMeas := agentsPerMeas a; stdout := stdout a |}.

Definition setAgents (n : Z) (apm : gmap Z Z) (a : Acc) : Acc :=
  {| totFound := totFound a; totAgentFailure := totAgentFailure a;
     totCanceled := totCanceled a; totFinished := totFinished a;
     totOngoing := totOngoing a; nResults := n;
     durationCS := durationCS a; durationSE := durationSE a;
     agentsPerMeas := apm; stdout := stdout a |}.

(** [measSkip]: [true] when the measurement is filtered out. *)
Definition measSkip (fl : Flags) (measurement : Measurement) : bool :=
  if (0 <? Z.of_nat (length (fAnalyzeTag fl)))
     && negb (MatchTag (Tags measurement) (fAnalyzeTag fl) (fAnalyzeTagsAnd fl))
  then true
  else if (0 <? Z.of_nat (length (fAnalyzeState fl)))
          && negb (MatchState (State measurement) (fAnalyzeState fl))
  then true
  else if negb (GoTime.After (CreationTime measurement) (fAnalyzeAfter fl))
          || negb (GoTime.Before (CreationTime measurement) (fAnalyzeBefore fl))
  then true
  else false.

(** [measState]: counts the state; an unknown state is fatal. *)
Definition measState (state : string) (a : Acc) : Acc * option Abort :=
  if String.eqb state "agent_failure" then
    (setCounters (totFound a) (totAgentFailure a + 1) (totCanceled a)
       (totFinished a) (totOngoing a) a, None)
  else if String.eqb state "canceled" then
    (setCounters (totFound a) (totAgentFailure a) (totCanceled a + 1)
       (totFinished a) (totOngoing a) a, None)
  else if String.eqb state "finished" then
    (setCounters (totFound a) (totAgentFailure a) (totCanceled a)
       (totFinished a + 1) (totOngoing a) a, None)
  else if String.eqb state "ongoing" then
    (setCounters (totFound a) (totAgentFailure a) (totCanceled a)
       (totFinished a) (totOngoing a + 1) a, None)
  else (a, Some (FatalError ("unknown state: " ++ state))).

(** [measAgents]. *)
Definition measAgents (agents : list Agent) (a : Acc) : Z * Acc :=
  let nAgents := Z.of_nat (length agents) in
  (nAgents,
   setAgents (nResults a + nAgents)
     (<[nAgents := default 0 (agentsPerMeas a !! nAgents) + 1]> (agentsPerMeas a)) a).

(** The test [t.Year() == 1 && t.Month() == 1 && t.Day() == 1]. *)
Definition unset (t : GoTime.Time) : bool :=
  (GoTime.Year t =? 1) && (GoTime.Month t =? 1) && (GoTime.Day t =? 1).

(** The tag classes of [measDuration] with their [expectedDuration]. *)
Definition durationClasses : list (string * GoTime.Duration) :=
  [("zeph-gcp-daily.json", 5); ("collection:exhaustive", 24)].

(** The loop over the tag classes at the end of [measDuration]. *)
Fixpoint tookTooLong (tags : list string) (tagsAnd : bool) (d : GoTime.Duration)
    (classes : list (string * GoTime.Duration)) : bool :=
  match classes with
  | [] => false
  | (t, expected) :: rest =>
      if MatchTag tags [t] tagsAnd && (expected * GoTime.Hour <? d) then true
      else tookTooLong tags tagsAnd d rest
  end.

(** [measDuration]. *)
Definition measDuration (fl : Flags) (measurement : Measurement) (a : Acc) : Z * Acc :=
  let c := CreationTime measurement in
  if unset c then (DurationNone, print (WarnNoCreationTime (UUID measurement)) a)
  else
    let s := StartTime measurement in
    if unset s then (DurationNone, print (WarnNoStartTime (UUID measurement) c) a)
    else
      let e := EndTime measurement in
      if unset e then (DurationNone, print (WarnNoEndTime (UUID measurement) s) a)
      else
        let a := setDurations
                   (durationCS a ++ [GoTime.Seconds (GoTime.Sub s c)])
                   (durationSE a ++ [GoTime.Seconds (GoTime.Sub e s)]) a in
        if tookTooLong (Tags measurement) (fAnalyzeTagsAnd fl) (GoTime.Sub e s)
             durationClasses
        then (DurationTooLong, a)
        else (DurationOK, a).

Definition abbrState : gmap string string :=
  list_to_map [("agent_failure", "E"); ("canceled", "C");
               ("finished", "F"); ("ongoing", "O")].

(** [printMeasDetails]: the line is printed under [--verbose] or when
    there are issues. *)
Definition printMeasDetails (fl : Flags) (measurement : Measurement)
    (issues : list string) (a : Acc) : Acc * option Abort :=
  if negb (fVerbose fl) && (Z.of_nat (length issues) =? 0) then (a, None)
  else match abbrState !! State measurement with
       | None => (a, Some (Panic "internal error: invalid measurement state"))
       | Some ab => (print (MeasDetails (totFound a) measurement ab issues) a, None)
       end.

(** The statistics of one sorted sample list, as [printAnalysis]
    computes them. *)
Record Stats := {
  sMin : Q;
  sMax : Q;
  sAvg : Q;
  sP50 : Q;
  sP90 : Q
}.

(** [None] is a panic: an index into an empty slice. *)
Definition durationStats (x : list Q) : option Stats :=
  match x with
  | [] => None
  | x0 :: _ =>
      match Stat.Quantile (1 # 2) x, Stat.Quantile (9 # 10) x with
      | Some p50, Some p90 =>
          Some {| sMin := x0; sMax := List.last x x0; sAvg := Stat.Mean x;
                  sP50 := p50; sP90 := p90 |}
      | _, _ => None
      end
  end.

(** The value printed for a statistic: converted to a [time.Duration]
    and rounded to the second. *)
Definition shown (x : Q) : GoTime.Duration :=
  GoTime.Round (GoTime.ofSeconds x) GoTime.Second.

Definition statsRow (st : Stats) (label : string) : Out :=
  DurationRow (shown (sMin st)) (shown (sMax st)) (shown (sAvg st))
    (shown (sP50 st)) (shown (sP90 st)) label.

(** The "Durations" block of [printAnalysis]: both sample lists are
    sorted in place. *)
Definition printDurations (a : Acc) : Acc * option Abort :=
  let a := print DurationHeader a in
  let a := setDurations (GoSort.Float64s (durationCS a)) (durationSE a) a in
  match durationStats (durationCS a) with
  | None => (a, Some (Panic "index out of range"))
  | Some cs =>
      let a := print (statsRow cs "creation time to start time") a in
      let a := setDurations (durationCS a) (GoSort.Float64s (durationSE a)) a in
      match durationStats (durationSE a) with
      | None => (a, Some (Panic "index out of range"))
      | Some se => (print (statsRow se "start time to end time") a, None)
      end
  end.

(** [printAnalysis(what)]. *)
Definition printAnalysis (fl : Flags) (what : string) (a : Acc) : Acc * option Abort :=
  if totFound a =? 0 then (print NothingToPrint a, None)
  else
    let a := verbose fl VerboseNewline a in
    let a :=
      if String.eqb what "all" || String.eqb what "tags"
      then (if 0 <? Z.of_nat (length (fAnalyzeTag fl))
            then print (TagsSection (fAnalyzeTag fl)) a else a)
      else a in
    let a :=
      if String.eqb what "all" || String.eqb what "states"
      then print (StatesSection (totFound a) (totAgentFailure a) (totCanceled a)
                    (totFinished a) (totOngoing a)) a
      else a in
    let '(a, err) :=
      if String.eqb what "all" || String.eqb what "durations"
      then printDurations a else (a, None) in
    match err with
    | Some e => (a, Some e)
    | None =>
        if String.eqb what "all" || String.eqb what "agents"
        then
          let keys := GoSort.Ints (map fst (map_to_list (agentsPerMeas a))) in
          (print (AgentsSection
                    (map (fun k => (k, default 0 (agentsPerMeas a !! k))) keys)
                    (nResults a)) a, None)
        else (a, None)
    end.

(** The loop of [analyze] over the measurements. *)
Fixpoint analyzeLoop (fl : Flags) (measurements : list Measurement) (a : Acc)
    : Acc * option Abort :=
  match measurements with
  | [] => (a, None)
  | measurement :: rest =>
      if measSkip fl measurement then analyzeLoop fl rest a
      else
        let '(duration, a) := measDuration fl measurement a in
        if duration =? DurationNone then analyzeLoop fl rest a
        else
          let issues : list string := [] in
          let a := setCounters (totFound a + 1) (totAgentFailure a) (totCanceled a)
                     (totFinished a) (totOngoing a) a in
          let issues :=
            if duration =? DurationTooLong then (issues ++ ["took too long"])%list
            else issues in
          match measState (State measurement) a with
          | (a, Some e) => (a, Some e)
          | (a, None) =>
              let '(n, a) := measAgents (Agents measurement) a in
              let issues := if n =? 0 then (issues ++ ["has no agents"])%list else issues in
              match printMeasDetails fl measurement issues a with
              | (a, Some e) => (a, Some e)
              | (a, None) => analyzeLoop fl rest a
              end
          end
  end.

(** [analyze], given the measurements that [getMeasurements] loaded. *)
Definition analyze (fl : Flags) (measurements : list Measurement) (a : Acc)
    : Acc * option Abort :=
  match analyzeLoop fl measurements a with
  | (a, Some e) => (a, Some e)
  | (a, None) => printAnalysis fl "all" a
  end.

(** *** [analyze hours] *)

(** One round of the loop over [hours] inside [initHoursTable]: it
    first assigns a fresh bucket map to the date and then sets the hour
    in it. *)
Definition hourRound (dateStr : string) (measPerHour : gmap string (gmap string Z))
    (hour : string) : gmap string (gmap string Z) :=
  let measPerHour := <[dateStr := (∅ : gmap string Z)]> measPerHour in
  <[dateStr := <[hour := 0]> (default ∅ (measPerHour !! dateStr))]> measPerHour.

(** The loop over [hours] inside [initHoursTable]. *)
Definition hourLoop (dateStr : string) (measPerHour : gmap string (gmap string Z))
    : gmap string (gmap string Z) :=
  fold_left (hourRound dateStr) hours measPerHour.

Definition inspect {A} (a : A) : {b | a = b} := exist _ a eq_refl.

(** The loop over the days of [initHoursTable], from [current] up to
    and including the day of [currentDate]. *)
#[derive(eliminator=no)]
Equations? initHoursLoop (currentDate current : GoTime.Time)
    (measPerHour : gmap string (gmap string Z))
    : gmap string (gmap string Z)
    by wf (Z.to_nat ((currentDate - current) / GoTime.nsPerDay + 1)) lt :=
  initHoursLoop currentDate current measPerHour
    with inspect (GoTime.After current currentDate) => {
    | exist _ true _ := measPerHour
    | exist _ false H :=
        initHoursLoop currentDate (GoTime.AddDays current 1)
          (hourLoop (GoTime.FormatDate current) measPerHour) }.
Proof.
  unfold GoTime.After in H. apply Z.ltb_ge in H.
  unfold GoTime.AddDays.
  assert (Hd : 0 < GoTime.nsPerDay) by reflexivity.
  replace (currentDate - (current + 1 * GoTime.nsPerDay))
    with (currentDate - current + (-1) * GoTime.nsPerDay) by ring.
  rewrite Z.div_add by lia.
  assert (0 <= (currentDate - current) / GoTime.nsPerDay)
    by (apply Z.div_pos; lia).
  lia.
Qed.

(** [initHoursTable]; [currentDate] is the value of [time.Now()]. *)
Definition initHoursTable (currentDate : GoTime.Time)
    (measPerHour : gmap string (gmap string Z))
    : gmap string (gmap string Z) * option Error :=
  match GoTime.ParseDate FirstMeasurementDate with
  | None => (measPerHour, Some ErrStartDate)
  | Some startDate => (initHoursLoop currentDate startDate measPerHour, None)
  end.

(** The population loop of [analyzeHours]. *)
Fixpoint populateHours (fl : Flags) (measurements : list Measurement)
    (measPerHourUntrimmed : gmap string (gmap string Z))
    : gmap string (gmap string Z) * option Abort :=
  match measurements with
  | [] => (measPerHourUntrimmed, None)
  | measurement :: rest =>
      if measSkip fl measurement then populateHours fl rest measPerHourUntrimmed
      else
        let d := GoTime.FormatDate (CreationTime measurement) in
        match measPerHourUntrimmed !! d with
        | None => (measPerHourUntrimmed, Some (Panic "analyzeHours"))
        | Some bucket =>
            let t := GoTime.pad2 (GoTime.HourOf (CreationTime measurement)) in
            populateHours fl rest
              (<[d := <[t := default 0 (bucket !! t) + 1]> bucket]> measPerHourUntrimmed)
        end
  end.

(** [analyzeHours] up to the populated, untrimmed grid. *)
Definition analyzeHoursGrid (fl : Flags) (currentDate : GoTime.Time)
    (measurements : list Measurement)
    : gmap string (gmap string Z) * option Abort :=
  match initHoursTable currentDate ∅ with
  | (mph, Some _) => (mph, Some (FatalError "failed to parse start date"))
  | (mph, None) => populateHours fl measurements mph
  end.

(** *** [analyze tables] *)

(** A row of the ClickHouse catalog ([MeasTable] of tables.go). *)
Record MeasTable := {
  Name : string;
  ModTime : string;
  Rows : Z;
  Bytes : Z
}.

Record tableDetails := {
  modTime : string;
  rows : Z;
  bytes : Z
}.

(** [parseMeasAgentUUIDs]. *)
Definition parseMeasAgentUUIDs (tableName : string) : string * string * option Error :=
  let start := GoStrings.Index tableName "__" in
  if start =? -1 then ("", "", Some ErrInvalidTableName)
  else
    let start := start + 2 in
    let end_ := GoStrings.Index (GoStrings.sliceFrom tableName start) "__" in
    if end_ =? -1 then ("", "", Some ErrInvalidTableName)
    else
      let measUUID :=
        GoStrings.ReplaceAll (GoStrings.slice tableName start (start + end_)) "_" "-" in
      let end_ := end_ + start + 2 in
      let agentUUID := GoStrings.sliceFrom tableName end_ in
      (measUUID, agentUUID, None).

(** [sortByKey]. *)
Definition sortByKey (data : gmap string tableDetails) : list string :=
  GoSort.Strings (map fst (map_to_list data)).

(** The search of [printTableDetails] through [fAnalyzeAgents]: the
    final value of [skip]. *)
Fixpoint agentSkip (agents : list string) (h : string) : bool :=
  match agents with
  | [] => true
  | a :: rest => if String.eqb a h then false else agentSkip rest h
  end.

(** The loop of [printTableDetails] over the sorted table names. *)
Fixpoint printTableRows (fl : Flags) (agentsUUIDName : gmap string string)
    (data : gmap string tableDetails) (names : list string) (a : Acc)
    : Acc * option Abort :=
  match names with
  | [] => (a, None)
  | tblName :: rest =>
      match parseMeasAgentUUIDs tblName with
      | (_, _, Some _) => (a, Some (Panic "invalid table name"))
      | (_, agentUUID, None) =>
          let h := Agents.GetAgentName agentsUUIDName
                     (GoStrings.ReplaceAll agentUUID "_" "-") in
          let skip :=
            if 0 <? Z.of_nat (length (fAnalyzeAgents fl))
            then agentSkip (fAnalyzeAgents fl) h else false in
          if skip then printTableRows fl agentsUUIDName data rest a
          else
            let tblDetails :=
              default {| modTime := ""; rows := 0; bytes := 0 |} (data !! tblName) in
            let warning := (rows tblDetails =? 0) || (bytes tblDetails =? 0) in
            printTableRows fl agentsUUIDName data rest
              (print (TableLine tblName (modTime tblDetails) (rows tblDetails)
                        (bytes tblDetails) h warning) a)
      end
  end.

Definition printTableDetails (fl : Flags) (agentsUUIDName : gmap string string)
    (data : gmap string tableDetails) (a : Acc) : Acc * option Abort :=
  printTableRows fl agentsUUIDName data (sortByKey data) a.

(** The loop of [printTables], with its variables [data] and
    [prevMeasUUID]. *)
Fixpoint printTablesLoop (fl : Flags) (agentsUUIDName : gmap string string)
    (measTables : list MeasTable) (data : gmap string tableDetails)
    (prevMeasUUID : string) (a : Acc) : Acc * option Abort :=
  match measTables with
  | [] => printTableDetails fl agentsUUIDName data a
  | table :: rest =>
      match GoTime.ParseDateTime (ModTime table) with
      | None => (a, Some (Returned (ErrParseTime (ModTime table))))
      | Some mt =>
          if negb (GoTime.After mt (fAnalyzeAfter fl))
             || negb (GoTime.Before mt (fAnalyzeBefore fl))
          then printTablesLoop fl agentsUUIDName rest data prevMeasUUID
                 (verbose fl (SkippingTable (Name table)) a)
          else
            match parseMeasAgentUUIDs (Name table) with
            | (_, _, Some err) => (a, Some (Returned err))
            | (measUUID, _, None) =>
                let details := {| modTime := ModTime table; rows := Rows table;
                                  bytes := Bytes table |} in
                let prevMeasUUID :=
                  if String.eqb prevMeasUUID "" then measUUID else prevMeasUUID in
                if negb (String.eqb prevMeasUUID measUUID) then
                  match printTableDetails fl agentsUUIDName data
                          (print (MeasHeader prevMeasUUID) a) with
                  | (a, Some e) => (a, Some e)
                  | (a, None) =>
                      printTablesLoop fl agentsUUIDName rest
                        (<[Name table := details]> ∅) measUUID a
                  end
                else
                  printTablesLoop fl agentsUUIDName rest
                    (<[Name table := details]> data) prevMeasUUID a
            end
      end
  end.

Definition printTables (fl : Flags) (agentsUUIDName : gmap string string)
    (measTables : list MeasTable) (a : Acc) : Acc * option Abort :=
  printTablesLoop fl agentsUUIDName measTables ∅ "" a.

(** What [getOneMeasTables] answers for a measurement UUID: the rows
    and the error of the ClickHouse query. *)
Definition Catalog := string -> list MeasTable * option Error.

(** [errors.Is(err, common.ErrZeroLength)]. *)
Definition isZeroLength (err : Error) : bool :=
  match err with
  | ErrZeroLength => true
  | _ => false
  end.

(** The loop of [analyzeTablesByMeasurement], with its counter [n]. *)
Fixpoint tablesLoop (fl : Flags) (agentsUUIDName : gmap string string)
    (getOneMeasTables : Catalog) (measurements : list Measurement)
    (n : Z) (a : Acc) : Z * Acc * option Abort :=
  match measurements with
  | [] => (n, a, None)
  | measurement :: rest =>
      if measSkip fl measurement
         || (negb (String.eqb (fTablesMeasUUID fl) "")
             && negb (String.eqb (fTablesMeasUUID fl) (UUID measurement)))
      then tablesLoop fl agentsUUIDName getOneMeasTables rest n
             (verbose fl (SkippingMeas (UUID measurement)) a)
      else if Z.of_nat (length (Agents measurement)) =? 0
      then tablesLoop fl agentsUUIDName getOneMeasTables rest n
             (verbose fl (SkippingNoAgents (UUID measurement)) a)
      else
        match getOneMeasTables (UUID measurement) with
        | (_, Some err) =>
            if negb (isZeroLength err) then (n, a, Some (Returned err))
            else tablesLoop fl agentsUUIDName getOneMeasTables rest n
                   (print (WarnNoTables (UUID measurement)) a)
        | (measTables, None) =>
            let n := n + 1 in
            let nFound := Z.of_nat (length measTables) in
            let nExpected := Z.of_nat (length (Agents measurement)) * 4 in
            let expectedError :=
              if negb (nFound =? nExpected) then Some nExpected else None in
            let a :=
              if fVerbose fl
              then print (MeasTablesLine (UUID measurement) (Tags measurement)
                            (State measurement) nFound expectedError) a
              else print (Progress n (UUID measurement)
                            (negb (String.eqb (fTablesMeasUUID fl) ""))) a in
            match printTables fl agentsUUIDName measTables a with
            | (a, Some e) => (n, a, Some e)
            | (a, None) => tablesLoop fl agentsUUIDName getOneMeasTables rest n a
            end
        end
  end.

(** [analyzeTablesByMeasurement]. *)
Definition analyzeTablesByMeasurement (fl : Flags)
    (agentsUUIDName : gmap string string) (getOneMeasTables : Catalog)
    (measurements : list Measurement) (a : Acc) : Z * Acc * option Abort :=
  match tablesLoop fl agentsUUIDName getOneMeasTables measurements 0 a with
  | (n, a, Some e) => (n, a, Some e)
  | (n, a, None) => (n, if negb (fVerbose fl) then print BlankLine a else a, None)
  end.

(** *** [validateFlags], [analyze states] and the first case of [analyze tables] *)

(** [validateFlags]: [cliFatal] on a [--state] value that
    [ValidateState] rejects. *)
Definition validateFlags (fl : Flags) : option Abort :=
  if 0 <? Z.of_nat (length (fAnalyzeState fl)) then
    match ValidateState (fAnalyzeState fl) with
    | (s, Some _) => Some (FatalError (s ++ ": invalid state"))
    | (_, None) => None
    end
  else None.



(** The test of [analyzeTables] that selects its first case, the one
    query for all tables; [nargs] is [len(args)].  The errors of the
    two [time.Parse] calls are dropped, and a failed [time.Parse]
    returns the zero time. *)
Definition byNameCase (fl : Flags) (nargs : Z) : bool :=
  let ta := default GoTime.zeroTime (GoTime.ParseDate FirstMeasurementDate) in
  let tb := default GoTime.zeroTime (GoTime.ParseDate LastMeasurementDate) in
  fAnalyzeAllUsers fl && (nargs =? 0)
  && (Z.of_nat (length (fAnalyzeTag fl)) =? 0)
  && (Z.of_nat (length (fAnalyzeState fl)) =? 0)
  && String.eqb (fTablesMeasUUID fl) ""
  && GoTime.Equal ta (fAnalyzeAfter fl) && GoTime.Equal tb (fAnalyzeBefore fl).

(** [analyzeTablesByName]; [getAllMeasTables] is the answer of the
    ClickHouse query for all tables. *)
Definition analyzeTablesByName (fl : Flags) (agentsUUIDName : gmap string string)
    (getAllMeasTables : list MeasTable * option Error) (a : Acc) : Acc * option Abort :=
  match getAllMeasTables with
  | (_, Some err) => (a, Some (Returned err))
  | (measTables, None) => printTables fl agentsUUIDName measTables a
  end.

(** *** [analyze tags] *)

(** The body of the loop of [analyzeTags] over the tags of one
    measurement. *)
Definition countTag (measTags : gmap string Z) (tag : string) : gmap string Z :=
  match measTags !! tag with
  | None => <[tag := 1]> measTags
  | Some count => <[tag := count + 1]> measTags
  end.

(** The loop of [analyzeTags] over the measurements, with its two
    maps [measTags] and [tagCounts]. *)
Fixpoint tagsLoop (fl : Flags) (measurements : list Measurement)
    (measTags tagCounts : gmap string Z) : gmap string Z * gmap string Z :=
  match measurements with
  | [] => (measTags, tagCounts)
  | measurement :: rest =>
      if measSkip fl measurement then tagsLoop fl rest measTags tagCounts
      else
        let measTags :=
          if Z.of_nat (length (Tags measurement)) =? 0
          then <["" := default 0 (measTags !! "") + 1]> measTags
          else fold_left countTag (Tags measurement) measTags in
        let sortedTags := GoSort.Strings (Tags measurement) in
        let tagStr := GoStrings.Join sortedTags "," in
        tagsLoop fl rest measTags
          (<[tagStr := default 0 (tagCounts !! tagStr) + 1]> tagCounts)
  end.

(** [analyzeTags] up to the two maps that it prints: the count per tag
    and the count per combination of tags.  (The order of the printed
    rows with equal counts follows the iteration order of the maps.) *)
Definition analyzeTags (fl : Flags) (measurements : list Measurement)
    : gmap string Z * gmap string Z :=
  tagsLoop fl measurements (<["<no-tags>" := 0]> ∅) ∅.

(** *** [analyze hours] after the grid is populated *)

(** [measPerHour[date][hour]] with its [exists] flag; reading a date
    that is not in the map reads a nil map. *)
Definition cell (measPerHour : gmap string (gmap string Z)) (date hour : string)
    : option Z :=
  match measPerHour !! date with
  | Some bucket => bucket !! hour
  | None => None
  end.

(** The inner loop of the scan for [firstDate]: some hour of the date
    has a number above 0. *)
Definition anyPositive (measPerHour : gmap string (gmap string Z)) (date : string)
    : bool :=
  existsb (fun hour => match cell measPerHour date hour with
                       | Some number => 0 <? number
                       | None => false
                       end) hours.

(** The scan of [analyzeHours] for [firstDate]: the last of the sorted
    dates that has a measurement. *)
Definition scanFirstDate (measPerHourUntrimmed : gmap string (gmap string Z))
    (sortedDates : list string) : string :=
  fold_left (fun firstDate date =>
               if anyPositive measPerHourUntrimmed date then date else firstDate)
    sortedDates "".

(** The copy of one date into the trimmed map. *)
Definition copyHours (measPerHourUntrimmed : gmap string (gmap string Z))
    (date : string) (measPerHour : gmap string (gmap string Z))
    : gmap string (gmap string Z) :=
  fold_left (fun mph hour =>
               <[date := <[hour := default 0 (cell measPerHourUntrimmed date hour)]>
                           (default ∅ (mph !! date))]> mph)
    hours (<[date := (∅ : gmap string Z)]> measPerHour).

(** The loop of [analyzeHours] that trims the map. *)
Fixpoint trimLoop (measPerHourUntrimmed : gmap string (gmap string Z))
    (firstDate : string) (sortedDates : list string)
    (measPerHour : gmap string (gmap string Z)) : gmap string (gmap string Z) :=
  match sortedDates with
  | [] => measPerHour
  | date :: rest =>
      let measPerHour := copyHours measPerHourUntrimmed date measPerHour in
      if String.eqb date firstDate then measPerHour
      else trimLoop measPerHourUntrimmed firstDate rest measPerHour
  end.

(** What [textChart] prints: the header with the hours, and one row
    per date with a dot ([None]) or a number per hour. *)
Inductive ChartOut :=
| ChartHeader (hours : list string)
| ChartRow (date : string) (cells : list (option Z)).

(** "Any runs on this day?" in [textChart]. *)
Definition anyRun (measPerHour : gmap string (gmap string Z)) (date : string) : bool :=
  existsb (fun hour => match cell measPerHour date hour with
                       | Some number => negb (number =? 0)
                       | None => false
                       end) hours.

Definition chartRow (measPerHour : gmap string (gmap string Z)) (date : string)
    : ChartOut :=
  ChartRow date
    (map (fun hour => match cell measPerHour date hour with
                      | Some number => if number =? 0 then None else Some number
                      | None => None
                      end) hours).

(** [textChart]. *)
Definition textChart (fl : Flags) (measPerHour : gmap string (gmap string Z))
    (sortedDates : list string) : list ChartOut :=
  ChartHeader hours
  :: flat_map (fun date =>
                 if negb (fVerbose fl) && negb (anyRun measPerHour date) then []
                 else [chartRow measPerHour date]) sortedDates.

(** The dates of the untrimmed map, newest first. *)
Definition sortedDatesOf (measPerHourUntrimmed : gmap string (gmap string Z))
    : list string :=
  GoSort.StringsReverse (map fst (map_to_list measPerHourUntrimmed)).

(** The trimmed map of [analyzeHours]. *)
Definition trimHours (measPerHourUntrimmed : gmap string (gmap string Z))
    : gmap string (gmap string Z) :=
  let sortedDates := sortedDatesOf measPerHourUntrimmed in
  trimLoop measPerHourUntrimmed (scanFirstDate measPerHourUntrimmed sortedDates)
    sortedDates ∅.

(** [analyzeHours] from the populated map on, without [--chart]. *)
Definition analyzeHoursText (fl : Flags)
    (measPerHourUntrimmed : gmap string (gmap string Z)) : list ChartOut :=
  textChart fl (trimHours measPerHourUntrimmed) (sortedDatesOf measPerHourUntrimmed).

(** A point of [initXY]: the hour, the Unix time of the date, and the
    label, [None] for the empty one. *)
Record Point := {
  pX : Z;
  pY : Z;
  pLabel : option Z
}.

(** The loop of [initXY] over the hours 0 to 23 of one date. *)
Fixpoint xyHours (measPerHour : gmap string (gmap string Z)) (date : string)
    (d : GoTime.Time) (hs : list nat) (xy : list Point) : list Point * option Abort :=
  match hs with
  | [] => (xy, None)
  | h :: rest =>
      let hour := GoTime.pad2 (Z.of_nat h) in
      match cell measPerHour date hour with
      | None => (xy, Some (Panic "corrupted measPerHour map"))
      | Some n =>
          if negb (anyRun measPerHour date) then xyHours measPerHour date d rest xy
          else
            xyHours measPerHour date d rest
              (xy ++ [{| pX := Z.of_nat h; pY := GoTime.Unix d;
                         pLabel := if n =? 0 then None else Some n |}])%list
      end
  end.

(** The loop of [initXY] over the dates; the panic with the parse
    error of a date carries a shortened text. *)
Fixpoint xyDates (measPerHour : gmap string (gmap string Z)) (dates : list string)
    (xy : list Point) : list Point * option Abort :=
  match dates with
  | [] => (xy, None)
  | date :: rest =>
      match GoTime.ParseDate date with
      | None => (xy, Some (Panic "parsing time"))
      | Some d =>
          match measPerHour !! date with
          | None => (xy, Some (Panic "corrupted measPerHour map"))
          | Some _ =>
              match xyHours measPerHour date d (seq 0 24) xy with
              | (xy, Some e) => (xy, Some e)
              | (xy, None) => xyDates measPerHour rest xy
              end
          end
      end
  end.

(** [initXY]: the points with their labels.  The dates are visited in
    the order in which the map enumerates them. *)
Definition initXY (measPerHour : gmap string (gmap string Z))
    : list Point * option Abort :=
  xyDates measPerHour (map fst (map_to_list measPerHour)) [].

End Analyze.

(** ** Package [meas]: fetching the measurement metadata *)

Module Meas.

(** The flags of [meas]. *)
Record Flags := {
  fMeasAllUsers : bool;
  fMeasPublic : bool;
  fMeasState : string;
  fMeasTag : string
}.

(** The request that one round of [getMeasMdFile] sends: the query
    parameters of its URL. *)
Record Request := {
  reqPublic : bool;
  reqOnlyMine : bool;
  reqState : string;
  reqTag : string;
  reqOffset : Z;
  reqLimit : Z
}.

(** What can happen to one request: [common.Curl] fails; the body is
    received but writing it to the file fails; the body is written but
    is not a measurement batch; or it is a batch, whose [Next] field is
    [nil] or a string. *)
Inductive Reply :=
| CurlFailed (msg : string)
| WriteFailed (jsonData : string) (msg : string)
| UnmarshalFailed (jsonData : string) (msg : string)
| Batch (jsonData : string) (next : option string).

(** What a run of [getMeasMdFile] did: the requests it sent, in order,
    the bodies it wrote to the file, and the error it returned. *)
Record Fetch := {
  requests : list Request;
  written : list string;
  failure : option string
}.

Definition limit : Z := 200.

Definition request (fl : Flags) (offset : Z) : Request :=
  {| reqPublic := fMeasPublic fl;
     reqOnlyMine := negb (fMeasAllUsers fl);
     reqState := fMeasState fl;
     reqTag := fMeasTag fl;
     reqOffset := offset;
     reqLimit := limit |}.

Definition sent (r : Request) (f : Fetch) : Fetch :=
  {| requests := r :: requests f; written := written f; failure := failure f |}.

Definition wrote (jsonData : string) (f : Fetch) : Fetch :=
  {| requests := requests f; written := jsonData :: written f; failure := failure f |}.

Definition stop (err : option string) : Fetch :=
  {| requests := []; written := []; failure := err |}.

(** [batch.Next == nil || *batch.Next == ""]. *)
Definition lastPage (next : option string) : bool :=
  match next with
  | None => true
  | Some n => String.eqb n ""
  end.

Definition inspect {A} (a : A) : {b | a = b} := exist _ a eq_refl.

(** The loop of [getMeasMdFile] from [offset] on; [server] gives the
    outcome of the request for each offset. *)
#[derive(eliminator=no)]
Equations? fetchLoop (fl : Flags) (server : Request -> Reply) (offset : Z) : Fetch
    by wf (Z.to_nat ((10000 - offset + limit - 1) / limit)) lt :=
  fetchLoop fl server offset with inspect (offset <? 10000) => {
    | exist _ false _ := stop None
    | exist _ true H with server (request fl offset) => {
        | CurlFailed msg := sent (request fl offset) (stop (Some msg))
        | WriteFailed _ msg := sent (request fl offset) (stop (Some msg))
        | UnmarshalFailed jsonData msg :=
            sent (request fl offset) (wrote jsonData (stop (Some msg)))
        | Batch jsonData next with lastPage next => {
            | true := sent (request fl offset) (wrote jsonData (stop None))
            | false :=
                sent (request fl offset)
                  (wrote jsonData (fetchLoop fl server (offset + limit))) } } }.
Proof.
  apply Z.ltb_lt in H. unfold limit.
  replace (10000 - (offset + 200) + 200 - 1) with (10000 - offset + 200 - 1 + (-1) * 200) by ring.
  rewrite Z.div_add by lia.
  assert (1 <= (10000 - offset + 200 - 1) / 200)
    by (apply Z.div_le_lower_bound; lia).
  lia.
Qed.

(** [getMeasMdFile], once the temporary file is open. *)
Definition getMeasMdFile (fl : Flags) (server : Request -> Reply) : Fetch :=
  fetchLoop fl server 0.

End Meas.

(** ** Package [list] *)

Module ListCmd.
Import Common.

Definition FirstMeasurementDate : string := "2020-01-01".
Definition LastMeasurementDate : string := "2040-01-01".

(** The flags of [list] and the root flag [--brief]. *)
Record Flags := {
  fListAllUsers : bool;
  fListBQFormat : bool;
  fListBefore : GoTime.Time;
  fListAfter : GoTime.Time;
  fListState : list string;
  fListTag : list string;
  fListTagsAnd : bool;
  fListAgents : list string;
  fListUUID : bool;
  fBrief : bool
}.

(** What [list] prints: the UUID that starts a line, the end of a
    brief line, the rest of a detailed line, and a line in the
    BigQuery format. *)
Inductive Out :=
| LineUUID (uuid : string)
| LineEnd
| LineDetails (m : Measurement) (abbr : string)
| LineBQ (uuid : string) (s e : GoTime.Time) (state : string)
    (agentsNum agentsFinished : Z).

(** [init()]: both dates go through [CustomTime.Set]; an error is
    fatal.  (The text of the parse error is shortened.) *)
Definition init : option Analyze.Abort :=
  match Common.CustomTimeSet FirstMeasurementDate with
  | None => Some (Analyze.FatalError "parsing time")
  | Some _ =>
      match Common.CustomTimeSet LastMeasurementDate with
      | None => Some (Analyze.FatalError "parsing time")
      | Some _ => None
      end
  end.

(** [measSkip] of package [list]. *)
Definition measSkip (fl : Flags) (measurement : Measurement) : bool :=
  if (0 <? Z.of_nat (length (fListTag fl)))
     && negb (MatchTag (Tags measurement) (fListTag fl) (fListTagsAnd fl))
  then true
  else if (0 <? Z.of_nat (length (fListState fl)))
          && negb (MatchState (State measurement) (fListState fl))
  then true
  else if negb (GoTime.After (CreationTime measurement) (fListAfter fl))
          || negb (GoTime.Before (CreationTime measurement) (fListBefore fl))
  then true
  else false.

(** [printMeasDetails] of package [list]; its [abbrState] map holds
    the same four entries as that of package [analyze]. *)
Definition printMeasDetails (fl : Flags) (measurement : Measurement) (out : list Out)
    : list Out * option Analyze.Abort :=
  let out := (out ++ [LineUUID (UUID measurement)])%list in
  if fBrief fl then ((out ++ [LineEnd])%list, None)
  else match Analyze.abbrState !! State measurement with
       | None => (out, Some (Analyze.Panic "internal error: invalid measurement state"))
       | Some a => ((out ++ [LineDetails measurement a])%list, None)
       end.

(** The loop of [printMeasDetailsBQ] that counts the finished agents. *)
Fixpoint agentsFinished (agents : list Agent) : Z :=
  match agents with
  | [] => 0
  | a :: rest =>
      (if String.eqb (AgentState a) "finished" then 1 else 0) + agentsFinished rest
  end.

(** [printMeasDetailsBQ]. *)
Definition printMeasDetailsBQ (measurement : Measurement) (out : list Out) : list Out :=
  (out ++ [LineBQ (UUID measurement) (StartTime measurement) (EndTime measurement)
             (State measurement) (Z.of_nat (length (Agents measurement)))
             (agentsFinished (Agents measurement))])%list.

(** [validateFlags] of package [list]. *)
Definition validateFlags (fl : Flags) : option Analyze.Abort :=
  if 0 <? Z.of_nat (length (fListState fl)) then
    match ValidateState (fListState fl) with
    | (s, Some _) => Some (Analyze.FatalError (s ++ ": invalid state"))
    | (_, None) => None
    end
  else None.

(** The loop of [list] over the measurements of the metadata file
    (without [--uuid]); [getMeasurementAllDetails] is the answer of the
    API for a measurement UUID, an error message or the measurement. *)
Fixpoint listLoop (fl : Flags) (getMeasurementAllDetails : string -> string + Measurement)
    (measurements : list Measurement) (out : list Out)
    : list Out * option Analyze.Abort :=
  match measurements with
  | [] => (out, None)
  | measurement :: rest =>
      if measSkip fl measurement
      then listLoop fl getMeasurementAllDetails rest out
      else if fListBQFormat fl then
        match getMeasurementAllDetails (UUID measurement) with
        | inl err => (out, Some (Analyze.FatalError err))
        | inr measurement =>
            listLoop fl getMeasurementAllDetails rest (printMeasDetailsBQ measurement out)
        end
      else
        match printMeasDetails fl measurement out with
        | (out, Some e) => (out, Some e)
        | (out, None) => listLoop fl getMeasurementAllDetails rest out
        end
  end.

End ListCmd.

(** ** The specification's notions and the invariants of the proofs *)

Module Spec.
Import Common Analyze.

(** The test of [MatchTag] as a proposition: the filter tag, as it is
    written, is contained in the lower-cased form of one of the
    measurement's tags. *)
Definition foundIn (mTags : list string) (tag : string) : Prop :=
  exists measTag,
    In measTag mTags /\ GoStrings.Contains (GoStrings.ToLower measTag) tag = true.

(** The capital ASCII letters and, at the same places, their small
    forms. *)
Definition capitals : string := "ABCDEFGHIJKLMNOPQRSTUVWXYZ".
Definition smalls : string := "abcdefghijklmnopqrstuvwxyz".

Definition caseTwins : list (ascii * ascii) :=
  combine (list_ascii_of_string capitals) (list_ascii_of_string smalls).

(** Two bytes are the same letter up to case: they are equal, or one
    is a capital letter and the other its small form. *)
Definition sameLetter (a b : ascii) : Prop :=
  a = b \/ In (a, b) caseTwins \/ In (b, a) caseTwins.

(** Two strings are equal up to the case of their letters. *)
Fixpoint equalFold (s t : string) : Prop :=
  match s, t with
  | EmptyString, EmptyString => True
  | String a s', String b t' => sameLetter a b /\ equalFold s' t'
  | _, _ => False
  end.

(** Case-insensitive substring containment: [sub] occurs in [s] up to
    the case of the letters. *)
Definition containsFold (s sub : string) : Prop :=
  exists pre mid post, s = (pre ++ mid ++ post)%string /\ equalFold mid sub.

(** A filter tag hits a measurement when one of the measurement's tags
    contains it, case-insensitively. *)
Definition tagHit (mTags : list string) (tag : string) : Prop :=
  exists measTag, In measTag mTags /\ containsFold measTag tag.

(** The combination rule as the specification words it: with [tagsAnd]
    every filter tag hits, without it some filter tag hits. *)
Definition tagRule (mTags tags : list string) (tagsAnd : bool) : Prop :=
  if tagsAnd then forall tag, In tag tags -> tagHit mTags tag
  else exists tag, In tag tags /\ tagHit mTags tag.

(** The filter as the specification words it. *)
Definition matches (fl : Flags) (m : Measurement) : Prop :=
  (fAnalyzeAfter fl < CreationTime m /\ CreationTime m < fAnalyzeBefore fl)
  /\ (fAnalyzeState fl = [] \/ In (State m) (fAnalyzeState fl))
  /\ (fAnalyzeTag fl = [] \/ tagRule (Tags m) (fAnalyzeTag fl) (fAnalyzeTagsAnd fl)).

(** The string holds no capital ASCII letter. *)
Definition noCapital (s : string) : bool :=
  forallb (fun c => negb (existsb (Ascii.eqb c) (list_ascii_of_string capitals)))
    (list_ascii_of_string s).

(** The string is ASCII text: every byte is below 128. *)
Definition asciiOnly (s : string) : bool :=
  forallb (fun c => (nat_of_ascii c <? 128)%nat) (list_ascii_of_string s).

(** The expected-count errors that an output carries, in order. *)
Definition countErrors (out : list Out) : list Z :=
  flat_map (fun o => match o with
                     | MeasTablesLine _ _ _ _ (Some expected) => [expected]
                     | _ => []
                     end) out.

(** The tables that an output marks with the "expected > 0" warning. *)
Definition zeroWarnings (out : list Out) : list string :=
  flat_map (fun o => match o with
                     | TableLine name _ _ _ _ true => [name]
                     | _ => []
                     end) out.

(** [a'] has the output of [a] and possibly more. *)
Definition extends (a a' : Acc) : Prop :=
  exists later, stdout a' = (stdout a ++ later)%list.

(** [a'] carries the same expected-count errors as [a]. *)
Definition quiet (a a' : Acc) : Prop :=
  countErrors (stdout a') = countErrors (stdout a).

(** The two facts about a function's effect on the output that the
    proofs below carry through the loops. *)
Definition calm (a a' : Acc) : Prop := extends a a' /\ quiet a a'.

(** The longest duration whose [Seconds], multiplied back to
    nanoseconds, are below [2^63] and so convert to a [time.Duration]:
    379 ns less than the longest duration, about 292 years. *)
Definition lastConvertible : GoTime.Duration := 9223372036854775428.

(** A sample is the [Seconds] of a duration up to [lastConvertible]. *)
Definition isSample (q : Q) : Prop :=
  exists d, GoTime.minDuration <= d <= lastConvertible /\ q = GoTime.Seconds d.

(** A printed row of duration statistics reads minimum, median, 90th
    percentile, maximum in ascending order. *)
Definition rowOrdered (o : Out) : Prop :=
  match o with
  | DurationRow min max _ p50 p90 _ => min <= p50 /\ p50 <= p90 /\ p90 <= max
  | _ => True
  end.

(** The invariant of a run for the statistics: the sample lists hold
    samples and every row printed so far is in order. *)
Definition sound (a : Acc) : Prop :=
  Forall isSample (durationCS a) /\ Forall isSample (durationSE a)
  /\ Forall rowOrdered (stdout a).

(** The invariant: both sample lists have the same length. *)
Definition paired (a : Acc) : Prop :=
  length (durationCS a) = length (durationSE a).

(** Every bucket map of the grid holds the hour "23" alone. *)
Definition onlyLastHour (mph : gmap string (gmap string Z)) : Prop :=
  forall d bucket, mph !! d = Some bucket -> bucket = {["23" := 0]}.

(** The offsets of the [n] pages from page [k] on. *)
Definition offsetsFrom (k n : nat) : list Z :=
  map (fun i : nat => 200 * Z.of_nat i) (seq k n).

(** The offsets of the first [n] pages: 0, 200, 400, ... *)
Definition pageOffsets (n : nat) : list Z :=
  map (fun i : nat => 200 * Z.of_nat i) (seq 0 n).

(** A server that reports a next page in every answer. *)
Definition endless (server : Meas.Request -> Meas.Reply) : Prop :=
  forall r, exists jsonData next,
    server r = Meas.Batch jsonData (Some next) /\ next <> "".

(** All three times of the measurement are set. *)
Definition allSet (m : Measurement) : bool :=
  negb (unset (CreationTime m)) && negb (unset (StartTime m))
  && negb (unset (EndTime m)).

(** The two durations of a measurement whose three times are set are
    at most [lastConvertible]. *)
Definition convertible (m : Measurement) : Prop :=
  allSet m = true ->
  GoTime.Sub (StartTime m) (CreationTime m) <= lastConvertible
  /\ GoTime.Sub (EndTime m) (StartTime m) <= lastConvertible.

(** The measurements that [analyze] counts: those that pass the filter
    and have their three times set. *)
Definition counted (fl : Flags) (m : Measurement) : bool :=
  negb (measSkip fl m) && allSet m.

(** The number of elements of [l] that satisfy [p]. *)
Definition tally {A} (p : A -> bool) (l : list A) : Z :=
  Z.of_nat (length (List.filter p l)).

(** The counted measurements in state [st]. *)
Definition inState (fl : Flags) (st : string) (m : Measurement) : bool :=
  counted fl m && String.eqb (State m) st.

(** The counted measurements on [k] agents. *)
Definition onAgents (fl : Flags) (k : Z) (m : Measurement) : bool :=
  counted fl m && (Z.of_nat (length (Agents m)) =? k).

(** The four states that the tool knows. *)
Definition knownState (st : string) : Prop :=
  In st ["agent_failure"; "canceled"; "finished"; "ongoing"].

(** The two duration samples of a measurement, in seconds. *)
Definition sampleCS (m : Measurement) : Q :=
  GoTime.Seconds (GoTime.Sub (StartTime m) (CreationTime m)).

Definition sampleSE (m : Measurement) : Q :=
  GoTime.Seconds (GoTime.Sub (EndTime m) (StartTime m)).

(** The total number of agents of the measurements in [l]. *)
Fixpoint agentTotal (l : list Measurement) : Z :=
  match l with
  | [] => 0
  | m :: rest => Z.of_nat (length (Agents m)) + agentTotal rest
  end.

(** What a run has added to the accumulators of [a0] after the
    measurements [ms]. *)
Definition accounted (fl : Flags) (ms : list Measurement) (a0 a : Acc) : Prop :=
  totFound a = totFound a0 + tally (counted fl) ms
  /\ totAgentFailure a = totAgentFailure a0 + tally (inState fl "agent_failure") ms
  /\ totCanceled a = totCanceled a0 + tally (inState fl "canceled") ms
  /\ totFinished a = totFinished a0 + tally (inState fl "finished") ms
  /\ totOngoing a = totOngoing a0 + tally (inState fl "ongoing") ms
  /\ durationCS a = (durationCS a0 ++ map sampleCS (List.filter (counted fl) ms))%list
  /\ durationSE a = (durationSE a0 ++ map sampleSE (List.filter (counted fl) ms))%list
  /\ nResults a = nResults a0 + agentTotal (List.filter (counted fl) ms)
  /\ (forall k, default 0 (agentsPerMeas a !! k)
                = default 0 (agentsPerMeas a0 !! k) + tally (onAgents fl k) ms)
  /\ (forall k, is_Some (agentsPerMeas a !! k)
                <-> is_Some (agentsPerMeas a0 !! k) \/ 0 < tally (onAgents fl k) ms).

(** The lines that the loop of [analyze] prints: the warnings of
    [measDuration] and the lines of [printMeasDetails]. *)
Definition perMeasurement (o : Out) : Prop :=
  match o with
  | WarnNoCreationTime _ | WarnNoStartTime _ _ | WarnNoEndTime _ _
  | MeasDetails _ _ _ _ => True
  | _ => False
  end.

(** The rows of the "AGENTS PER MEASUREMENT" table for the histogram
    [apm]. *)
Definition agentRows (apm : gmap Z Z) : list (Z * Z) :=
  map (fun k => (k, default 0 (apm !! k))) (GoSort.Ints (map fst (map_to_list apm))).

(** The duration that a row of the "DURATION" table is about. *)
Definition durationOf (label : string) (m : Measurement) : Q :=
  if String.eqb label "creation time to start time" then sampleCS m else sampleSE m.

(** The run time of the measurement exceeds what its class allows:
    5 hours for the daily class, 24 hours for the exhaustive one. *)
Definition tooLong (m : Measurement) : bool :=
  (tagFound (Tags m) "zeph-gcp-daily.json"
   && (5 * GoTime.Hour <? GoTime.Sub (EndTime m) (StartTime m)))
  || (tagFound (Tags m) "collection:exhaustive"
      && (24 * GoTime.Hour <? GoTime.Sub (EndTime m) (StartTime m))).

(** What holds of a line of [printMeasDetails] in a run over the
    measurements [ms] that counts at most [bound] of them. *)
Definition detailOK (fl : Flags) (ms : list Measurement) (bound : Z) (o : Out) : Prop :=
  match o with
  | MeasDetails n m ab issues =>
      In m ms /\ counted fl m = true /\ abbrState !! State m = Some ab
      /\ (In "took too long" issues <-> tooLong m = true)
      /\ (In "has no agents" issues <-> Agents m = [])
      /\ (fVerbose fl = false -> issues <> [])
      /\ 1 <= n <= bound
  | _ => True
  end.

(** The modification time of the table parses and lies strictly
    between [--after] and [--before]. *)
Definition inWindow (fl : Flags) (t : MeasTable) : bool :=
  match GoTime.ParseDateTime (ModTime t) with
  | Some mt => GoTime.After mt (fAnalyzeAfter fl) && GoTime.Before mt (fAnalyzeBefore fl)
  | None => false
  end.

(** The table name has the two "__" delimiters. *)
Definition wellNamed (name : string) : bool :=
  match parseMeasAgentUUIDs name with
  | (_, _, None) => true
  | (_, _, Some _) => false
  end.


(** The host name shown for a table: that of the agent whose UUID the
    table name carries. *)
Definition hostOf (dir : gmap string string) (name : string) : string :=
  Agents.GetAgentName dir
    (GoStrings.ReplaceAll (snd (fst (parseMeasAgentUUIDs name))) "_" "-").

(** The host passes the [--agent] list. *)
Definition hostAllowed (fl : Flags) (h : string) : Prop :=
  fAnalyzeAgents fl = [] \/ In h (fAnalyzeAgents fl).

(** What holds of a table line in an output for the catalog rows
    [tables]. *)
Definition rowOK (fl : Flags) (dir : gmap string string) (tables : list MeasTable)
    (o : Out) : Prop :=
  match o with
  | TableLine name mt r b host w =>
      (exists t, In t tables /\ inWindow fl t = true /\ Name t = name
                 /\ ModTime t = mt /\ Rows t = r /\ Bytes t = b)
      /\ wellNamed name = true
      /\ host = hostOf dir name /\ hostAllowed fl host
      /\ w = ((r =? 0) || (b =? 0))
  | _ => True
  end.

(** The invariant of [printTables] for its map [data]. *)
Definition dataOK (fl : Flags) (tables : list MeasTable)
    (data : gmap string tableDetails) : Prop :=
  forall name d, data !! name = Some d ->
    wellNamed name = true
    /\ exists t, In t tables /\ inWindow fl t = true /\ Name t = name
                 /\ ModTime t = modTime d /\ Rows t = rows d /\ Bytes t = bytes d.

(** The output has a line for the table [name]. *)
Definition listed (name : string) (out : list Out) : Prop :=
  exists mt r b host w, In (TableLine name mt r b host w) out.

(** What can stop [printTables]: a modification time that does not
    parse, or the name of a table inside the window that lacks the
    delimiters. *)
Definition stopsAt (fl : Flags) (t : MeasTable) (e : Abort) : Prop :=
  (GoTime.ParseDateTime (ModTime t) = None /\ e = Returned (ErrParseTime (ModTime t)))
  \/ (inWindow fl t = true /\ wellNamed (Name t) = false
      /\ e = Returned ErrInvalidTableName).

(** A catalog row that lets [printTables] go on. *)
Definition goodRow (fl : Flags) (t : MeasTable) : Prop :=
  GoTime.ParseDateTime (ModTime t) <> None
  /\ (inWindow fl t = true -> wellNamed (Name t) = true).


(** The "skipping" lines of [printTables]. *)
Definition skipLine (o : Out) : Prop := exists name, o = SkippingTable name.

(** The reply is a batch that names a next page. *)
Definition continues (r : Meas.Reply) : bool :=
  match r with
  | Meas.Batch _ next => negb (Meas.lastPage next)
  | _ => false
  end.

(** The body that a reply leaves in the file. *)
Definition bodyOf (r : Meas.Reply) : list string :=
  match r with
  | Meas.CurlFailed _ => []
  | Meas.WriteFailed _ _ => []
  | Meas.UnmarshalFailed jsonData _ => [jsonData]
  | Meas.Batch jsonData _ => [jsonData]
  end.

(** The error that a reply makes [getMeasMdFile] return. *)
Definition errorOf (r : Meas.Reply) : option string :=
  match r with
  | Meas.CurlFailed msg => Some msg
  | Meas.WriteFailed _ msg => Some msg
  | Meas.UnmarshalFailed _ msg => Some msg
  | Meas.Batch _ _ => None
  end.

(** Two lists with the same elements, in any order and number. *)
Definition sameElements (l l' : list string) : Prop := forall x, In x l <-> In x l'.

(** The measurement passes the filter. *)
Definition passes (fl : Flags) (m : Measurement) : bool := negb (measSkip fl m).

(** How often the tag [t] occurs on the measurements of [ms] that pass
    the filter. *)
Fixpoint tagOccurrences (fl : Flags) (t : string) (ms : list Measurement) : Z :=
  match ms with
  | [] => 0
  | m :: rest =>
      (if passes fl m then tally (String.eqb t) (Tags m) else 0)
      + tagOccurrences fl t rest
  end.

(** The measurement passes the filter and has no tag. *)
Definition tagless (fl : Flags) (m : Measurement) : bool :=
  passes fl m && (Z.of_nat (length (Tags m)) =? 0).

(** The key of a measurement in the table of tag combinations. *)
Definition combination (m : Measurement) : string :=
  GoStrings.Join (GoSort.Strings (Tags m)) ",".

(** The measurement passes the filter and has the combination [k]. *)
Definition combined (fl : Flags) (k : string) (m : Measurement) : bool :=
  passes fl m && String.eqb (combination m) k.

(** The order of [sort.Strings]. *)
Definition sle (a b : string) : Prop := String.leb a b = true.

(** What the two maps of [analyzeTags] hold after the measurements
    [ms], from the maps [mt0] and [tc0]. *)
Definition tagInv (fl : Flags) (ms : list Measurement)
    (mt0 tc0 mt tc : gmap string Z) : Prop :=
  (forall t, default 0 (mt !! t)
             = default 0 (mt0 !! t) + tagOccurrences fl t ms
               + (if String.eqb t "" then tally (tagless fl) ms else 0))
  /\ (forall t, is_Some (mt !! t)
                <-> is_Some (mt0 !! t) \/ 0 < tagOccurrences fl t ms
                    \/ (t = "" /\ 0 < tally (tagless fl) ms))
  /\ (forall k, default 0 (tc !! k) = default 0 (tc0 !! k) + tally (combined fl k) ms)
  /\ (forall k, is_Some (tc !! k) <-> is_Some (tc0 !! k) \/ 0 < tally (combined fl k) ms).

(** The measurement passes the filter and was created on the date
    [d] in the hour [h]. *)
Definition createdAt (fl : Flags) (d h : string) (m : Measurement) : bool :=
  negb (measSkip fl m)
  && String.eqb (GoTime.FormatDate (CreationTime m)) d
  && String.eqb (GoTime.pad2 (GoTime.HourOf (CreationTime m))) h.

(** The count of a cell, 0 when the date or the hour is missing. *)
Definition cellCount (g : gmap string (gmap string Z)) (d h : string) : Z :=
  default 0 (Analyze.cell g d h).

(** No cell of the map holds a negative count. *)
Definition nonNegative (g : gmap string (gmap string Z)) : Prop :=
  forall d h n, Analyze.cell g d h = Some n -> 0 <= n.

(** The bucket holds exactly the 24 hours, with the counts of the
    date [d] in the grid [g]. *)
Definition denseBucket (g : gmap string (gmap string Z)) (d : string)
    (bucket : gmap string Z) : Prop :=
  (forall h, In h hours -> bucket !! h = Some (cellCount g d h))
  /\ (forall h, is_Some (bucket !! h) -> In h hours).

(** Every date of [mph] is a date of [g] with a dense bucket. *)
Definition denseGrid (g mph : gmap string (gmap string Z)) : Prop :=
  forall d bucket, mph !! d = Some bucket -> denseBucket g d bucket /\ is_Some (g !! d).

(** The sorted dates up to and including the first occurrence of
    [firstDate], or all of them when it does not occur. *)
Fixpoint upTo (firstDate : string) (sortedDates : list string) : list string :=
  match sortedDates with
  | [] => []
  | date :: rest =>
      date :: (if String.eqb date firstDate then [] else upTo firstDate rest)
  end.

(** The UUIDs that start the lines of an output of [list]. *)
Definition lineUUIDs (out : list ListCmd.Out) : list string :=
  flat_map (fun o => match o with
                     | ListCmd.LineUUID uuid => [uuid]
                     | ListCmd.LineBQ uuid _ _ _ _ _ => [uuid]
                     | _ => []
                     end) out.

(** The measurements that [list] does not skip. *)
Definition listPasses (fl : ListCmd.Flags) (m : Measurement) : bool :=
  negb (ListCmd.measSkip fl m).

(** The bytes of [s] with every [c] turned into [d]. *)
Fixpoint swapByte (c d : ascii) (s : string) : string :=
  match s with
  | EmptyString => EmptyString
  | String x s' => String (if Ascii.eqb x c then d else x) (swapByte c d s')
  end.

(** No byte of [s] is [c]. *)
Fixpoint lacks (c : ascii) (s : string) : bool :=
  match s with
  | EmptyString => true
  | String x s' => negb (Ascii.eqb x c) && lacks c s'
  end.

(** Every [c] in [s] is followed by a byte other than [c]: there are no
    two in a row and none at the end. *)
Fixpoint spaced (c : ascii) (s : string) : bool :=
  match s with
  | EmptyString => true
  | String x s' =>
      (if Ascii.eqb x c
       then match s' with
            | EmptyString => false
            | String y _ => negb (Ascii.eqb y c)
            end
       else true)
      && spaced c s'
  end.

(** The name of the ClickHouse table of kind [kind] (results, prefixes,
    probes or links) of a measurement on an agent: the two UUIDs with
    their hyphens as underscores, as [getOneMeasTables] searches for
    them, between the "__" delimiters. *)
Definition tableName (kind uuid agent : string) : string :=
  kind ++ "__" ++ GoStrings.ReplaceAll uuid "-" "_" ++ "__"
  ++ GoStrings.ReplaceAll agent "-" "_".

(** The measurements whose tables [analyzeTablesByMeasurement] looks
    up: those that pass the filter, are the one of [--meas-uuid] when it
    is given, and have agents. *)
Definition selected (fl : Flags) (m : Measurement) : bool :=
  negb (measSkip fl m)
  && (String.eqb (fTablesMeasUUID fl) "" || String.eqb (fTablesMeasUUID fl) (UUID m))
  && negb (Z.of_nat (length (Agents m)) =? 0).

(** The selected measurements for which the catalog answers with
    tables. *)
Definition withTables (fl : Flags) (catalog : Catalog) (m : Measurement) : bool :=
  selected fl m && match catalog (UUID m) with
                   | (_, None) => true
                   | (_, Some _) => false
                   end.

(** What holds of the line that announces a measurement, in a run
    over [ms] that ends with the count [bound]. *)
Definition announced (fl : Flags) (catalog : Catalog) (ms : list Measurement)
    (bound : Z) (o : Out) : Prop :=
  match o with
  | Progress k uuid _ =>
      1 <= k <= bound
      /\ exists m, In m ms /\ UUID m = uuid /\ withTables fl catalog m = true
  | MeasTablesLine uuid tags state nFound _ =>
      exists m, In m ms /\ UUID m = uuid /\ withTables fl catalog m = true
                /\ tags = Tags m /\ state = State m
                /\ nFound = Z.of_nat (length (fst (catalog uuid)))
  | WarnNoTables uuid =>
      exists m, In m ms /\ UUID m = uuid /\ selected fl m = true
                /\ snd (catalog uuid) = Some ErrZeroLength
  | _ => True
  end.

End Spec.

(** ** Concrete inputs used by the examples below *)

Module Scenario.
Import Common Analyze.

Definition agent (uuid : string) : Agent :=
  {| AgentUUID := uuid; AgentState := "finished" |}.

Definition threeAgents : list Agent := [agent "a-1"; agent "a-2"; agent "a-3"].

(** A finished daily measurement created and started on 2024-03-01 at
    midnight and ended [d] nanoseconds later. *)
Definition daily (d : GoTime.Duration) : Measurement :=
  {| Tool := "diamond-miner";
     Tags := ["zeph-gcp-daily.json"];
     UUID := "m-1";
     UserID := "u-1";
     CreationTime := GoTime.Date 2024 3 1 0 0 0;
     StartTime := GoTime.Date 2024 3 1 0 0 0;
     EndTime := GoTime.Date 2024 3 1 0 0 0 + d;
     State := "finished";
     Agents := threeAgents |}.

(** A measurement that was created but has not started. *)
Definition waiting : Measurement :=
  {| Tool := "diamond-miner";
     Tags := ["zeph-gcp-daily.json"];
     UUID := "m-2";
     UserID := "u-1";
     CreationTime := GoTime.Date 2024 3 1 0 0 0;
     StartTime := GoTime.zeroTime;
     EndTime := GoTime.zeroTime;
     State := "ongoing";
     Agents := threeAgents |}.

(** The tables of measurement "m-1" on three agents: four kinds per
    agent, all with rows except the links table of the third agent. *)
Definition table (name : string) (nrows : Z) : MeasTable :=
  {| Name := name; ModTime := "2024-03-02 10:00:00"; Rows := nrows; Bytes := 4096 |}.

Definition twelveTables : list MeasTable :=
  [table "results__m_1__a_1" 100; table "prefixes__m_1__a_1" 100;
   table "probes__m_1__a_1" 100; table "links__m_1__a_1" 100;
   table "results__m_1__a_2" 100; table "prefixes__m_1__a_2" 100;
   table "probes__m_1__a_2" 100; table "links__m_1__a_2" 100;
   table "results__m_1__a_3" 100; table "prefixes__m_1__a_3" 100;
   table "probes__m_1__a_3" 100; table "links__m_1__a_3" 0].

(** The same catalog with the last table missing. *)
Definition elevenTables : list MeasTable := removelast twelveTables.

Definition catalogOf (tables : list MeasTable) : Catalog :=
  fun uuid => if String.eqb uuid "m-1" then (tables, None) else ([], Some ErrZeroLength).

Definition directory : gmap string string :=
  list_to_map [("a-1", "iris-us-east4"); ("a-2", "iris-europe-west6");
               ("a-3", "iris-asia-northeast1")].

Definition verboseFlags : Flags := {|
  fAnalyzeAllUsers := false;
  fAnalyzeBefore := GoTime.Date 2040 1 1 0 0 0;
  fAnalyzeAfter := GoTime.Date 2020 1 1 0 0 0;
  fAnalyzeState := [];
  fAnalyzeTag := [];
  fAnalyzeTagsAnd := false;
  fAnalyzeAgents := [];
  fHoursChart := false;
  fTablesMeasUUID := "";
  fVerbose := true
|}.

(** The output of [analyze tables] for the one measurement "m-1". *)
Definition tablesOutput (fl : Flags) (tables : list MeasTable) : list Out :=
  stdout (snd (fst (analyzeTablesByMeasurement fl directory (catalogOf tables)
                      [daily (5 * GoTime.Hour)] initAcc))).

(** Ten duration samples: 1, 2, ..., 10 seconds. *)
Definition tenSamples : list Q := map inject_Z [1; 2; 3; 4; 5; 6; 7; 8; 9; 10].

Definition measFlags : Meas.Flags :=
  {| Meas.fMeasAllUsers := true; Meas.fMeasPublic := false;
     Meas.fMeasState := ""; Meas.fMeasTag := "" |}.

(** A server that always answers with a batch and a next page. *)
Definition alwaysNext : Meas.Request -> Meas.Reply :=
  fun _ => Meas.Batch "{}" (Some "next").

(** The measurements of a small run: a daily measurement that took six
    hours and one that has not started. *)
Definition smallRun : list Measurement :=
  [daily (6 * GoTime.Hour); waiting].

(** The default flags with [--state finished]. *)
Definition finishedFlags : Flags := {|
  fAnalyzeAllUsers := false;
  fAnalyzeBefore := GoTime.Date 2040 1 1 0 0 0;
  fAnalyzeAfter := GoTime.Date 2020 1 1 0 0 0;
  fAnalyzeState := ["finished"];
  fAnalyzeTag := [];
  fAnalyzeTagsAnd := false;
  fAnalyzeAgents := [];
  fHoursChart := false;
  fTablesMeasUUID := "";
  fVerbose := false
|}.

(** All users, no filter, and a window that starts and ends at the
    zero time. *)
Definition zeroWindowFlags : Flags := {|
  fAnalyzeAllUsers := true;
  fAnalyzeBefore := GoTime.zeroTime;
  fAnalyzeAfter := GoTime.zeroTime;
  fAnalyzeState := [];
  fAnalyzeTag := [];
  fAnalyzeTagsAnd := false;
  fAnalyzeAgents := [];
  fHoursChart := false;
  fTablesMeasUUID := "";
  fVerbose := false
|}.

(** A server with three pages of measurements. *)
Definition threePages : Meas.Request -> Meas.Reply :=
  fun r =>
    if Meas.reqOffset r <? 400 then Meas.Batch "{page}" (Some "next")
    else Meas.Batch "{last}" None.

(** A grid with one date, on which two measurements were created in
    the hour 10. *)
Definition oneDayGrid : gmap string (gmap string Z) :=
  {["2024-03-01" := {["10" := 2]}]}.

(** The flags of [list] for the window 2020 to 2040, without filters. *)
Definition listFlags : ListCmd.Flags := {|
  ListCmd.fListAllUsers := false;
  ListCmd.fListBQFormat := false;
  ListCmd.fListBefore := GoTime.Date 2040 1 1 0 0 0;
  ListCmd.fListAfter := GoTime.Date 2020 1 1 0 0 0;
  ListCmd.fListState := [];
  ListCmd.fListTag := [];
  ListCmd.fListTagsAnd := false;
  ListCmd.fListAgents := [];
  ListCmd.fListUUID := false;
  ListCmd.fBrief := false
|}.

(** An API that knows no measurement. *)
Definition noDetails : string -> string + Common.Measurement :=
  fun _ => inl "not found".

(** A measurement that ended 376 years after its start, more than a
    [time.Duration] holds. *)
Definition centuries : Measurement :=
  {| Tool := "diamond-miner";
     Tags := ["zeph-gcp-daily.json"];
     UUID := "m-4";
     UserID := "u-1";
     CreationTime := GoTime.Date 2024 3 1 0 0 0;
     StartTime := GoTime.Date 2024 3 1 0 0 0;
     EndTime := GoTime.Date 2400 3 1 0 0 0;
     State := "finished";
     Agents := threeAgents |}.

(** Two daily measurements, of six and of four hours. *)
Definition twoDaily : list Measurement :=
  [daily (6 * GoTime.Hour); daily (4 * GoTime.Hour)].

(** A finished measurement tagged "zeph". *)
Definition zephRecord : Measurement :=
  {| Tool := "diamond-miner";
     Tags := ["zeph"];
     UUID := "m-3";
     UserID := "u-1";
     CreationTime := GoTime.Date 2024 3 1 0 0 0;
     StartTime := GoTime.Date 2024 3 1 0 0 0;
     EndTime := GoTime.Date 2024 3 1 1 0 0;
     State := "finished";
     Agents := threeAgents |}.

(** The default flags with [--tag ZEPH]. *)
Definition capitalFlags : Flags := {|
  fAnalyzeAllUsers := false;
  fAnalyzeBefore := GoTime.Date 2040 1 1 0 0 0;
  fAnalyzeAfter := GoTime.Date 2020 1 1 0 0 0;
  fAnalyzeState := [];
  fAnalyzeTag := ["ZEPH"];
  fAnalyzeTagsAnd := false;
  fAnalyzeAgents := [];
  fHoursChart := false;
  fTablesMeasUUID := "";
  fVerbose := false
|}.

End Scenario.

(** * Properties *)

(** ** The predicate engine: [MatchState], [MatchTag], [measSkip] *)

Section Predicate.
Import Common Analyze Spec.

Lemma MatchState_In mState states :
  MatchState mState states = true <-> In mState states.
Proof.
  induction states as [|state rest IH]; simpl.
  - split; [discriminate | tauto].
  - destruct (String.eqb_spec state mState) as [->|Hne].
    + split; auto.
    + rewrite IH. split; [auto | intros [H|H]; [congruence | exact H]].
Qed.

Lemma tagFound_hit mTags tag : tagFound mTags tag = true <-> foundIn mTags tag.
Proof.
  unfold foundIn. induction mTags as [|measTag rest IH]; simpl.
  - split; [discriminate | intros (x & [] & _)].
  - destruct (GoStrings.Contains (GoStrings.ToLower measTag) tag) eqn:E.
    + split; [intros _; exists measTag; auto | auto].
    + rewrite IH. split.
      * intros (x & Hin & Hx). exists x. auto.
      * intros (x & [<-|Hin] & Hx); [congruence | exists x; auto].
Qed.

(** The outer loop, once it has seen a tag, no longer depends on the
    initial value of [found]. *)
Lemma matchTagLoop_and mTags tags found :
  matchTagLoop mTags tags true found =
    match tags with [] => found | _ :: _ => forallb (tagFound mTags) tags end.
Proof.
  revert found. induction tags as [|tag rest IH]; intros found; [reflexivity|].
  cbn [matchTagLoop forallb]. rewrite IH.
  destruct (tagFound mTags tag); simpl; [|reflexivity].
  destruct rest; reflexivity.
Qed.

Lemma matchTagLoop_or mTags tags found :
  matchTagLoop mTags tags false found =
    match tags with [] => found | _ :: _ => existsb (tagFound mTags) tags end.
Proof.
  revert found. induction tags as [|tag rest IH]; intros found; [reflexivity|].
  cbn [matchTagLoop existsb]. rewrite IH.
  destruct (tagFound mTags tag); simpl; [reflexivity|].
  destruct rest; reflexivity.
Qed.

Lemma length_pos_nonnil {A} (l : list A) :
  (0 <? Z.of_nat (length l)) = false <-> l = [].
Proof.
  destruct l; simpl; split; intros H; try reflexivity; discriminate.
Qed.

(** [measSkip] as a conjunction of its three guards. *)
Lemma measSkip_false fl m :
  measSkip fl m = false <->
    ((0 <? Z.of_nat (length (fAnalyzeTag fl))) = false
     \/ MatchTag (Tags m) (fAnalyzeTag fl) (fAnalyzeTagsAnd fl) = true)
    /\ ((0 <? Z.of_nat (length (fAnalyzeState fl))) = false
        \/ MatchState (State m) (fAnalyzeState fl) = true)
    /\ GoTime.After (CreationTime m) (fAnalyzeAfter fl) = true
    /\ GoTime.Before (CreationTime m) (fAnalyzeBefore fl) = true.
Proof.
  unfold measSkip.
  destruct (0 <? Z.of_nat (length (fAnalyzeTag fl)));
    destruct (MatchTag (Tags m) (fAnalyzeTag fl) (fAnalyzeTagsAnd fl));
    destruct (0 <? Z.of_nat (length (fAnalyzeState fl)));
    destruct (MatchState (State m) (fAnalyzeState fl));
    destruct (GoTime.After (CreationTime m) (fAnalyzeAfter fl));
    destruct (GoTime.Before (CreationTime m) (fAnalyzeBefore fl));
    simpl; intuition congruence.
Qed.

End Predicate.

(** ** Tag matching and upper-case filter tags *)

Section TagCase.
Import Common GoStrings.

Lemma lowerByte_idem c : lowerByte (lowerByte c) = lowerByte c.
Proof.
  unfold lowerByte.
  destruct ((65 <=? nat_of_ascii c) && (nat_of_ascii c <=? 90))%nat eqn:E;
    [|rewrite E; reflexivity].
  apply andb_prop in E as [E1 E2].
  apply Nat.leb_le in E1. apply Nat.leb_le in E2.
  rewrite nat_ascii_embedding by lia.
  replace ((65 <=? nat_of_ascii c + 32) && (nat_of_ascii c + 32 <=? 90))%nat
    with false; [reflexivity|].
  symmetry. apply andb_false_iff. right. apply Nat.leb_gt. lia.
Qed.

Lemma ToLower_idem s : ToLower (ToLower s) = ToLower s.
Proof. induction s; simpl; [reflexivity|]. rewrite lowerByte_idem, IHs. reflexivity. Qed.

(** A prefix of lower-cased text is itself lower-cased. *)
Lemma HasPrefix_lower s p :
  ToLower s = s -> HasPrefix s p = true -> ToLower p = p.
Proof.
  revert s. induction p as [|a p IH]; intros s Hs Hp; [reflexivity|].
  destruct s as [|b s]; simpl in Hp; [discriminate|].
  destruct (Ascii.eqb_spec a b) as [->|]; [|discriminate].
  simpl in Hs. injection Hs as Hb Hs'.
  simpl. rewrite Hb, (IH s Hs' Hp). reflexivity.
Qed.

Lemma IndexFrom_lower i s sep :
  ToLower s = s -> 0 <= i -> 0 <= IndexFrom i s sep -> ToLower sep = sep.
Proof.
  revert i. induction s as [|c s IH]; intros i Hs Hi H.
  - cbn [IndexFrom] in H. destruct (HasPrefix "" sep) eqn:E.
    + apply (HasPrefix_lower "" sep); auto.
    + exfalso. lia.
  - cbn [IndexFrom] in H. destruct (HasPrefix (String c s) sep) eqn:E.
    + apply (HasPrefix_lower (String c s) sep); auto.
    + simpl in Hs. injection Hs as _ Hs'. apply (IH (i + 1)); auto; lia.
Qed.

(** Whatever [strings.Contains] finds in lower-cased text is
    lower-cased. *)
Lemma Contains_lower s t : Contains (ToLower s) t = true -> ToLower t = t.
Proof.
  unfold Contains, Index. intros H. apply Z.leb_le in H.
  apply (IndexFrom_lower 0 (ToLower s) t); auto using ToLower_idem; lia.
Qed.

Lemma tagFound_upper mTags tag : ToLower tag <> tag -> tagFound mTags tag = false.
Proof.
  intros Hup. induction mTags as [|mt rest IH]; simpl; [reflexivity|].
  destruct (Contains (ToLower mt) tag) eqn:E; [|exact IH].
  apply Contains_lower in E. contradiction.
Qed.

(** C2. [MatchTag] looks for each filter tag, as it is written, inside
    the lower-cased measurement tags: a lower-case filter tag is found
    as a substring whatever the case of the measurement tag, but a
    filter tag with an upper-case letter is found in no measurement
    tag, not even in one equal to it. *)
Theorem MatchTag_uppercase_filter_tag :
  MatchTag ["zeph-gcp-daily.json"] ["zeph"] false = true
  /\ MatchTag ["ZEPH-GCP-daily.json"] ["zeph"] false = true
  /\ MatchTag ["zeph"] ["ZEPH"] false = false
  /\ MatchTag ["zeph"] ["ZEPH"] true = false
  /\ MatchTag ["ZEPH"] ["ZEPH"] false = false
  /\ (forall mTags tag tagsAnd,
        ToLower tag <> tag -> MatchTag mTags [tag] tagsAnd = false).
Proof.
  repeat (split; [reflexivity|]).
  intros mTags tag tagsAnd Hup. unfold MatchTag. cbn [matchTagLoop].
  rewrite (tagFound_upper mTags tag Hup). destruct tagsAnd; reflexivity.
Qed.

End TagCase.

(** ** The duration classifier *)

Section Duration.
Import Common Analyze Spec.

Lemma MatchTag_single mTags tag tagsAnd :
  MatchTag mTags [tag] tagsAnd = tagFound mTags tag.
Proof.
  unfold MatchTag. cbn [matchTagLoop].
  destruct (tagFound mTags tag), tagsAnd; reflexivity.
Qed.

Lemma tagFound_In mTags tag :
  In tag mTags -> GoStrings.Contains (GoStrings.ToLower tag) tag = true ->
  tagFound mTags tag = true.
Proof.
  intros Hin Hc. apply tagFound_hit. exists tag. auto.
Qed.

Lemma Sub_exact t u :
  GoTime.minDuration <= t - u <= GoTime.maxDuration -> GoTime.Sub t u = t - u.
Proof.
  intros [H1 H2]. unfold GoTime.Sub.
  destruct (Z.ltb_spec (t - u) GoTime.minDuration); [lia|].
  destruct (Z.ltb_spec GoTime.maxDuration (t - u)); [lia|reflexivity].
Qed.

(** C4. For a measurement that carries the tag "zeph-gcp-daily.json"
    and whose three times are set, [measDuration] answers [DurationOK]
    when the end is exactly five hours after the start and
    [DurationTooLong] when it is five hours and one second after. *)
Theorem measDuration_daily_boundary (fl : Flags) (m : Measurement) (a : Acc) :
  In "zeph-gcp-daily.json" (Tags m) ->
  unset (CreationTime m) = false ->
  unset (StartTime m) = false ->
  unset (EndTime m) = false ->
  (EndTime m - StartTime m = 5 * GoTime.Hour ->
     fst (measDuration fl m a) = DurationOK)
  /\ (EndTime m - StartTime m = 5 * GoTime.Hour + GoTime.Second ->
        fst (measDuration fl m a) = DurationTooLong).
Proof.
  intros Htag Hc Hs He.
  assert (Hfound : tagFound (Tags m) "zeph-gcp-daily.json" = true)
    by (apply tagFound_In; [exact Htag | reflexivity]).
  unfold measDuration. rewrite Hc, Hs, He.
  split; intros Hd.
  - rewrite Sub_exact by (rewrite Hd; vm_compute; split; discriminate).
    rewrite Hd. cbn [durationClasses tookTooLong].
    rewrite !MatchTag_single, Hfound.
    replace (5 * GoTime.Hour <? 5 * GoTime.Hour) with false by reflexivity.
    replace (24 * GoTime.Hour <? 5 * GoTime.Hour) with false by reflexivity.
    rewrite !andb_false_r. reflexivity.
  - rewrite Sub_exact by (rewrite Hd; vm_compute; split; discriminate).
    rewrite Hd. cbn [durationClasses tookTooLong].
    rewrite !MatchTag_single, Hfound.
    replace (5 * GoTime.Hour <? 5 * GoTime.Hour + GoTime.Second) with true by reflexivity.
    reflexivity.
Qed.

(** C5. A measurement whose start time falls on year 1, month 1, day 1
    is classified [DurationNone], whatever its other fields, and
    [measDuration] leaves both sample lists as they were. *)
Theorem measDuration_unset_start (fl : Flags) (m : Measurement) (a : Acc) :
  GoTime.Year (StartTime m) = 1 ->
  GoTime.Month (StartTime m) = 1 ->
  GoTime.Day (StartTime m) = 1 ->
  fst (measDuration fl m a) = DurationNone
  /\ durationCS (snd (measDuration fl m a)) = durationCS a
  /\ durationSE (snd (measDuration fl m a)) = durationSE a.
Proof.
  intros Hy Hm Hd.
  assert (Hs : unset (StartTime m) = true)
    by (unfold unset; rewrite Hy, Hm, Hd; reflexivity).
  unfold measDuration. destruct (unset (CreationTime m)); [|rewrite Hs];
    simpl; auto.
Qed.

Lemma measDuration_daily_boundary_witness :
  fst (measDuration defaultFlags (Scenario.daily (5 * GoTime.Hour)) initAcc) = DurationOK
  /\ fst (measDuration defaultFlags
            (Scenario.daily (5 * GoTime.Hour + GoTime.Second)) initAcc)
     = DurationTooLong.
Proof.
  split.
  - apply (measDuration_daily_boundary defaultFlags
             (Scenario.daily (5 * GoTime.Hour)) initAcc);
      [left; reflexivity | reflexivity | reflexivity | reflexivity | reflexivity].
  - apply (measDuration_daily_boundary defaultFlags
             (Scenario.daily (5 * GoTime.Hour + GoTime.Second)) initAcc);
      [left; reflexivity | reflexivity | reflexivity | reflexivity | reflexivity].
Defined.

Lemma measDuration_unset_start_witness :
  fst (measDuration defaultFlags Scenario.waiting initAcc) = DurationNone
  /\ durationCS (snd (measDuration defaultFlags Scenario.waiting initAcc)) = []
  /\ durationSE (snd (measDuration defaultFlags Scenario.waiting initAcc)) = [].
Proof.
  apply (measDuration_unset_start defaultFlags Scenario.waiting initAcc);
    reflexivity.
Defined.

(** *** The two sample lists grow together *)

Lemma length_insertQ x l : length (GoSort.insertQ x l) = S (length l).
Proof.
  induction l as [|b l IH]; simpl; [reflexivity|].
  destruct (Qle_bool x b); simpl; [reflexivity | rewrite IH; reflexivity].
Qed.

Lemma length_Float64s l : length (GoSort.Float64s l) = length l.
Proof.
  induction l as [|a l IH]; simpl; [reflexivity|].
  rewrite length_insertQ, IH. reflexivity.
Qed.

Lemma paired_print o a : paired a -> paired (print o a).
Proof. exact (fun H => H). Qed.

Lemma paired_verbose fl o a : paired a -> paired (verbose fl o a).
Proof. unfold verbose. destruct (fVerbose fl); auto. Qed.

Lemma paired_measDuration fl m a : paired a -> paired (snd (measDuration fl m a)).
Proof.
  unfold measDuration, paired. intros H.
  destruct (unset (CreationTime m)); [exact H|].
  destruct (unset (StartTime m)); [exact H|].
  destruct (unset (EndTime m)); [exact H|].
  destruct (tookTooLong _ _ _ _); cbn; rewrite !length_app, H; reflexivity.
Qed.

Lemma paired_measState st a : paired a -> paired (fst (measState st a)).
Proof.
  unfold measState. intros H.
  repeat match goal with |- context [String.eqb ?x ?y] => destruct (String.eqb x y) end;
    exact H.
Qed.

Lemma paired_printMeasDetails fl m issues a :
  paired a -> paired (fst (printMeasDetails fl m issues a)).
Proof.
  unfold printMeasDetails. intros H.
  destruct (negb (fVerbose fl) && (Z.of_nat (length issues) =? 0)); [exact H|].
  destruct (abbrState !! State m); exact H.
Qed.

Lemma paired_printDurations a : paired a -> paired (fst (printDurations a)).
Proof.
  unfold printDurations, paired. intros H.
  destruct (durationStats _) as [cs|]; cbn;
    [|rewrite length_Float64s; exact H].
  destruct (durationStats _) as [se|]; cbn;
    rewrite !length_Float64s; exact H.
Qed.

Lemma paired_printAnalysis fl what a :
  paired a -> paired (fst (printAnalysis fl what a)).
Proof.
  unfold printAnalysis. intros H.
  destruct (totFound a =? 0); [exact H|]. cbv zeta.
  remember (verbose fl VerboseNewline a) as a1 eqn:E1.
  assert (H1 : paired a1) by (subst a1; apply paired_verbose, H).
  clear E1 H a.
  remember (if String.eqb what "all" || String.eqb what "tags"
            then (if 0 <? Z.of_nat (length (fAnalyzeTag fl))
                  then print (TagsSection (fAnalyzeTag fl)) a1 else a1)
            else a1) as a2 eqn:E2.
  assert (H2 : paired a2)
    by (subst a2; destruct (_ || _); [destruct (0 <? _)|]; exact H1).
  clear E2 H1 a1.
  remember (if String.eqb what "all" || String.eqb what "states"
            then print (StatesSection (totFound a2) (totAgentFailure a2)
                          (totCanceled a2) (totFinished a2) (totOngoing a2)) a2
            else a2) as a3 eqn:E3.
  assert (H3 : paired a3) by (subst a3; destruct (_ || _); exact H2).
  clear E3 H2 a2.
  destruct (String.eqb what "all" || String.eqb what "durations").
  - pose proof (paired_printDurations a3 H3) as H4.
    destruct (printDurations a3) as [a4 [e|]]; cbn [fst] in *; [exact H4|].
    destruct (_ || _); exact H4.
  - destruct (_ || _); exact H3.
Qed.

Lemma paired_analyzeLoop fl ms a : paired a -> paired (fst (analyzeLoop fl ms a)).
Proof.
  revert a. induction ms as [|m rest IH]; intros a H; [exact H|].
  cbn [analyzeLoop]. destruct (measSkip fl m); [apply IH, H|].
  pose proof (paired_measDuration fl m a H) as Hd.
  destruct (measDuration fl m a) as [duration a1]. cbn [snd] in Hd.
  destruct (duration =? DurationNone); [apply IH, Hd|]. cbv zeta.
  set (a2 := setCounters _ _ _ _ _ a1).
  assert (H2 : paired a2) by exact Hd.
  pose proof (paired_measState (State m) a2 H2) as Hs.
  destruct (measState (State m) a2) as [a3 [e|]]; cbn [fst] in Hs |- *;
    [exact Hs|].
  unfold measAgents. cbv zeta.
  set (a4 := setAgents _ _ a3).
  assert (H4 : paired a4) by exact Hs.
  match goal with |- context [printMeasDetails fl m ?i a4] =>
    pose proof (paired_printMeasDetails fl m i a4 H4) as Hp;
    destruct (printMeasDetails fl m i a4) as [a5 [e|]]
  end; cbn [fst] in Hp |- *; [exact Hp | apply IH, Hp].
Qed.

(** C9. [measDuration] either appends one sample to each of
    [durationCS] and [durationSE], when the three times are set, or
    leaves both untouched; so throughout a run of [analyze], started
    with its fresh accumulators, the two lists have the same length. *)
Theorem duration_lists_grow_together (fl : Flags) :
  (forall m a,
      (unset (CreationTime m) = false /\ unset (StartTime m) = false
       /\ unset (EndTime m) = false
       /\ exists x y,
            durationCS (snd (measDuration fl m a)) = (durationCS a ++ [x])%list
            /\ durationSE (snd (measDuration fl m a)) = (durationSE a ++ [y])%list)
      \/ ((unset (CreationTime m) = true \/ unset (StartTime m) = true
           \/ unset (EndTime m) = true)
          /\ durationCS (snd (measDuration fl m a)) = durationCS a
          /\ durationSE (snd (measDuration fl m a)) = durationSE a))
  /\ (forall ms,
        length (durationCS (fst (analyzeLoop fl ms initAcc)))
        = length (durationSE (fst (analyzeLoop fl ms initAcc))))
  /\ (forall ms,
        length (durationCS (fst (analyze fl ms initAcc)))
        = length (durationSE (fst (analyze fl ms initAcc)))).
Proof.
  split; [|split].
  - intros m a. unfold measDuration.
    destruct (unset (CreationTime m)); [right; cbn; auto|].
    destruct (unset (StartTime m)); [right; cbn; auto|].
    destruct (unset (EndTime m)); [right; cbn; auto|].
    left. repeat split.
    destruct (tookTooLong _ _ _ _); cbn; eauto.
  - intros ms. apply (paired_analyzeLoop fl ms initAcc). reflexivity.
  - intros ms. unfold analyze.
    pose proof (paired_analyzeLoop fl ms initAcc eq_refl) as H.
    destruct (analyzeLoop fl ms initAcc) as [a1 [e|]]; cbn [fst] in *; [exact H|].
    apply paired_printAnalysis, H.
Qed.

End Duration.



(** ** The hourly grid *)

Section Hours.
Import Analyze Spec.

Lemma if_inspect_bool (c : bool) (T : Type) (f : c = true -> T)
    (g : c = false -> T) (t e : T) :
  (forall H, f H = t) -> (forall H, g H = e) ->
  (if c as b return (c = b -> T) then f else g) (@eq_refl bool c)
  = if c then t else e.
Proof. revert f g. destruct c; intros f g Hf Hg; simpl; auto. Qed.

(** One round of the loop over the days. *)
Lemma initHoursLoop_eq currentDate current (measPerHour : gmap string (gmap string Z)) :
  initHoursLoop currentDate current measPerHour =
    if GoTime.After current currentDate then measPerHour
    else initHoursLoop currentDate (GoTime.AddDays current 1)
           (hourLoop (GoTime.FormatDate current) measPerHour).
Proof.
  rewrite initHoursLoop_equation_1. unfold initHoursLoop_unfold_clause_1, inspect.
  rewrite (if_inspect_bool (GoTime.After current currentDate) _ _ _
             (fun m => m)
             (fun m => initHoursLoop currentDate (GoTime.AddDays current 1)
                         (hourLoop (GoTime.FormatDate current) m)))
    by reflexivity.
  destruct (GoTime.After current currentDate); reflexivity.
Qed.

(** One round of the loop over the hours: the bucket map of the date
    is replaced by a map that holds the hour alone. *)
Lemma hourRound_single (dateStr hour : string) (mph : gmap string (gmap string Z)) :
  hourRound dateStr mph hour = <[dateStr := {[hour := 0]}]> mph.
Proof.
  unfold hourRound. cbv zeta.
  rewrite lookup_insert_eq, insert_insert_eq. reflexivity.
Qed.

Lemma last_cons_default {A} (h h0 : A) (hs : list A) :
  List.last (h :: hs) h0 = List.last hs h.
Proof.
  revert h h0. induction hs as [|x hs IH]; intros h h0; [reflexivity|].
  change (List.last (h :: x :: hs) h0) with (List.last (x :: hs) h0).
  rewrite (IH x h0), (IH x h). reflexivity.
Qed.

(** The rounds of the hour loop, begun on a date that already holds a
    one-hour bucket map, leave the last hour alone in it. *)
Lemma hourRounds_last (dateStr : string) (hs : list string) :
  forall (h0 : string) (mph : gmap string (gmap string Z)),
    fold_left (hourRound dateStr) hs (<[dateStr := {[h0 := 0]}]> mph)
    = <[dateStr := {[List.last hs h0 := 0]}]> mph.
Proof.
  induction hs as [|h hs IH]; intros h0 mph; [reflexivity|].
  cbn [fold_left]. rewrite hourRound_single, insert_insert_eq, IH.
  rewrite last_cons_default. reflexivity.
Qed.

Lemma hourRounds_any (dateStr h : string) (hs : list string)
    (mph : gmap string (gmap string Z)) :
  fold_left (hourRound dateStr) (h :: hs) mph
  = <[dateStr := {[List.last hs h := 0]}]> mph.
Proof. cbn [fold_left]. rewrite hourRound_single. apply hourRounds_last. Qed.

(** After the 24 rounds only the last hour is left. *)
Lemma hourLoop_last (dateStr : string) (mph : gmap string (gmap string Z)) :
  hourLoop dateStr mph = <[dateStr := {["23" := 0]}]> mph.
Proof. unfold hourLoop, hours. rewrite hourRounds_any. reflexivity. Qed.

Lemma onlyLastHour_loop (n : nat) : forall currentDate current mph,
  (Z.to_nat ((currentDate - current) / GoTime.nsPerDay + 1) <= n)%nat ->
  onlyLastHour mph -> onlyLastHour (initHoursLoop currentDate current mph).
Proof.
  assert (Hd : 0 < GoTime.nsPerDay) by reflexivity.
  induction n as [|n IH]; intros currentDate current mph Hn Hm;
    rewrite initHoursLoop_eq; unfold GoTime.After;
    destruct (Z.ltb_spec currentDate current) as [Hlt|Hge]; try exact Hm.
  - exfalso.
    assert (0 <= (currentDate - current) / GoTime.nsPerDay)
      by (apply Z.div_pos; lia).
    lia.
  - apply IH.
    + unfold GoTime.AddDays.
      replace (currentDate - (current + 1 * GoTime.nsPerDay))
        with (currentDate - current + (-1) * GoTime.nsPerDay) by ring.
      rewrite Z.div_add by lia.
      assert (0 <= (currentDate - current) / GoTime.nsPerDay)
        by (apply Z.div_pos; lia).
      lia.
    + rewrite hourLoop_last. intros d bucket.
      destruct (decide (GoTime.FormatDate current = d)) as [->|Hne].
      * rewrite lookup_insert_eq. congruence.
      * rewrite lookup_insert_ne by exact Hne. apply Hm.
Qed.

(** C3. [initHoursTable] does not build the dense grid.  The start
    date is parsed with the layout "2006-01-02" from a constant that
    goes on after the day, so the function returns an error and the
    grid stays empty; and the loop itself, from whatever start date,
    gives every day a bucket map that holds the single hour "23", since
    each round of the hour loop assigns a fresh map to the date. *)
Theorem initHoursTable_not_dense :
  (forall currentDate, initHoursTable currentDate ∅ = (∅, Some ErrStartDate))
  /\ (forall currentDate startDate d bucket,
        initHoursLoop currentDate startDate ∅ !! d = Some bucket ->
        bucket = {["23" := 0]} /\ bucket !! "00" = None)
  /\ initHoursLoop (GoTime.Date 2020 1 3 5 0 0) (GoTime.Date 2020 1 1 0 0 0) ∅
       !! "2020-01-02" = Some {["23" := 0]}.
Proof.
  split; [|split].
  - intros currentDate. reflexivity.
  - intros currentDate startDate d bucket H.
    assert (Hb : bucket = {["23" := 0]}).
    { eapply (onlyLastHour_loop _ currentDate startDate ∅ (Nat.le_refl _)); [|exact H].
      intros d' b' Hl. rewrite lookup_empty in Hl. discriminate. }
    split; [exact Hb|]. rewrite Hb. reflexivity.
  - vm_compute. reflexivity.
Qed.

End Hours.

(** ** Rounding to binary64 keeps the order *)

Section Rounding.
Import Float64.

Lemma pow2_pos e : (0 < pow2 e)%Q.
Proof. apply Qpower_0_lt. reflexivity. Qed.

Lemma pow2_add a b : (pow2 (a + b) == pow2 a * pow2 b)%Q.
Proof. apply Qpower_plus. discriminate. Qed.

Lemma pow2_le a b : a <= b -> (pow2 a <= pow2 b)%Q.
Proof. intros H. apply Qpower_le_compat_l; [exact H | discriminate]. Qed.

Lemma pow2_lt a b : a < b -> (pow2 a < pow2 b)%Q.
Proof. intros H. apply Qpower_lt_compat_l; [exact H | reflexivity]. Qed.

Lemma pow2_lt_inv a b : (pow2 a < pow2 b)%Q -> a < b.
Proof. intros H. apply (Qpower_lt_compat_l_inv 2); [exact H | reflexivity]. Qed.

Lemma pow2_Z a : 0 <= a -> (pow2 a == inject_Z (2 ^ a))%Q.
Proof. intros H. unfold pow2. rewrite Zpower_Qpower by exact H. reflexivity. Qed.

Lemma pow2_succ a : (pow2 (a + 1) == 2 * pow2 a)%Q.
Proof. rewrite pow2_add. change (pow2 1) with 2%Q. ring. Qed.

Lemma pow2_pred a : (pow2 (a - 1) == pow2 a / 2)%Q.
Proof.
  assert (H : (pow2 a == 2 * pow2 (a - 1))%Q).
  { rewrite <- pow2_succ. replace (a - 1 + 1) with a by lia. reflexivity. }
  rewrite H. field.
Qed.

(** A positive whole number lies between two powers of two. *)
Lemma log2_bounds (n : Z) : 0 < n ->
  (pow2 (Z.log2 n) <= inject_Z n)%Q /\ (inject_Z n < pow2 (Z.log2 n + 1))%Q.
Proof.
  intros Hn. pose proof (Z.log2_nonneg n) as H0.
  destruct (Z.log2_spec n Hn) as [H1 H2].
  rewrite !pow2_Z by lia. rewrite <- Zle_Qle, <- Zlt_Qlt.
  replace (Z.log2 n + 1) with (Z.succ (Z.log2 n)) by lia. split; assumption.
Qed.

Lemma ilog2_spec x : (0 < x)%Q ->
  (pow2 (ilog2 x) <= x)%Q /\ (x < pow2 (ilog2 x + 1))%Q.
Proof.
  intros Hx. unfold ilog2.
  set (k := Z.log2 (Qnum x) - Z.log2 (Z.pos (Qden x))).
  assert (Hn : 0 < Qnum x).
  { destruct x as [n d]. unfold Qlt in Hx. cbn in *. lia. }
  destruct (log2_bounds (Qnum x) Hn) as [N1 N2].
  destruct (log2_bounds (Z.pos (Qden x)) ltac:(lia)) as [D1 D2].
  assert (Ex : (x == inject_Z (Qnum x) / inject_Z (Z.pos (Qden x)))%Q).
  { destruct x as [n d]. cbn [Qnum Qden]. apply Qmake_Qdiv. }
  assert (Dpos : (0 < inject_Z (Z.pos (Qden x)))%Q) by reflexivity.
  set (a := Z.log2 (Qnum x)) in *. set (b := Z.log2 (Z.pos (Qden x))) in *.
  set (n := inject_Z (Qnum x)) in *. set (d := inject_Z (Z.pos (Qden x))) in *.
  pose proof (pow2_pos a) as Pa. pose proof (pow2_pos b) as Pb.
  pose proof (pow2_pos k) as Pk.
  assert (Ka : (pow2 a == pow2 k * pow2 b)%Q).
  { rewrite <- pow2_add. replace (k + b) with a by (unfold k; lia). reflexivity. }
  assert (B1 : (pow2 (b + 1) == 2 * pow2 b)%Q) by apply pow2_succ.
  assert (A1 : (pow2 (a + 1) == 2 * pow2 a)%Q) by apply pow2_succ.
  (* x * d == n *)
  assert (Hxd : (x * d == n)%Q) by (rewrite Ex; field; lra).
  assert (Up : (x < pow2 (k + 1))%Q).
  { rewrite pow2_succ.
    apply Qmult_lt_r with (z := d); [exact Dpos|]. rewrite Hxd.
    apply Qlt_le_trans with (y := pow2 (a + 1)); [exact N2|].
    rewrite A1, Ka.
    assert (pow2 k * pow2 b <= pow2 k * d)%Q by (apply Qmult_le_l; assumption).
    nra. }
  assert (Lo : (pow2 (k - 1) <= x)%Q).
  { rewrite pow2_pred.
    apply Qmult_le_r with (z := d); [exact Dpos|]. rewrite Hxd.
    apply Qle_trans with (y := pow2 a); [|exact N1].
    rewrite Ka.
    assert (H : (pow2 k * d <= pow2 k * pow2 (b + 1))%Q)
      by (apply Qmult_le_l; [assumption | apply Qlt_le_weak; assumption]).
    rewrite B1 in H.
    setoid_replace (pow2 k / 2 * d)%Q with ((pow2 k * d) * (1 # 2))%Q
      using relation Qeq by field.
    setoid_replace (pow2 k * (2 * pow2 b))%Q with (2 * (pow2 k * pow2 b))%Q
      using relation Qeq in H by ring.
    revert H. generalize (pow2 k * d)%Q (pow2 k * pow2 b)%Q. intros u v H. lra. }
  destruct (Qle_bool (pow2 k) x) eqn:E.
  - apply Qle_bool_iff in E. split; assumption.
  - assert (x < pow2 k)%Q.
    { apply Qnot_le_lt. intros H. apply Qle_bool_iff in H. congruence. }
    replace (k - 1 + 1) with k by lia. split; assumption.
Qed.

Lemma ilog2_mono x y : (0 < x)%Q -> (x <= y)%Q -> ilog2 x <= ilog2 y.
Proof.
  intros Hx Hxy.
  destruct (ilog2_spec x Hx) as [X1 _].
  destruct (ilog2_spec y ltac:(lra)) as [_ Y2].
  assert (H : (pow2 (ilog2 x) < pow2 (ilog2 y + 1))%Q) by lra.
  apply pow2_lt_inv in H. lia.
Qed.

Lemma ilog2_unique x k : (pow2 k <= x)%Q -> (x < pow2 (k + 1))%Q -> ilog2 x = k.
Proof.
  intros L U. pose proof (pow2_pos k) as Pk.
  destruct (ilog2_spec x ltac:(lra)) as [X1 X2].
  assert (H1 : (pow2 (ilog2 x) < pow2 (k + 1))%Q) by lra.
  assert (H2 : (pow2 k < pow2 (ilog2 x + 1))%Q) by lra.
  apply pow2_lt_inv in H1, H2. lia.
Qed.

(** *** Rounding to the nearest whole number, ties to even *)

Lemma nearestEven_bounds x :
  (Qfloor x <= nearestEven x <= Qfloor x + 1)%Z.
Proof.
  unfold nearestEven. destruct (_ ?= _)%Q; [destruct (Z.even _)| |]; lia.
Qed.

Lemma nearestEven_Z z : nearestEven (inject_Z z) = z.
Proof.
  unfold nearestEven. rewrite Qfloor_Z.
  assert (H : (inject_Z z - inject_Z z ?= 1 # 2)%Q = Lt).
  { apply Qlt_alt.
    setoid_replace (inject_Z z - inject_Z z)%Q with 0%Q using relation Qeq by ring.
    reflexivity. }
  rewrite H. reflexivity.
Qed.

Lemma nearestEven_comp x y : (x == y)%Q -> nearestEven x = nearestEven y.
Proof.
  intros H. unfold nearestEven. rewrite (Qfloor_comp _ _ H).
  assert (E : (x - inject_Z (Qfloor y) ?= 1 # 2)%Q = (y - inject_Z (Qfloor y) ?= 1 # 2)%Q)
    by (rewrite H; reflexivity).
  rewrite E. reflexivity.
Qed.

Lemma nearestEven_mono x y : (x <= y)%Q -> nearestEven x <= nearestEven y.
Proof.
  intros Hxy. pose proof (Qfloor_resp_le x y Hxy) as Hf.
  pose proof (nearestEven_bounds x) as Bx. pose proof (nearestEven_bounds y) as By.
  destruct (Z.eq_dec (Qfloor x) (Qfloor y)) as [E|NE]; [|lia].
  unfold nearestEven. rewrite <- E.
  generalize (inject_Z (Qfloor x)). intros q.
  destruct (Qcompare_spec (x - q) (1 # 2)) as [Cx|Cx|Cx];
    destruct (Qcompare_spec (y - q) (1 # 2)) as [Cy|Cy|Cy];
    try (destruct (Z.even (Qfloor x))); try lia; exfalso; lra.
Qed.

Lemma nearestEven_nonneg x : (0 <= x)%Q -> 0 <= nearestEven x.
Proof.
  intros H. pose proof (nearestEven_mono 0 x H) as M.
  change 0%Q with (inject_Z 0) in M. rewrite nearestEven_Z in M. exact M.
Qed.

(** *** Rounding to binary64 *)

Lemma roundPos_eq x : roundPos x = (inject_Z (nearestEven (x / pow2 (expOf x))) * pow2 (expOf x))%Q.
Proof. reflexivity. Qed.

Lemma roundPos_nonneg x : (0 < x)%Q -> (0 <= roundPos x)%Q.
Proof.
  intros Hx. rewrite roundPos_eq. pose proof (pow2_pos (expOf x)) as P.
  apply Qmult_le_0_compat; [|lra].
  change 0%Q with (inject_Z 0). rewrite <- Zle_Qle. apply nearestEven_nonneg.
  apply Qle_shift_div_l; [exact P | lra].
Qed.

Lemma roundPos_mono x y : (0 < x)%Q -> (x <= y)%Q -> (roundPos x <= roundPos y)%Q.
Proof.
  intros Hx Hxy. assert (Hy : (0 < y)%Q) by lra.
  rewrite !roundPos_eq.
  pose proof (ilog2_mono x y Hx Hxy) as Hl.
  set (ex := expOf x). set (ey := expOf y).
  pose proof (pow2_pos ex) as Px. pose proof (pow2_pos ey) as Py.
  assert (Hexy : ex <= ey) by (unfold ex, ey, expOf; lia).
  destruct (Z.eq_dec ex ey) as [E|NE].
  - rewrite <- E. apply Qmult_le_compat_r; [|lra].
    rewrite <- Zle_Qle. apply nearestEven_mono.
    apply Qmult_le_r with (z := pow2 ex); [exact Px|].
    assert (E1 : (x / pow2 ex * pow2 ex == x)%Q) by (field; lra).
    assert (E2 : (y / pow2 ex * pow2 ex == y)%Q) by (field; lra).
    rewrite E1, E2. exact Hxy.
  - assert (Hlt : ex < ey) by lia.
    assert (Hey : ey = ilog2 y - 52) by (unfold ex, ey, expOf, prec, emin in *; lia).
    assert (Hex : ilog2 x - 52 <= ex) by (unfold ex, expOf, prec; lia).
    destruct (ilog2_spec x Hx) as [_ X2]. destruct (ilog2_spec y Hy) as [Y1 _].
    (* the left side is at most 2^(53+ex), the right side at least 2^(52+ey) *)
    apply Qle_trans with (y := (pow2 53 * pow2 ex)%Q).
    + apply Qmult_le_compat_r; [|lra].
      rewrite (pow2_Z 53) by lia. rewrite <- Zle_Qle.
      rewrite <- (nearestEven_Z (2 ^ 53)). apply nearestEven_mono.
      rewrite <- (pow2_Z 53) by lia.
      apply Qle_shift_div_r; [exact Px|].
      rewrite <- pow2_add. apply Qlt_le_weak.
      apply Qlt_le_trans with (y := pow2 (ilog2 x + 1)); [exact X2|].
      apply pow2_le. lia.
    + apply Qle_trans with (y := (pow2 52 * pow2 ey)%Q).
      * rewrite <- !pow2_add. apply pow2_le. lia.
      * apply Qmult_le_compat_r; [|lra].
        rewrite (pow2_Z 52) by lia. rewrite <- Zle_Qle.
        rewrite <- (nearestEven_Z (2 ^ 52)). apply nearestEven_mono.
        rewrite <- (pow2_Z 52) by lia.
        apply Qle_shift_div_l; [exact Py|].
        rewrite <- pow2_add. replace (52 + ey) with (ilog2 y) by lia. exact Y1.
Qed.

Lemma round_pos x : (0 < x)%Q -> round x = roundPos x.
Proof.
  intros H. unfold round.
  destruct (Qcompare_spec x 0) as [C|C|C]; [exfalso; lra | exfalso; lra | reflexivity].
Qed.

Lemma round_neg x : (x < 0)%Q -> round x = (- roundPos (- x))%Q.
Proof.
  intros H. unfold round.
  destruct (Qcompare_spec x 0) as [C|C|C]; [exfalso; lra | reflexivity | exfalso; lra].
Qed.

Lemma round_zero x : (x == 0)%Q -> round x = 0%Q.
Proof.
  intros H. unfold round.
  destruct (Qcompare_spec x 0) as [C|C|C]; [reflexivity | exfalso; lra | exfalso; lra].
Qed.

(** Rounding keeps the order. *)
Lemma round_mono x y : (x <= y)%Q -> (round x <= round y)%Q.
Proof.
  intros Hxy.
  destruct (Q_dec x 0) as [[Hx|Hx]|Hx]; destruct (Q_dec y 0) as [[Hy|Hy]|Hy];
    try (exfalso; lra).
  - rewrite (round_neg x Hx), (round_neg y Hy).
    assert (roundPos (- y) <= roundPos (- x))%Q by (apply roundPos_mono; lra). lra.
  - rewrite (round_neg x Hx), (round_pos y Hy).
    assert (0 <= roundPos (- x))%Q by (apply roundPos_nonneg; lra).
    assert (0 <= roundPos y)%Q by (apply roundPos_nonneg; lra). lra.
  - rewrite (round_neg x Hx), (round_zero y Hy).
    assert (0 <= roundPos (- x))%Q by (apply roundPos_nonneg; lra). lra.
  - rewrite (round_pos x Hx), (round_pos y Hy). apply roundPos_mono; assumption.
  - rewrite (round_zero x Hx), (round_pos y Hy). apply roundPos_nonneg; assumption.
  - rewrite (round_zero x Hx), (round_zero y Hy). lra.
Qed.

(** Whole numbers of at most 53 bits are binary64 values. *)
Lemma roundPos_Z z : 0 < z < 2 ^ 53 -> (roundPos (inject_Z z) == inject_Z z)%Q.
Proof.
  intros [Hz Hb]. rewrite roundPos_eq.
  assert (Hq : (0 < inject_Z z)%Q) by (change 0%Q with (inject_Z 0); rewrite <- Zlt_Qlt; lia).
  assert (He : expOf (inject_Z z) <= 0).
  { unfold expOf, prec, emin.
    assert (ilog2 (inject_Z z) < 53); [|lia].
    destruct (ilog2_spec _ Hq) as [L _].
    apply pow2_lt_inv. apply Qle_lt_trans with (y := inject_Z z); [exact L|].
    rewrite (pow2_Z 53) by lia. rewrite <- Zlt_Qlt. lia. }
  set (e := expOf (inject_Z z)) in *.
  assert (Hp : (pow2 e * pow2 (- e) == 1)%Q).
  { rewrite <- pow2_add. replace (e + - e) with 0 by lia. reflexivity. }
  pose proof (pow2_pos e) as Pe.
  assert (Hs : (inject_Z z / pow2 e == inject_Z (z * 2 ^ (- e)))%Q).
  { rewrite inject_Z_mult, <- (pow2_Z (- e)) by lia.
    rewrite <- (Qmult_1_r (inject_Z z / pow2 e)), <- Hp. field. lra. }
  assert (Hn : nearestEven (inject_Z z / pow2 e) = z * 2 ^ (- e)).
  { rewrite (nearestEven_comp _ _ Hs). apply nearestEven_Z. }
  rewrite Hn, inject_Z_mult, <- (pow2_Z (- e)) by lia.
  rewrite <- Qmult_assoc, (Qmult_comm (pow2 (- e))), Hp. ring.
Qed.

Lemma ofInt_exact z : - 2 ^ 53 < z < 2 ^ 53 -> (ofInt z == inject_Z z)%Q.
Proof.
  intros Hz. unfold ofInt.
  destruct (Z.lt_trichotomy z 0) as [H|[H|H]].
  - rewrite round_neg by (change 0%Q with (inject_Z 0); rewrite <- Zlt_Qlt; lia).
    rewrite <- inject_Z_opp, roundPos_Z by lia. rewrite inject_Z_opp. ring.
  - subst z. reflexivity.
  - rewrite round_pos by (change 0%Q with (inject_Z 0); rewrite <- Zlt_Qlt; lia).
    apply roundPos_Z. lia.
Qed.

(** Truncation toward zero keeps the order. *)
Lemma trunc_nonneg a b : 0 <= a -> Z.quot a (Z.pos b) = Qfloor (a # b).
Proof. intros H. unfold Qfloor. apply Z.quot_div_nonneg; lia. Qed.

Lemma trunc_neg a b : a <= 0 -> Z.quot a (Z.pos b) = - Qfloor (- a # b).
Proof.
  intros H. unfold Qfloor. rewrite <- Z.quot_div_nonneg by lia.
  rewrite Z.quot_opp_l by lia. lia.
Qed.

Lemma trunc_mono x y : (x <= y)%Q -> trunc x <= trunc y.
Proof.
  unfold trunc. destruct x as [a b], y as [c d]. cbn [Qnum Qden]. intros H.
  destruct (Z.le_gt_cases 0 a) as [Ha|Ha]; destruct (Z.le_gt_cases 0 c) as [Hc|Hc].
  - rewrite !trunc_nonneg by assumption. apply Qfloor_resp_le, H.
  - exfalso. unfold Qle in H. cbn [Qnum Qden] in H. nia.
  - rewrite (trunc_neg a) by lia. rewrite (trunc_nonneg c) by lia.
    assert (0 <= Qfloor (- a # b)).
    { change 0 with (Qfloor 0). apply Qfloor_resp_le. unfold Qle. cbn. lia. }
    assert (0 <= Qfloor (c # d)).
    { change 0 with (Qfloor 0). apply Qfloor_resp_le. unfold Qle. cbn. lia. }
    lia.
  - rewrite !trunc_neg by lia.
    assert (Qfloor (- c # d) <= Qfloor (- a # b)); [|lia].
    apply Qfloor_resp_le. unfold Qle in *. cbn [Qnum Qden] in *. lia.
Qed.

End Rounding.

(** ** Order statistics of the duration samples *)

Section Statistics.
Import Analyze Spec.

Lemma Qle_bool_false x y : Qle_bool x y = false -> (y < x)%Q.
Proof.
  intros H. apply Qnot_le_lt. intros Hle.
  apply Qle_bool_iff in Hle. congruence.
Qed.

Lemma insertQ_Forall (P : Q -> Prop) a l :
  P a -> Forall P l -> Forall P (GoSort.insertQ a l).
Proof.
  intros Ha Hl. induction Hl as [|b l Hb Hl IH]; simpl; [auto|].
  destruct (Qle_bool a b); auto.
Qed.

Lemma insertQ_sorted a l :
  StronglySorted Qle l -> StronglySorted Qle (GoSort.insertQ a l).
Proof.
  intros Hl. induction Hl as [|b l Hl IH Hb]; simpl.
  - constructor; [constructor | constructor].
  - destruct (Qle_bool a b) eqn:E.
    + apply Qle_bool_iff in E. constructor; [constructor; auto|].
      constructor; [exact E|].
      apply (Forall_impl _ _ _ Hb). intros c Hc. eapply Qle_trans; eauto.
    + apply Qle_bool_false, Qlt_le_weak in E. constructor; [exact IH|].
      apply insertQ_Forall; auto.
Qed.

(** [sort.Float64s] sorts. *)
Lemma Float64s_sorted x : StronglySorted Qle (GoSort.Float64s x).
Proof. induction x as [|a x IH]; simpl; [constructor | apply insertQ_sorted, IH]. Qed.

Lemma sorted_AreSorted l :
  StronglySorted Qle l -> GoSort.Float64sAreSorted l = true.
Proof.
  intros Hl. induction Hl as [|a l Hl IH Ha]; [reflexivity|].
  cbn [GoSort.Float64sAreSorted]. destruct l as [|b l]; [reflexivity|].
  rewrite IH, andb_true_r. apply Qle_bool_iff.
  inversion Ha; assumption.
Qed.

Lemma last_default {A} (b : A) (l : list A) (d d' : A) :
  List.last (b :: l) d = List.last (b :: l) d'.
Proof.
  revert b. induction l as [|c l IH]; intros b; [reflexivity|].
  change (List.last (b :: c :: l) d) with (List.last (c :: l) d).
  change (List.last (b :: c :: l) d') with (List.last (c :: l) d').
  apply IH.
Qed.

(** In a sorted list every sample is at most the last one. *)
Lemma sorted_le_last l : StronglySorted Qle l ->
  forall d v, In v l -> (v <= List.last l d)%Q.
Proof.
  intros Hs. induction Hs as [|a l Hs IH Ha]; intros d v Hv; [destruct Hv|].
  destruct l as [|b l].
  - destruct Hv as [<-|[]]. apply Qle_refl.
  - change (List.last (a :: b :: l) d) with (List.last (b :: l) d).
    destruct Hv as [<-|Hv]; [|apply IH; assumption].
    eapply Qle_trans; [|apply (IH d b); left; reflexivity].
    inversion Ha; assumption.
Qed.

(** The sample that [empiricalQuantile] returns is one of the samples. *)
Lemma empiricalQuantile_In fidx x : forall cumsum v,
  Stat.empiricalQuantile fidx cumsum x = Some v -> In v x.
Proof.
  induction x as [|xi x IH]; intros cumsum v H; simpl in H; [discriminate|].
  destruct (Qle_bool fidx (cumsum + 1)); [left; congruence | right; eauto].
Qed.

(** It returns a sample when [fidx] is at most the final count. *)
Lemma empiricalQuantile_Some fidx x : forall cumsum,
  x <> [] ->
  (fidx <= cumsum + inject_Z (Z.of_nat (length x)))%Q ->
  exists v, Stat.empiricalQuantile fidx cumsum x = Some v.
Proof.
  induction x as [|xi x IH]; intros cumsum Hne Hf; [congruence|].
  simpl. destruct (Qle_bool fidx (cumsum + 1)) eqn:E; [eauto|].
  apply Qle_bool_false in E.
  replace (Z.of_nat (length (xi :: x))) with (Z.of_nat (length x) + 1)%Z in Hf
    by (cbn [length]; lia).
  rewrite inject_Z_plus in Hf. change (inject_Z 1) with 1%Q in Hf.
  destruct x as [|xj x].
  - exfalso. change (inject_Z (Z.of_nat (length (@nil Q)))) with 0%Q in Hf. lra.
  - apply IH; [discriminate|]. lra.
Qed.

(** A larger threshold selects a larger sample of a sorted list. *)
Lemma empiricalQuantile_mono f1 f2 x : (f1 <= f2)%Q -> StronglySorted Qle x ->
  forall cumsum v1 v2,
    Stat.empiricalQuantile f1 cumsum x = Some v1 ->
    Stat.empiricalQuantile f2 cumsum x = Some v2 ->
    (v1 <= v2)%Q.
Proof.
  intros Hf Hs. induction Hs as [|xi x Hs IH Hx]; intros cumsum v1 v2 H1 H2;
    simpl in H1, H2; [discriminate|].
  destruct (Qle_bool f2 (cumsum + 1)) eqn:E2.
  - apply Qle_bool_iff in E2.
    assert (E1 : Qle_bool f1 (cumsum + 1) = true)
      by (apply Qle_bool_iff; lra).
    rewrite E1 in H1. injection H1 as <-. injection H2 as <-. apply Qle_refl.
  - destruct (Qle_bool f1 (cumsum + 1)) eqn:E1.
    + injection H1 as <-. apply empiricalQuantile_In in H2.
      rewrite Forall_forall in Hx. apply Hx. apply list_elem_of_In. exact H2.
    + eapply IH; eauto.
Qed.

Lemma Float64s_nonempty x : x <> [] -> GoSort.Float64s x <> [].
Proof.
  intros Hne Hs. apply (f_equal (@length Q)) in Hs.
  rewrite length_Float64s in Hs. destruct x; [congruence | discriminate].
Qed.

(** The statistics of a sorted, non-empty sample list are in order. *)
Lemma durationStats_sorted x : x <> [] -> StronglySorted Qle x ->
  exists st, durationStats x = Some st
    /\ (sMin st <= sP50 st)%Q /\ (sP50 st <= sP90 st)%Q /\ (sP90 st <= sMax st)%Q.
Proof.
  intros Hne Hs. destruct x as [|x0 x']; [congruence|].
  set (x := x0 :: x') in *.
  assert (Hn : (0 <= inject_Z (Z.of_nat (length x)))%Q).
  { change 0%Q with (inject_Z 0). rewrite <- Zle_Qle. lia. }
  assert (Hle : ((1 # 2) * inject_Z (Z.of_nat (length x))
                 <= (9 # 10) * inject_Z (Z.of_nat (length x)))%Q) by lra.
  destruct (empiricalQuantile_Some ((1 # 2) * inject_Z (Z.of_nat (length x))) x 0 Hne)
    as (p50 & H50); [lra|].
  destruct (empiricalQuantile_Some ((9 # 10) * inject_Z (Z.of_nat (length x))) x 0 Hne)
    as (p90 & H90); [lra|].
  assert (Q50 : Stat.Quantile (1 # 2) x = Some p50).
  { unfold Stat.Quantile. cbn [Qle_bool Qnum Qden Z.leb Z.mul Z.compare negb andb
                                 Pos.mul Pos.compare Pos.compare_cont].
    subst x. rewrite (sorted_AreSorted _ Hs). exact H50. }
  assert (Q90 : Stat.Quantile (9 # 10) x = Some p90).
  { unfold Stat.Quantile. cbn [Qle_bool Qnum Qden Z.leb Z.mul Z.compare negb andb
                                 Pos.mul Pos.compare Pos.compare_cont].
    subst x. rewrite (sorted_AreSorted _ Hs). exact H90. }
  unfold durationStats. fold x. subst x. rewrite Q50, Q90.
  eexists. split; [reflexivity|]. cbn [sMin sMax sP50 sP90].
  inversion Hs as [|? ? Hs' Hx0]; subst.
  repeat split.
  - apply empiricalQuantile_In in H50. destruct H50 as [<-|Hin]; [apply Qle_refl|].
    rewrite Forall_forall in Hx0. apply Hx0, list_elem_of_In, Hin.
  - exact (empiricalQuantile_mono _ _ _ Hle Hs 0 p50 p90 H50 H90).
  - apply (sorted_le_last _ Hs). eapply empiricalQuantile_In; eauto.
Qed.

(** *** The printed rows *)

(** The fraction of a second in [Seconds]. *)
Lemma fraction_mono n1 n2 : n1 <= n2 ->
  (Float64.div (Float64.ofInt n1) (inject_Z 1000000000)
   <= Float64.div (Float64.ofInt n2) (inject_Z 1000000000))%Q.
Proof.
  intros H. unfold Float64.div, Float64.ofInt. apply round_mono.
  apply Qmult_le_compat_r; [|discriminate].
  apply round_mono. rewrite <- Zle_Qle. exact H.
Qed.

Lemma fraction_bounds n :
  (0 <= n <= 1000000000 ->
   (0 <= Float64.div (Float64.ofInt n) (inject_Z 1000000000) <= 1)%Q)
  /\ (- 1000000000 <= n <= 0 ->
      (- (1) <= Float64.div (Float64.ofInt n) (inject_Z 1000000000) <= 0)%Q).
Proof.
  split; intros [L U].
  - pose proof (fraction_mono 0 n L) as H0.
    pose proof (fraction_mono n 1000000000 U) as H1.
    assert (E1 : (Float64.div (Float64.ofInt 1000000000) (inject_Z 1000000000) == 1)%Q)
      by (vm_compute; reflexivity).
    change (Float64.div (Float64.ofInt 0) (inject_Z 1000000000)) with 0%Q in H0.
    split; [exact H0 | rewrite <- E1; exact H1].
  - pose proof (fraction_mono (- 1000000000) n L) as H0.
    pose proof (fraction_mono n 0 U) as H1.
    assert (E1 : (Float64.div (Float64.ofInt (- 1000000000)) (inject_Z 1000000000)
                  == - (1))%Q) by (vm_compute; reflexivity).
    change (Float64.div (Float64.ofInt 0) (inject_Z 1000000000)) with 0%Q in H1.
    split; [rewrite <- E1; exact H0 | exact H1].
Qed.

(** [Seconds] keeps the order of 64-bit durations. *)
Lemma Seconds_mono d1 d2 :
  GoTime.minDuration <= d1 -> d1 <= d2 -> d2 <= GoTime.maxDuration ->
  (GoTime.Seconds d1 <= GoTime.Seconds d2)%Q.
Proof.
  unfold GoTime.minDuration, GoTime.maxDuration, GoTime.Seconds.
  change GoTime.Second with 1000000000. change (2 ^ 63) with 9223372036854775808.
  intros L H U. cbv zeta. unfold Float64.add. apply round_mono.
  set (s1 := Z.quot d1 1000000000). set (n1 := Z.rem d1 1000000000).
  set (s2 := Z.quot d2 1000000000). set (n2 := Z.rem d2 1000000000).
  assert (Hz : (s1 = s2 /\ n1 <= n2)
               \/ (s1 + 1 <= s2
                   /\ ((0 <= n1 <= 1000000000 /\ 0 <= n2 <= 1000000000)
                       \/ (- 1000000000 <= n1 <= 0 /\ 0 <= n2 <= 1000000000)
                       \/ (- 1000000000 <= n1 <= 0 /\ - 1000000000 <= n2 <= 0)))).
  { subst s1 n1 s2 n2. Z.quot_rem_to_equations. lia. }
  assert (B1 : - 2 ^ 53 < s1 < 2 ^ 53)
    by (subst s1; change (2 ^ 53) with 9007199254740992;
        Z.quot_rem_to_equations; lia).
  assert (B2 : - 2 ^ 53 < s2 < 2 ^ 53)
    by (subst s2; change (2 ^ 53) with 9007199254740992;
        Z.quot_rem_to_equations; lia).
  pose proof (ofInt_exact s1 B1) as E1. pose proof (ofInt_exact s2 B2) as E2.
  rewrite E1, E2.
  destruct (fraction_bounds n1) as [P1 N1]. destruct (fraction_bounds n2) as [P2 N2].
  destruct Hz as [[Hs Hn]|[Hs Hn]].
  - pose proof (fraction_mono n1 n2 Hn) as F. rewrite Hs.
    generalize (inject_Z s2). intros z. lra.
  - assert (Hq : (inject_Z s1 + 1 <= inject_Z s2)%Q).
    { change 1%Q with (inject_Z 1). rewrite <- inject_Z_plus, <- Zle_Qle. exact Hs. }
    revert Hq. generalize (inject_Z s1) (inject_Z s2). intros z1 z2 Hq.
    destruct Hn as [[H1 H2]|[[H1 H2]|[H1 H2]]];
      [specialize (P1 H1); specialize (P2 H2)
      |specialize (N1 H1); specialize (P2 H2)
      |specialize (N1 H1); specialize (N2 H2)]; lra.
Qed.

(** The product with [float64(time.Second)], before the conversion to
    [int64], keeps the order. *)
Lemma nanoseconds_mono q1 q2 : (q1 <= q2)%Q ->
  Float64.trunc (Float64.mul q1 (Float64.ofInt GoTime.Second))
  <= Float64.trunc (Float64.mul q2 (Float64.ofInt GoTime.Second)).
Proof.
  intros H. apply trunc_mono. unfold Float64.mul. apply round_mono.
  assert (E : (Float64.ofInt GoTime.Second == 1000000000)%Q) by (vm_compute; reflexivity).
  rewrite E. apply Qmult_le_compat_r; [exact H | discriminate].
Qed.

(** The nanoseconds of a sample fit in 64 bits. *)
Lemma isSample_range q : isSample q ->
  GoTime.minDuration
  <= Float64.trunc (Float64.mul q (Float64.ofInt GoTime.Second))
  <= GoTime.maxDuration.
Proof.
  intros (d & (L & U) & ->).
  assert (Hmax : lastConvertible <= GoTime.maxDuration) by (vm_compute; discriminate).
  assert (Hmin : GoTime.minDuration <= lastConvertible) by (vm_compute; discriminate).
  pose proof (nanoseconds_mono _ _
                (Seconds_mono GoTime.minDuration d (Z.le_refl _) L ltac:(lia))) as H1.
  pose proof (nanoseconds_mono _ _
                (Seconds_mono d lastConvertible ltac:(lia) U Hmax)) as H2.
  assert (E1 : Float64.trunc (Float64.mul (GoTime.Seconds GoTime.minDuration)
                                (Float64.ofInt GoTime.Second)) = GoTime.minDuration)
    by (vm_compute; reflexivity).
  assert (E2 : Float64.trunc (Float64.mul (GoTime.Seconds lastConvertible)
                                (Float64.ofInt GoTime.Second)) <= GoTime.maxDuration)
    by (vm_compute; discriminate).
  rewrite E1 in H1. lia.
Qed.

Lemma toInt64_in_range x :
  GoTime.minDuration <= Float64.trunc x <= GoTime.maxDuration ->
  Float64.toInt64 x = Float64.trunc x.
Proof.
  unfold GoTime.minDuration, GoTime.maxDuration, Float64.toInt64. intros [L U]. cbv zeta.
  destruct (Z.leb_spec (- 2 ^ 63) (Float64.trunc x)); [|lia].
  destruct (Z.ltb_spec (Float64.trunc x) (2 ^ 63)); [reflexivity | lia].
Qed.

(** Rounding to the second keeps the order of 64-bit durations. *)
Lemma Round_mono d1 d2 :
  GoTime.minDuration <= d1 -> d1 <= d2 -> d2 <= GoTime.maxDuration ->
  GoTime.Round d1 GoTime.Second <= GoTime.Round d2 GoTime.Second.
Proof.
  unfold GoTime.Round, GoTime.wrap64, GoTime.minDuration, GoTime.maxDuration.
  change GoTime.Second with 1000000000.
  change (2 ^ 63) with 9223372036854775808.
  change (2 ^ 64) with 18446744073709551616.
  intros H1 H12 H2. cbn [Z.leb Z.compare].
  repeat match goal with
         | |- context [?a <? ?b] => destruct (Z.ltb_spec a b)
         end;
    Z.quot_rem_to_equations; Z.div_mod_to_equations; lia.
Qed.

Lemma shown_mono q1 q2 :
  isSample q1 -> isSample q2 -> (q1 <= q2)%Q -> shown q1 <= shown q2.
Proof.
  intros S1 S2 Hle.
  pose proof (isSample_range q1 S1) as R1. pose proof (isSample_range q2 S2) as R2.
  unfold shown, GoTime.ofSeconds. rewrite !toInt64_in_range by assumption.
  apply Round_mono; [apply R1 | apply nanoseconds_mono, Hle | apply R2].
Qed.

Lemma Sub_range t u :
  GoTime.minDuration <= GoTime.Sub t u <= GoTime.maxDuration.
Proof.
  unfold GoTime.Sub.
  destruct (Z.ltb_spec (t - u) GoTime.minDuration); [vm_compute; split; discriminate|].
  destruct (Z.ltb_spec GoTime.maxDuration (t - u)); [vm_compute; split; discriminate|].
  lia.
Qed.

Lemma Float64s_Forall (P : Q -> Prop) x : Forall P x -> Forall P (GoSort.Float64s x).
Proof.
  intros H. induction H as [|a x Ha Hx IH]; simpl; [constructor|].
  apply insertQ_Forall; assumption.
Qed.

Lemma Quantile_In p x v : Stat.Quantile p x = Some v -> In v x.
Proof.
  unfold Stat.Quantile. destruct (negb _); [discriminate|].
  destruct x as [|x0 x']; [discriminate|].
  destruct (negb _); [discriminate|]. apply empiricalQuantile_In.
Qed.

(** The row printed for a sorted list of samples is in order. *)
Lemma statsRow_ordered x st label :
  StronglySorted Qle x -> Forall isSample x -> durationStats x = Some st ->
  rowOrdered (statsRow st label).
Proof.
  intros Hs Hx Hst.
  destruct x as [|x0 x']; [discriminate|].
  destruct (durationStats_sorted (x0 :: x') ltac:(discriminate) Hs)
    as (st' & Hst' & H1 & H2 & H3).
  rewrite Hst in Hst'. injection Hst' as <-.
  unfold durationStats in Hst.
  destruct (Stat.Quantile (1 # 2) (x0 :: x')) as [p50|] eqn:Q50; [|discriminate].
  destruct (Stat.Quantile (9 # 10) (x0 :: x')) as [p90|] eqn:Q90; [|discriminate].
  injection Hst as <-. cbn [sMin sMax sP50 sP90] in *.
  rewrite Forall_forall in Hx.
  assert (I0 : isSample x0) by (apply Hx, list_elem_of_In; left; reflexivity).
  assert (I50 : isSample p50) by (apply Hx, list_elem_of_In, (Quantile_In _ _ _ Q50)).
  assert (I90 : isSample p90) by (apply Hx, list_elem_of_In, (Quantile_In _ _ _ Q90)).
  assert (Imax : isSample (List.last (x0 :: x') x0)).
  { apply Hx, list_elem_of_In. clear. revert x0.
    induction x' as [|b l IH]; intros x0; [left; reflexivity|].
    change (List.last (x0 :: b :: l) x0) with (List.last (b :: l) x0).
    rewrite (last_default b l x0 b). right. apply IH. }
  unfold statsRow, rowOrdered. cbn [sMin sMax sP50 sP90].
  repeat split; apply shown_mono; assumption.
Qed.

Lemma Forall_snoc {A} (P : A -> Prop) l o : Forall P l -> P o -> Forall P (l ++ [o])%list.
Proof. intros Hl Ho. apply Forall_app. split; [exact Hl | constructor; [exact Ho | constructor]]. Qed.

Lemma sound_print o a : rowOrdered o -> sound a -> sound (print o a).
Proof.
  intros Ho (H1 & H2 & H3). repeat split; try assumption.
  cbn [print stdout]. apply Forall_snoc; assumption.
Qed.

Lemma sound_verbose fl o a : rowOrdered o -> sound a -> sound (verbose fl o a).
Proof. intros Ho H. unfold verbose. destruct (fVerbose fl); [apply sound_print|]; auto. Qed.

Lemma sound_setDurations cs se a :
  Forall isSample cs -> Forall isSample se -> sound a -> sound (setDurations cs se a).
Proof. intros Hc Hs (_ & _ & H3). repeat split; assumption. Qed.

Lemma isSample_Sub t u :
  GoTime.Sub t u <= lastConvertible -> isSample (GoTime.Seconds (GoTime.Sub t u)).
Proof.
  intros H. eexists. split; [|reflexivity]. split; [apply Sub_range | exact H].
Qed.

Lemma sound_measDuration fl m a :
  convertible m -> sound a -> sound (snd (measDuration fl m a)).
Proof.
  intros Hc H. unfold measDuration. unfold convertible, allSet in Hc.
  destruct (unset (Common.CreationTime m)); [apply sound_print; [exact I | exact H]|].
  destruct (unset (Common.StartTime m)); [apply sound_print; [exact I | exact H]|].
  destruct (unset (Common.EndTime m)); [apply sound_print; [exact I | exact H]|].
  destruct (Hc eq_refl) as [Hcs Hse].
  assert (Hd : sound (setDurations
                        (durationCS a ++ [GoTime.Seconds
                           (GoTime.Sub (Common.StartTime m) (Common.CreationTime m))])
                        (durationSE a ++ [GoTime.Seconds
                           (GoTime.Sub (Common.EndTime m) (Common.StartTime m))]) a)).
  { destruct H as (H1 & H2 & H3).
    apply sound_setDurations; [| |repeat split; assumption];
      apply Forall_snoc; try assumption; apply isSample_Sub; assumption. }
  destruct (tookTooLong _ _ _ _); exact Hd.
Qed.

Lemma sound_measState st a : sound a -> sound (fst (measState st a)).
Proof.
  unfold measState. intros H.
  repeat match goal with |- context [String.eqb ?x ?y] => destruct (String.eqb x y) end;
    exact H.
Qed.

Lemma sound_printMeasDetails fl m issues a :
  sound a -> sound (fst (printMeasDetails fl m issues a)).
Proof.
  unfold printMeasDetails. intros H.
  destruct (negb (fVerbose fl) && (Z.of_nat (length issues) =? 0)); [exact H|].
  destruct (abbrState !! Common.State m); [apply sound_print; [exact I | exact H] | exact H].
Qed.

Lemma sound_printDurations a : sound a -> sound (fst (printDurations a)).
Proof.
  intros H. unfold printDurations. cbv zeta.
  assert (H0 : sound (print DurationHeader a)) by (apply sound_print; [exact I | exact H]).
  set (a0 := print DurationHeader a) in *.
  assert (F1 : Forall isSample (GoSort.Float64s (durationCS a0)))
    by (apply Float64s_Forall, H0).
  set (a1 := setDurations (GoSort.Float64s (durationCS a0)) (durationSE a0) a0).
  assert (H1 : sound a1) by (apply sound_setDurations; [exact F1 | apply H0 | exact H0]).
  change (durationStats (durationCS a1))
    with (durationStats (GoSort.Float64s (durationCS a0))).
  destruct (durationStats (GoSort.Float64s (durationCS a0))) as [cs|] eqn:Ecs;
    [|exact H1].
  pose proof (statsRow_ordered _ _ "creation time to start time"
                (Float64s_sorted _) F1 Ecs) as R1.
  assert (H2 : sound (print (statsRow cs "creation time to start time") a1))
    by (apply sound_print; assumption).
  set (a2 := print (statsRow cs "creation time to start time") a1) in *.
  assert (F2 : Forall isSample (GoSort.Float64s (durationSE a2)))
    by (apply Float64s_Forall, H2).
  set (a3 := setDurations (durationCS a2) (GoSort.Float64s (durationSE a2)) a2).
  assert (H3 : sound a3) by (apply sound_setDurations; [apply H2 | exact F2 | exact H2]).
  change (durationStats (durationSE a3))
    with (durationStats (GoSort.Float64s (durationSE a2))).
  destruct (durationStats (GoSort.Float64s (durationSE a2))) as [se|] eqn:Ese;
    [|exact H3].
  pose proof (statsRow_ordered _ _ "start time to end time"
                (Float64s_sorted _) F2 Ese) as R2.
  cbn [fst]. apply sound_print; assumption.
Qed.

Lemma sound_printAnalysis fl what a :
  sound a -> sound (fst (printAnalysis fl what a)).
Proof.
  unfold printAnalysis. intros H.
  destruct (totFound a =? 0); [apply sound_print; [exact I | exact H]|]. cbv zeta.
  remember (verbose fl VerboseNewline a) as a1 eqn:E1.
  assert (H1 : sound a1) by (subst a1; apply sound_verbose; [exact I | exact H]).
  clear E1 H a.
  remember (if String.eqb what "all" || String.eqb what "tags"
            then (if 0 <? Z.of_nat (length (fAnalyzeTag fl))
                  then print (TagsSection (fAnalyzeTag fl)) a1 else a1)
            else a1) as a2 eqn:E2.
  assert (H2 : sound a2)
    by (subst a2; destruct (_ || _); [destruct (0 <? _)|]; try exact H1;
        apply sound_print; [exact I | exact H1]).
  clear E2 H1 a1.
  remember (if String.eqb what "all" || String.eqb what "states"
            then print (StatesSection (totFound a2) (totAgentFailure a2)
                          (totCanceled a2) (totFinished a2) (totOngoing a2)) a2
            else a2) as a3 eqn:E3.
  assert (H3 : sound a3)
    by (subst a3; destruct (_ || _); [apply sound_print; [exact I | exact H2] | exact H2]).
  clear E3 H2 a2.
  destruct (String.eqb what "all" || String.eqb what "durations").
  - pose proof (sound_printDurations a3 H3) as H4.
    destruct (printDurations a3) as [a4 [e|]]; cbn [fst] in *; [exact H4|].
    destruct (_ || _); [apply sound_print; [exact I | exact H4] | exact H4].
  - destruct (_ || _); [apply sound_print; [exact I | exact H3] | exact H3].
Qed.

Lemma sound_analyzeLoop fl ms : Forall convertible ms ->
  forall a, sound a -> sound (fst (analyzeLoop fl ms a)).
Proof.
  induction ms as [|m rest IH]; intros Hms a H; [exact H|].
  inversion Hms as [|? ? Hm Hrest]; subst. specialize (IH Hrest).
  cbn [analyzeLoop]. destruct (measSkip fl m); [apply IH, H|].
  pose proof (sound_measDuration fl m a Hm H) as Hd.
  destruct (measDuration fl m a) as [duration a1]. cbn [snd] in Hd.
  destruct (duration =? DurationNone); [apply IH, Hd|]. cbv zeta.
  set (a2 := setCounters _ _ _ _ _ a1).
  assert (H2 : sound a2) by exact Hd.
  pose proof (sound_measState (Common.State m) a2 H2) as Hs.
  destruct (measState (Common.State m) a2) as [a3 [e|]]; cbn [fst] in Hs |- *;
    [exact Hs|].
  unfold measAgents. cbv zeta.
  set (a4 := setAgents _ _ a3).
  assert (H4 : sound a4) by exact Hs.
  match goal with |- context [printMeasDetails fl m ?i a4] =>
    pose proof (sound_printMeasDetails fl m i a4 H4) as Hp;
    destruct (printMeasDetails fl m i a4) as [a5 [e|]]
  end; cbn [fst] in Hp |- *; [exact Hp | apply IH, Hp].
Qed.

Lemma sound_analyze fl ms :
  Forall convertible ms -> sound (fst (analyze fl ms initAcc)).
Proof.
  intros Hms.
  assert (H0 : sound initAcc) by (repeat split; constructor).
  unfold analyze. pose proof (sound_analyzeLoop fl ms Hms initAcc H0) as H.
  destruct (analyzeLoop fl ms initAcc) as [a1 [e|]]; cbn [fst] in *; [exact H|].
  apply sound_printAnalysis, H.
Qed.

(** For the samples 1, ..., 10 the median that [printAnalysis] computes
    is not 5.5. *)
Lemma median_of_ten_not_interpolated :
  exists st, durationStats (GoSort.Float64s Scenario.tenSamples) = Some st
    /\ ~ (sP50 st == 11 # 2)%Q.
Proof.
  eexists. split; [vm_compute; reflexivity|].
  cbn [sP50]. intros H. vm_compute in H. discriminate.
Qed.

(** C7. For the samples 1, ..., 10 the median that [printAnalysis]
    computes is 5, the fifth sample, printed as five seconds, and the
    90th percentile is 9: the empirical quantile is a sample, with no
    interpolation between samples.  For every non-empty sample list the
    statistics are in order: minimum, median, 90th percentile, maximum;
    and so is every row of duration statistics that a run of [analyze]
    prints, when no measurement with its three times set has a duration
    above [lastConvertible] (about 292 years), so that every statistic
    converts back to a [time.Duration]. *)
Theorem durationStats_in_order (x : list Q) :
  (exists st, durationStats (GoSort.Float64s Scenario.tenSamples) = Some st
     /\ (sP50 st == 5)%Q /\ (sP90 st == 9)%Q
     /\ shown (sP50 st) = 5 * GoTime.Second)
  /\ (x <> [] ->
      exists st, durationStats (GoSort.Float64s x) = Some st
        /\ (sMin st <= sP50 st)%Q /\ (sP50 st <= sP90 st)%Q
        /\ (sP90 st <= sMax st)%Q)
  /\ (forall fl ms min max avg p50 p90 label,
        Forall convertible ms ->
        In (DurationRow min max avg p50 p90 label)
           (stdout (fst (analyze fl ms initAcc))) ->
        min <= p50 /\ p50 <= p90 /\ p90 <= max).
Proof.
  split; [|split].
  - eexists. split; [vm_compute; reflexivity|].
    cbn [sP50 sP90]. repeat split; reflexivity.
  - intros Hne. apply durationStats_sorted;
      [apply Float64s_nonempty, Hne | apply Float64s_sorted].
  - intros fl ms mn mx avg p50 p90 label Hms Hin.
    destruct (sound_analyze fl ms Hms) as (_ & _ & Hrows).
    rewrite Forall_forall in Hrows.
    exact (Hrows _ (proj2 (list_elem_of_In _ _) Hin)).
Qed.

(** The bound on the durations is needed.  The duration of
    [Scenario.centuries] is the longest one, 2^63 - 1 ns; its [Seconds]
    times [1e9] is 2^63 in binary64, outside the range of [int64], and
    with the conversion of amd64 the maximum that is printed is the
    smallest duration, below the minimum. *)
Lemma saturated_maximum_below_minimum :
  In (DurationRow (6 * GoTime.Hour) GoTime.minDuration (4611696818 * GoTime.Second)
        (6 * GoTime.Hour) GoTime.minDuration "start time to end time")
     (stdout (fst (analyze defaultFlags
                     [Scenario.daily (6 * GoTime.Hour); Scenario.centuries] initAcc)))
  /\ ~ convertible Scenario.centuries.
Proof.
  split.
  - vm_compute. tauto.
  - intros H. destruct (H eq_refl) as [_ H2]. vm_compute in H2. apply H2. reflexivity.
Qed.

Lemma durationStats_in_order_witness :
  (exists st, durationStats (GoSort.Float64s Scenario.tenSamples) = Some st
     /\ (sMin st <= sP50 st)%Q /\ (sP50 st <= sP90 st)%Q
     /\ (sP90 st <= sMax st)%Q)
  /\ (4 * GoTime.Hour <= 4 * GoTime.Hour /\ 4 * GoTime.Hour <= 6 * GoTime.Hour
      /\ 6 * GoTime.Hour <= 6 * GoTime.Hour).
Proof.
  destruct (durationStats_in_order Scenario.tenSamples) as (_ & S & R).
  split; [apply S; discriminate|].
  apply (R defaultFlags Scenario.twoDaily (4 * GoTime.Hour) (6 * GoTime.Hour)
           (5 * GoTime.Hour) (4 * GoTime.Hour) (6 * GoTime.Hour)
           "start time to end time").
  - apply List.Forall_cons; [|apply List.Forall_cons; [|apply List.Forall_nil]];
      intros _; vm_compute; split; discriminate.
  - vm_compute. tauto.
Defined.

End Statistics.

(** ** Table names *)

Section TableNames.
Import GoStrings Analyze.

Lemma append_cons (x : ascii) (a b : string) :
  (String x a ++ b = String x (a ++ b))%string.
Proof. reflexivity. Qed.

Lemma append_nil (b : string) : ("" ++ b = b)%string.
Proof. reflexivity. Qed.

Lemma append_assoc_s (a b c : string) : ((a ++ b) ++ c = a ++ (b ++ c))%string.
Proof.
  induction a as [|x a IH]; [reflexivity|].
  rewrite !append_cons, IH. reflexivity.
Qed.

Lemma length_append_s (a b : string) :
  String.length (a ++ b) = (String.length a + String.length b)%nat.
Proof.
  induction a as [|x a IH]; [reflexivity|].
  rewrite append_cons. cbn [String.length Nat.add]. rewrite IH. reflexivity.
Qed.

Lemma HasPrefix_append s p : HasPrefix s p = true <-> exists r, s = (p ++ r)%string.
Proof.
  revert s. induction p as [|a p IH]; intros s; simpl.
  - split; [intros _; exists s; reflexivity | reflexivity].
  - destruct s as [|b s].
    + split; [discriminate | intros (r & Hr); discriminate].
    + destruct (Ascii.eqb_spec a b) as [->|Hne].
      * rewrite IH. split; intros (r & Hr); exists r; [rewrite Hr; reflexivity|].
        injection Hr as Hr. exact Hr.
      * split; [discriminate | intros (r & Hr); injection Hr as Hab _; congruence].
Qed.

Lemma dropn_append n x y :
  (n <= String.length x)%nat -> dropn n (x ++ y) = (dropn n x ++ y)%string.
Proof.
  revert x. induction n as [|n IH]; intros x Hn; [reflexivity|].
  destruct x as [|c x]; simpl in *; [lia|]. apply IH. lia.
Qed.

Lemma dropn_length x y : dropn (String.length x) (x ++ y) = y.
Proof. induction x as [|c x IH]; simpl; [destruct y; reflexivity | exact IH]. Qed.

Lemma taken_length x y : taken (String.length x) (x ++ y) = x.
Proof.
  induction x as [|c x IH]; simpl; [destruct y; reflexivity | rewrite IH; reflexivity].
Qed.

(** [strings.Index]: either the separator does not occur, or the
    result is the offset of its first occurrence. *)
Lemma IndexFrom_spec sep : forall s i,
  (IndexFrom i s sep = -1 /\ forall a b, s <> (a ++ sep ++ b)%string)
  \/ (exists a b,
        s = (a ++ sep ++ b)%string
        /\ IndexFrom i s sep = i + Z.of_nat (String.length a)
        /\ forall a' b', s = (a' ++ sep ++ b')%string ->
                         (String.length a <= String.length a')%nat).
Proof.
  assert (Hhit : forall s i, HasPrefix s sep = true ->
            exists a b, s = (a ++ sep ++ b)%string
              /\ i = i + Z.of_nat (String.length a)
              /\ forall a' b', s = (a' ++ sep ++ b')%string ->
                               (String.length a <= String.length a')%nat).
  { intros s i H. apply HasPrefix_append in H as (r & ->).
    exists ""%string, r. cbn [String.length].
    repeat split; [lia | intros; lia]. }
  assert (Hmiss : forall s a b, HasPrefix s sep = false ->
            s = (a ++ sep ++ b)%string -> exists c a', a = String c a').
  { intros s a b H Hs. destruct a as [|c a']; [|eauto].
    rewrite append_nil in Hs.
    assert (HasPrefix s sep = true) by (apply HasPrefix_append; eauto).
    congruence. }
  induction s as [|c s IH]; intros i; cbn [IndexFrom].
  - destruct (HasPrefix "" sep) eqn:E; [right; apply Hhit, E|].
    left. split; [reflexivity|]. intros a b Hs.
    destruct (Hmiss _ _ _ E Hs) as (c & a' & ->).
    rewrite append_cons in Hs. discriminate.
  - destruct (HasPrefix (String c s) sep) eqn:E; [right; apply Hhit, E|].
    destruct (IH (i + 1)) as [(Hi & Hno) | (a & b & Hs & Hi & Hmin)].
    + left. split; [exact Hi|]. intros a b Hs.
      destruct (Hmiss _ _ _ E Hs) as (c' & a' & ->).
      rewrite append_cons in Hs. injection Hs as _ Hs. exact (Hno _ _ Hs).
    + right. exists (String c a), b.
      split; [rewrite append_cons, <- Hs; reflexivity|].
      split; [rewrite Hi; cbn [String.length]; lia|].
      intros a' b' Hs'.
      destruct (Hmiss _ _ _ E Hs') as (c' & a'' & ->).
      rewrite append_cons in Hs'. injection Hs' as _ Hs'.
      specialize (Hmin _ _ Hs'). cbn [String.length]. lia.
Qed.

(** C8. [parseMeasAgentUUIDs] looks for the first "__" and for the
    first "__" after it.  If either is missing, that is when the name
    does not hold two occurrences of "__" one after the other, it
    returns [ErrInvalidTableName] with two empty strings.  Otherwise
    the name is [kind ++ "__" ++ seg ++ "__" ++ agentUUID]: the
    measurement UUID returned is [seg] with every "_" replaced by "-",
    and the agent UUID returned is everything after the second "__",
    as it stands. *)
Theorem parseMeasAgentUUIDs_parts (tableName : string) :
  match parseMeasAgentUUIDs tableName with
  | (measUUID, agentUUID, None) =>
      exists kind seg,
        tableName = (kind ++ "__" ++ seg ++ "__" ++ agentUUID)%string
        /\ Index tableName "__" = Z.of_nat (String.length kind)
        /\ Index (seg ++ "__" ++ agentUUID) "__" = Z.of_nat (String.length seg)
        /\ measUUID = ReplaceAll seg "_" "-"
  | (measUUID, agentUUID, Some err) =>
      err = ErrInvalidTableName /\ measUUID = ""%string /\ agentUUID = ""%string
      /\ ~ exists kind seg rest,
             tableName = (kind ++ "__" ++ seg ++ "__" ++ rest)%string
  end.
Proof.
  unfold parseMeasAgentUUIDs, Index.
  destruct (IndexFrom_spec "__" tableName 0)
    as [(Hi & Hno) | (kind & rest & Ht & Hi & Hmin)]; rewrite Hi.
  { cbn. repeat split. intros (kind & seg & rest & Ht). exact (Hno _ _ Ht). }
  destruct (Z.eqb_spec (0 + Z.of_nat (String.length kind)) (-1)) as [Hneg|_]; [lia|].
  replace (0 + Z.of_nat (String.length kind) + 2)
    with (Z.of_nat (String.length (kind ++ "__")))
    by (rewrite length_append_s; cbn [String.length]; lia).
  assert (Hrest : sliceFrom tableName (Z.of_nat (String.length (kind ++ "__"))) = rest).
  { unfold sliceFrom. rewrite Nat2Z.id, Ht, <- append_assoc_s. apply dropn_length. }
  rewrite Hrest.
  destruct (IndexFrom_spec "__" rest 0)
    as [(Hj & Hno) | (seg & agent & Hr & Hj & _)]; rewrite Hj.
  { cbn. repeat split. intros (k & sg & r & Ht').
    pose proof (Hmin _ _ Ht') as Hle.
    apply (Hno (dropn (String.length (kind ++ "__")) (k ++ "__" ++ sg)) r).
    rewrite <- Hrest. unfold sliceFrom. rewrite Nat2Z.id.
    rewrite <- dropn_append
      by (rewrite !length_append_s; cbn [String.length]; lia).
    rewrite Ht', !append_assoc_s. reflexivity. }
  destruct (Z.eqb_spec (0 + Z.of_nat (String.length seg)) (-1)) as [Hneg|_]; [lia|].
  assert (Hagent : sliceFrom tableName
                     (0 + Z.of_nat (String.length seg)
                      + Z.of_nat (String.length (kind ++ "__")) + 2) = agent).
  { unfold sliceFrom.
    replace (Z.to_nat (0 + Z.of_nat (String.length seg)
                       + Z.of_nat (String.length (kind ++ "__")) + 2))
      with (String.length ((kind ++ "__") ++ seg ++ "__"))
      by (rewrite !length_append_s; cbn [String.length]; lia).
    rewrite Ht, Hr.
    replace (kind ++ "__" ++ seg ++ "__" ++ agent)%string
      with (((kind ++ "__") ++ seg ++ "__") ++ agent)%string
      by (rewrite !append_assoc_s; reflexivity).
    apply dropn_length. }
  rewrite Hagent.
  exists kind, seg. split; [rewrite Ht, Hr; reflexivity|].
  split; [lia|]. split; [rewrite <- Hr, Hj; lia|].
  f_equal. unfold slice.
  replace (Z.of_nat (String.length (kind ++ "__"))
           + (0 + Z.of_nat (String.length seg))
           - Z.of_nat (String.length (kind ++ "__")))
    with (Z.of_nat (String.length seg)) by lia.
  fold (sliceFrom tableName (Z.of_nat (String.length (kind ++ "__")))).
  rewrite Nat2Z.id, Hrest, Hr. apply taken_length.
Qed.

(** The agent part comes back with its underscores: the name
    "results__m_1__a_1" does not parse to the UUIDs "m-1" and "a-1". *)
Lemma parseMeasAgentUUIDs_agent_untranslated :
  parseMeasAgentUUIDs "results__m_1__a_1" <> ("m-1", "a-1", None)%string.
Proof. vm_compute. discriminate. Qed.

End TableNames.

(** ** [measSkip] and the specification's filter *)

Section PredicateSpec.
Import Common Analyze GoStrings Spec.

(** [strings.Contains]: the text occurs somewhere. *)
Lemma Contains_iff s t :
  Contains s t = true <-> exists a b, s = (a ++ t ++ b)%string.
Proof.
  unfold Contains, Index.
  destruct (IndexFrom_spec t s 0) as [[E H]|(a & b & E & Hi & _)].
  - rewrite E. split; [discriminate | intros (a & b & Hs); exfalso; exact (H _ _ Hs)].
  - rewrite Hi. split; [intros _; exists a, b; exact E | intros _; apply Z.leb_le; lia].
Qed.

(** A byte and its lower-case form are the same letter. *)
Lemma lowerByte_sameLetter c : sameLetter c (lowerByte c).
Proof.
  destruct c as [[] [] [] [] [] [] [] []];
    first [left; reflexivity | right; left; vm_compute; tauto].
Qed.

Lemma ToLower_equalFold s : equalFold s (ToLower s).
Proof.
  induction s as [|c s IH]; [exact I|]. cbn [ToLower equalFold].
  split; [apply lowerByte_sameLetter | exact IH].
Qed.

(** Lower-casing goes through concatenation, and back. *)
Lemma ToLower_append a b : ToLower (a ++ b) = (ToLower a ++ ToLower b)%string.
Proof.
  induction a as [|c a IH]; [reflexivity|].
  rewrite !append_cons. cbn [ToLower]. rewrite append_cons, IH. reflexivity.
Qed.

Lemma ToLower_split s : forall a b, ToLower s = (a ++ b)%string ->
  exists a' b', s = (a' ++ b')%string /\ ToLower a' = a /\ ToLower b' = b.
Proof.
  induction s as [|c s IH]; intros a b H.
  - destruct a; [|discriminate]. exists "", "". cbn in *. auto.
  - destruct a as [|x a].
    + exists "", (String c s). cbn in *. auto.
    + cbn in H. injection H as Hx H. destruct (IH a b H) as (a' & b' & -> & <- & <-).
      exists (String c a'), b'. cbn. rewrite Hx. auto.
Qed.

(** What the code finds in a lower-cased tag is contained in the tag
    up to case. *)
Lemma Contains_lower_fold mt tag :
  Contains (ToLower mt) tag = true -> containsFold mt tag.
Proof.
  intros H. apply Contains_iff in H as (a & b & H).
  apply ToLower_split in H as (a' & r & -> & _ & H).
  apply ToLower_split in H as (mid & b' & -> & <- & _).
  exists a', mid, b'. split; [reflexivity | apply ToLower_equalFold].
Qed.

Lemma noCapital_cons c s :
  noCapital (String c s) = true ->
  negb (existsb (Ascii.eqb c) (list_ascii_of_string capitals)) = true
  /\ noCapital s = true.
Proof. unfold noCapital. cbn [list_ascii_of_string forallb]. apply andb_prop. Qed.

(** Up to case, a byte equals a byte that is no capital letter only if
    the latter is its lower-case form. *)
Lemma sameLetter_lower a b :
  sameLetter a b ->
  negb (existsb (Ascii.eqb b) (list_ascii_of_string capitals)) = true ->
  lowerByte a = b.
Proof.
  intros [->|[H|H]] Hb.
  - destruct b as [[] [] [] [] [] [] [] []]; first [reflexivity | discriminate Hb].
  - cbn in H.
    repeat (destruct H as [H|H]; [injection H as <- <-; reflexivity|]). destruct H.
  - exfalso. cbn in H.
    repeat (destruct H as [H|H]; [injection H as <- <-; discriminate Hb|]). destruct H.
Qed.

Lemma equalFold_lower mid tag :
  noCapital tag = true -> equalFold mid tag -> ToLower mid = tag.
Proof.
  revert tag. induction mid as [|a mid IH]; intros [|b tag] Hn H;
    [reflexivity | destruct H | destruct H |].
  apply noCapital_cons in Hn as [Hb Hn]. destruct H as [Hab H].
  cbn [ToLower]. rewrite (sameLetter_lower a b Hab Hb), (IH tag Hn H). reflexivity.
Qed.

(** A tag without capital letters that is contained in a measurement
    tag up to case is found by the code. *)
Lemma containsFold_lower mt tag :
  noCapital tag = true -> containsFold mt tag -> Contains (ToLower mt) tag = true.
Proof.
  intros Hn (pre & mid & post & -> & H).
  apply Contains_iff. exists (ToLower pre), (ToLower post).
  rewrite !ToLower_append, (equalFold_lower mid tag Hn H). reflexivity.
Qed.

Lemma tagFound_sound mTags tag : tagFound mTags tag = true -> tagHit mTags tag.
Proof.
  induction mTags as [|mt rest IH]; simpl; [discriminate|].
  destruct (Contains (ToLower mt) tag) eqn:E.
  - intros _. exists mt. split; [left; reflexivity | apply Contains_lower_fold, E].
  - intros H. destruct (IH H) as (x & Hx & Hc). exists x. split; [right; exact Hx | exact Hc].
Qed.

Lemma tagFound_complete mTags tag :
  noCapital tag = true -> tagHit mTags tag -> tagFound mTags tag = true.
Proof.
  intros Hn (x & Hx & Hc). induction mTags as [|mt rest IH]; [destruct Hx|]. simpl.
  destruct (Contains (ToLower mt) tag) eqn:E; [reflexivity|].
  destruct Hx as [->|Hx]; [|exact (IH Hx)].
  rewrite (containsFold_lower x tag Hn Hc) in E. discriminate.
Qed.

(** [MatchTag] on a non-empty filter: all, or one, of the filter tags
    is found. *)
Lemma MatchTag_found mTags tags tagsAnd : tags <> [] ->
  MatchTag mTags tags tagsAnd
  = if tagsAnd then forallb (tagFound mTags) tags else existsb (tagFound mTags) tags.
Proof.
  intros Hne. unfold MatchTag. destruct tagsAnd.
  - rewrite matchTagLoop_and. destruct tags; [congruence | reflexivity].
  - rewrite matchTagLoop_or. destruct tags; [congruence | reflexivity].
Qed.

Lemma MatchTag_sound mTags tags tagsAnd : tags <> [] ->
  MatchTag mTags tags tagsAnd = true -> tagRule mTags tags tagsAnd.
Proof.
  intros Hne. rewrite MatchTag_found by exact Hne. unfold tagRule.
  destruct tagsAnd.
  - rewrite forallb_forall. intros H tag Ht. apply tagFound_sound, H, Ht.
  - rewrite existsb_exists. intros (tag & Ht & H). exists tag.
    split; [exact Ht | apply tagFound_sound, H].
Qed.

Lemma MatchTag_complete mTags tags tagsAnd : tags <> [] ->
  List.Forall (fun t => noCapital t = true) tags ->
  tagRule mTags tags tagsAnd -> MatchTag mTags tags tagsAnd = true.
Proof.
  intros Hne Hn. rewrite MatchTag_found by exact Hne. unfold tagRule.
  rewrite List.Forall_forall in Hn. destruct tagsAnd.
  - rewrite forallb_forall. intros H tag Ht. apply tagFound_complete; auto.
  - rewrite existsb_exists. intros (tag & Ht & H). exists tag.
    split; [exact Ht | apply tagFound_complete; auto].
Qed.

(** C1. [measSkip] against the filter as the specification words it,
    whose tag check is case-insensitive containment.  The code
    lower-cases the measurement tag and not the filter tag, so the two
    differ on a filter tag with a capital letter: with [--tag ZEPH] a
    measurement tagged "zeph", created inside the window, passes the
    specification's filter and is skipped by [measSkip].  For a
    measurement whose tags are ASCII text (on which [ToLower] is Go's),
    what [measSkip] lets pass passes the specification's filter, and
    when no filter tag holds a capital letter the two agree: the
    measurement passes exactly when its creation time is strictly after
    [--after] and strictly before [--before], the state filter is empty
    or lists its state, and the tag filter is empty or the combination
    rule holds.  A measurement created exactly at [--after] or exactly
    at [--before] is skipped. *)
Theorem measSkip_matches :
  (matches Scenario.capitalFlags Scenario.zephRecord
   /\ measSkip Scenario.capitalFlags Scenario.zephRecord = true)
  /\ (forall fl m,
        List.Forall (fun t => asciiOnly t = true) (Tags m) ->
        (measSkip fl m = false -> matches fl m)
        /\ (List.Forall (fun t => noCapital t = true) (fAnalyzeTag fl) ->
            matches fl m -> measSkip fl m = false))
  /\ (forall fl m,
        CreationTime m = fAnalyzeAfter fl \/ CreationTime m = fAnalyzeBefore fl ->
        measSkip fl m = true).
Proof.
  assert (Hwin : forall fl m, measSkip fl m = false ->
            fAnalyzeAfter fl < CreationTime m < fAnalyzeBefore fl).
  { intros fl m H. apply measSkip_false in H as (_ & _ & H1 & H2).
    unfold GoTime.After, GoTime.Before in *. lia. }
  split; [split|split].
  - split; [split; reflexivity|]. split; [left; reflexivity|].
    right. exists "ZEPH". split; [left; reflexivity|].
    exists "zeph". split; [left; reflexivity|].
    exists "", "zeph", "". split; [reflexivity|].
    cbn [equalFold]. unfold sameLetter.
    repeat split; right; right; vm_compute; tauto.
  - reflexivity.
  - intros fl m _. split.
    + intros H. pose proof (Hwin fl m H) as [W1 W2].
      apply measSkip_false in H as (Ht & Hs & _ & _).
      split; [split; assumption|]. split.
      * rewrite length_pos_nonnil, MatchState_In in Hs. exact Hs.
      * rewrite length_pos_nonnil in Ht. destruct Ht as [Ht|Ht]; [left; exact Ht|].
        destruct (fAnalyzeTag fl) as [|t ts] eqn:Et; [left; reflexivity|].
        right. apply MatchTag_sound; [discriminate | exact Ht].
    + intros Hn ((W1 & W2) & Hs & Ht). apply measSkip_false.
      unfold GoTime.After, GoTime.Before. rewrite !Z.ltb_lt, !length_pos_nonnil, MatchState_In.
      split; [|split; [exact Hs | split; assumption]].
      destruct Ht as [Ht|Ht]; [left; exact Ht|].
      destruct (fAnalyzeTag fl) as [|t ts] eqn:Et; [left; reflexivity|].
      right. apply MatchTag_complete; [discriminate | exact Hn | exact Ht].
  - intros fl m Hb. apply not_false_iff_true. intros E.
    pose proof (Hwin fl m E). lia.
Qed.

End PredicateSpec.

(** ** The table cross-reference check *)

Section Tables.
Import Common Analyze Spec.

Lemma extends_refl a : extends a a.
Proof. exists []. rewrite app_nil_r. reflexivity. Qed.

Lemma extends_trans a b c : extends a b -> extends b c -> extends a c.
Proof.
  intros (l1 & H1) (l2 & H2). exists (l1 ++ l2)%list.
  rewrite H2, H1, app_assoc. reflexivity.
Qed.

Lemma extends_print o a : extends a (print o a).
Proof. exists [o]. reflexivity. Qed.

Lemma extends_verbose fl o a : extends a (verbose fl o a).
Proof. unfold verbose. destruct (fVerbose fl); [apply extends_print | apply extends_refl]. Qed.

Lemma quiet_print o a :
  (forall u t st k e, o <> MeasTablesLine u t st k (Some e)) -> quiet a (print o a).
Proof.
  intros Ho. unfold quiet, countErrors. cbn [print stdout].
  rewrite flat_map_app. cbn [flat_map].
  destruct o as [| | | | | | | | | | | | | |u t st k [e|]| | | | |];
    try (rewrite !app_nil_r; reflexivity).
  exfalso. exact (Ho u t st k e eq_refl).
Qed.

Lemma quiet_verbose fl o a :
  (forall u t st k e, o <> MeasTablesLine u t st k (Some e)) -> quiet a (verbose fl o a).
Proof.
  intros Ho. unfold verbose. destruct (fVerbose fl); [apply quiet_print, Ho | reflexivity].
Qed.

Lemma calm_refl a : calm a a.
Proof. split; [apply extends_refl | reflexivity]. Qed.

Lemma calm_trans a b c : calm a b -> calm b c -> calm a c.
Proof.
  intros (E1 & Q1) (E2 & Q2). split; [eapply extends_trans; eauto|].
  unfold quiet in *. congruence.
Qed.

Lemma calm_print o a :
  (forall u t st k e, o <> MeasTablesLine u t st k (Some e)) -> calm a (print o a).
Proof. intros Ho. split; [apply extends_print | apply quiet_print, Ho]. Qed.

Lemma calm_verbose fl o a :
  (forall u t st k e, o <> MeasTablesLine u t st k (Some e)) -> calm a (verbose fl o a).
Proof. intros Ho. split; [apply extends_verbose | apply quiet_verbose, Ho]. Qed.

Lemma calm_printTableRows fl dir data names : forall a,
  calm a (fst (printTableRows fl dir data names a)).
Proof.
  induction names as [|tblName rest IH]; intros a; cbn [printTableRows].
  - apply calm_refl.
  - destruct (parseMeasAgentUUIDs tblName) as [[measUUID agentUUID] [err|]];
      [apply calm_refl|].
    cbv zeta. destruct (if 0 <? _ then _ else false); [apply IH|].
    eapply calm_trans; [|apply IH]. apply calm_print. discriminate.
Qed.

Lemma calm_printTablesLoop fl dir measTables : forall data prev a,
  calm a (fst (printTablesLoop fl dir measTables data prev a)).
Proof.
  induction measTables as [|table rest IH]; intros data prev a;
    cbn [printTablesLoop].
  - apply calm_printTableRows.
  - destruct (GoTime.ParseDateTime (ModTime table)) as [mt|]; [|apply calm_refl].
    destruct (negb _ || negb _).
    { eapply calm_trans; [|apply IH]. apply calm_verbose. discriminate. }
    destruct (parseMeasAgentUUIDs (Name table)) as [[measUUID agentUUID] [err|]];
      [apply calm_refl|].
    cbv zeta. destruct (negb _); [|apply IH].
    match goal with |- context [printTableDetails fl dir data ?b] =>
      pose proof (calm_printTableRows fl dir data (sortByKey data) b) as Hd;
      fold (printTableDetails fl dir data b) in Hd;
      destruct (printTableDetails fl dir data b) as [a1 [e|]]
    end; cbn [fst] in *.
    + eapply calm_trans; [|exact Hd]. apply calm_print. discriminate.
    + eapply calm_trans; [|apply IH].
      eapply calm_trans; [|exact Hd]. apply calm_print. discriminate.
Qed.

Lemma calm_printTables fl dir measTables a :
  calm a (fst (printTables fl dir measTables a)).
Proof. apply calm_printTablesLoop. Qed.

(** The loop over the measurements only adds to the output. *)
Lemma extends_tablesLoop fl dir catalog ms : forall n a,
  extends a (snd (fst (tablesLoop fl dir catalog ms n a))).
Proof.
  induction ms as [|m rest IH]; intros n a; cbn [tablesLoop].
  - apply extends_refl.
  - destruct (measSkip fl m || _).
    { eapply extends_trans; [apply extends_verbose | apply IH]. }
    destruct (Z.of_nat (length (Agents m)) =? 0).
    { eapply extends_trans; [apply extends_verbose | apply IH]. }
    destruct (catalog (UUID m)) as [measTables [err|]].
    { destruct (negb (isZeroLength err)); [apply extends_refl|].
      eapply extends_trans; [apply extends_print | apply IH]. }
    cbv zeta.
    match goal with |- context [printTables fl dir measTables ?b] =>
      assert (Hb : extends a b)
        by (destruct (fVerbose fl); apply extends_print);
      pose proof (proj1 (calm_printTables fl dir measTables b)) as Hp;
      destruct (printTables fl dir measTables b) as [a1 [e|]]
    end; cbn [fst snd] in *.
    + eapply extends_trans; eauto.
    + eapply extends_trans; [|apply IH]. eapply extends_trans; eauto.
Qed.

(** Without [--verbose] the loop adds no expected-count error. *)
Lemma quiet_tablesLoop fl dir catalog ms : fVerbose fl = false -> forall n a,
  quiet a (snd (fst (tablesLoop fl dir catalog ms n a))).
Proof.
  intros Hv. induction ms as [|m rest IH]; intros n a; cbn [tablesLoop].
  - reflexivity.
  - unfold verbose. rewrite Hv.
    destruct (measSkip fl m || _); [apply IH|].
    destruct (Z.of_nat (length (Agents m)) =? 0); [apply IH|].
    destruct (catalog (UUID m)) as [measTables [err|]].
    { destruct (negb (isZeroLength err)); [reflexivity|].
      unfold quiet. rewrite IH. apply quiet_print. discriminate. }
    cbv zeta.
    match goal with |- context [printTables fl dir measTables ?b] =>
      assert (Hb : quiet a b) by (apply quiet_print; discriminate);
      pose proof (proj2 (calm_printTables fl dir measTables b)) as Hp;
      destruct (printTables fl dir measTables b) as [a1 [e|]]
    end; cbn [fst snd] in *; unfold quiet in *.
    + congruence.
    + rewrite IH. congruence.
Qed.

(** Without [--verbose] and with eleven tables for three agents, the
    output of [analyze tables] carries no expected-count error. *)
Lemma count_mismatch_unreported_without_verbose :
  length Scenario.elevenTables = 11%nat
  /\ length (Agents (Scenario.daily (5 * GoTime.Hour))) = 3%nat
  /\ countErrors (Scenario.tablesOutput defaultFlags Scenario.elevenTables) = [].
Proof. vm_compute. auto. Qed.

(** C6. Under [--verbose], for a measurement that passes the filters,
    has agents and has catalog rows, [analyzeTablesByMeasurement]
    prints its line with the error "expected N", N being four times
    the number of agents, exactly when the number of catalog rows
    differs from N; without [--verbose] that line is not printed and
    the output carries no expected-count error.  Under [--verbose],
    three agents with eleven tables give the error "expected 12", and
    three agents with twelve tables of which one has no rows give no
    such error and the zero-row warning on that one table. *)
Theorem tables_expected_count (fl : Flags) (dir : gmap string string)
    (catalog : Catalog) (m : Measurement) (rest : list Measurement)
    (n : Z) (a : Acc) (measTables : list MeasTable) :
  measSkip fl m = false ->
  fTablesMeasUUID fl = ""%string \/ fTablesMeasUUID fl = UUID m ->
  Agents m <> [] ->
  catalog (UUID m) = (measTables, None) ->
  let nFound := Z.of_nat (length measTables) in
  let nExpected := Z.of_nat (length (Agents m)) * 4 in
  let a' := snd (fst (tablesLoop fl dir catalog (m :: rest) n a)) in
  (fVerbose fl = true ->
     exists later,
       stdout a' =
         (stdout a
          ++ MeasTablesLine (UUID m) (Tags m) (State m) nFound
               (if nFound =? nExpected then None else Some nExpected)
          :: later)%list)
  /\ (fVerbose fl = false -> countErrors (stdout a') = countErrors (stdout a))
  /\ countErrors (Scenario.tablesOutput Scenario.verboseFlags Scenario.elevenTables) = [12]
  /\ countErrors (Scenario.tablesOutput Scenario.verboseFlags Scenario.twelveTables) = []
  /\ zeroWarnings (Scenario.tablesOutput Scenario.verboseFlags Scenario.twelveTables)
     = ["links__m_1__a_3"%string].
Proof.
  intros Hskip Huuid Hagents Hcat nFound nExpected a'.
  split; [|split; [|vm_compute; auto]].
  - intros Hv. subst a'. cbn [tablesLoop]. rewrite Hskip, Hcat, Hv.
    replace (negb (String.eqb (fTablesMeasUUID fl) "")
             && negb (String.eqb (fTablesMeasUUID fl) (UUID m))) with false
      by (destruct Huuid as [->| ->]; [reflexivity|];
          rewrite String.eqb_refl, andb_false_r; reflexivity).
    cbn [orb].
    replace (Z.of_nat (length (Agents m)) =? 0) with false
      by (destruct (Agents m); [congruence | reflexivity]).
    cbv zeta. fold nFound nExpected.
    replace (if negb (nFound =? nExpected) then Some nExpected else None)
      with (if nFound =? nExpected then None else Some nExpected)
      by (destruct (nFound =? nExpected); reflexivity).
    set (line := MeasTablesLine _ _ _ _ _).
    pose proof (proj1 (calm_printTables fl dir measTables (print line a))) as Hp.
    destruct (printTables fl dir measTables (print line a)) as [a1 [e|]];
      cbn [fst snd] in *.
    + destruct Hp as (l & Hl). exists l. rewrite Hl. cbn [print stdout].
      rewrite <- app_assoc. reflexivity.
    + destruct (extends_tablesLoop fl dir catalog rest (n + 1) a1) as (l2 & Hl2).
      destruct Hp as (l & Hl). exists (l ++ l2)%list.
      rewrite Hl2, Hl. cbn [print stdout]. rewrite <- !app_assoc. reflexivity.
  - intros Hv. apply (quiet_tablesLoop fl dir catalog (m :: rest) Hv n a).
Qed.

Lemma tables_expected_count_witness :
  exists later,
    Scenario.tablesOutput Scenario.verboseFlags Scenario.elevenTables
    = MeasTablesLine "m-1" ["zeph-gcp-daily.json"%string] "finished" 11 (Some 12) :: later.
Proof.
  destruct (tables_expected_count Scenario.verboseFlags Scenario.directory
              (Scenario.catalogOf Scenario.elevenTables)
              (Scenario.daily (5 * GoTime.Hour)) [] 0 initAcc Scenario.elevenTables
              eq_refl (or_introl eq_refl) ltac:(discriminate) eq_refl)
    as ((later & Hl) & _); [reflexivity|].
  exists later. exact Hl.
Defined.

End Tables.

(** ** The metadata fetch loop *)

Section Fetch.
Import Meas Spec.

(** One round of the loop. *)
Lemma fetchLoop_eq fl server offset :
  fetchLoop fl server offset =
    if offset <? 10000 then
      match server (request fl offset) with
      | CurlFailed msg => sent (request fl offset) (stop (Some msg))
      | WriteFailed _ msg => sent (request fl offset) (stop (Some msg))
      | UnmarshalFailed jsonData msg =>
          sent (request fl offset) (wrote jsonData (stop (Some msg)))
      | Batch jsonData next =>
          if lastPage next
          then sent (request fl offset) (wrote jsonData (stop None))
          else sent (request fl offset)
                 (wrote jsonData (fetchLoop fl server (offset + limit)))
      end
    else stop None.
Proof.
  rewrite fetchLoop_equation_1. unfold fetchLoop_unfold_clause_1, inspect.
  apply (if_inspect_bool (offset <? 10000)); [|reflexivity].
  intros H. unfold fetchLoop_unfold_clause_1_clause_2.
  destruct (server (request fl offset)); try reflexivity.
  unfold fetchLoop_unfold_clause_1_clause_2_clause_4.
  destruct (lastPage next); reflexivity.
Qed.

(** From page [k] on, with [j] pages left below the bound, the loop
    sends the requests for some [n <= j] consecutive pages. *)
Lemma fetchLoop_pages fl server j : forall k,
  (k + j = 50)%nat ->
  exists n, (n <= j)%nat
    /\ requests (fetchLoop fl server (200 * Z.of_nat k))
       = map (request fl) (offsetsFrom k n)
    /\ (length (written (fetchLoop fl server (200 * Z.of_nat k))) <= n)%nat.
Proof.
  induction j as [|j IH]; intros k Hk; rewrite fetchLoop_eq.
  - destruct (Z.ltb_spec (200 * Z.of_nat k) 10000); [lia|].
    exists 0%nat. simpl. auto.
  - destruct (Z.ltb_spec (200 * Z.of_nat k) 10000); [|lia].
    destruct (server (request fl (200 * Z.of_nat k))) as [msg|d msg|d msg|d next];
      try (exists 1%nat; simpl; repeat split; lia).
    destruct (lastPage next); [exists 1%nat; simpl; repeat split; lia|].
    destruct (IH (S k)) as (n & Hn & Hr & Hw); [lia|].
    replace (200 * Z.of_nat k + limit) with (200 * Z.of_nat (S k))
      by (unfold limit; lia).
    exists (S n). cbn [sent wrote requests written length].
    rewrite Hr. unfold offsetsFrom. simpl. repeat split; lia.
Qed.

Lemma fetchLoop_endless fl server j : endless server -> forall k,
  (k + j = 50)%nat ->
  requests (fetchLoop fl server (200 * Z.of_nat k)) = map (request fl) (offsetsFrom k j)
  /\ length (written (fetchLoop fl server (200 * Z.of_nat k))) = j.
Proof.
  intros Hs. induction j as [|j IH]; intros k Hk; rewrite fetchLoop_eq.
  - destruct (Z.ltb_spec (200 * Z.of_nat k) 10000); [lia|]. simpl. auto.
  - destruct (Z.ltb_spec (200 * Z.of_nat k) 10000); [|lia].
    destruct (Hs (request fl (200 * Z.of_nat k))) as (d & next & -> & Hne).
    unfold lastPage. destruct (String.eqb_spec next ""); [contradiction|].
    destruct (IH (S k)) as (Hr & Hw); [lia|].
    replace (200 * Z.of_nat k + limit) with (200 * Z.of_nat (S k))
      by (unfold limit; lia).
    cbn [sent wrote requests written length].
    rewrite Hr, Hw. unfold offsetsFrom. simpl. auto.
Qed.

(** The offsets and the other parameters of the requests for given
    offsets. *)
Lemma request_offsets fl offsets : map reqOffset (map (request fl) offsets) = offsets.
Proof.
  induction offsets as [|o l IH]; [reflexivity|]. cbn [map]. rewrite IH. reflexivity.
Qed.

Lemma request_parameters fl offsets :
  Forall (fun r => reqLimit r = 200
                   /\ reqPublic r = fMeasPublic fl
                   /\ reqOnlyMine r = negb (fMeasAllUsers fl)
                   /\ reqState r = fMeasState fl
                   /\ reqTag r = fMeasTag fl)
    (map (request fl) offsets).
Proof.
  induction offsets as [|o l IH]; constructor; [|exact IH].
  cbn. repeat split; reflexivity.
Qed.

(** C10. Whatever the server answers, [getMeasMdFile] returns after at
    most 50 requests: for some [n <= 50] the requests it sends are
    those for the first [n] pages, their offsets are 0, 200, 400, ...,
    [200 * (n - 1)], all below 10000, each asks for 200 measurements
    with the parameters of the flags, and at most [n] bodies are
    written; against a server that reports a next page in every answer
    it sends exactly 50 requests, at the offsets 0, 200, ..., 9800, and
    stops. *)
Theorem getMeasMdFile_at_most_50_pages (fl : Flags) (server : Request -> Reply) :
  (exists n, (n <= 50)%nat
     /\ requests (getMeasMdFile fl server) = map (request fl) (pageOffsets n)
     /\ map reqOffset (requests (getMeasMdFile fl server)) = pageOffsets n
     /\ Forall (fun r => 0 <= reqOffset r < 10000) (requests (getMeasMdFile fl server))
     /\ Forall (fun r => reqLimit r = 200
                         /\ reqPublic r = fMeasPublic fl
                         /\ reqOnlyMine r = negb (fMeasAllUsers fl)
                         /\ reqState r = fMeasState fl
                         /\ reqTag r = fMeasTag fl)
          (requests (getMeasMdFile fl server))
     /\ (length (written (getMeasMdFile fl server)) <= n)%nat)
  /\ (endless server ->
      requests (getMeasMdFile fl server) = map (request fl) (pageOffsets 50)
      /\ map reqOffset (requests (getMeasMdFile fl server))
         = map (fun i : nat => 200 * Z.of_nat i) (seq 0 50)
      /\ length (requests (getMeasMdFile fl server)) = 50%nat
      /\ List.last (map reqOffset (requests (getMeasMdFile fl server))) 0 = 9800
      /\ length (written (getMeasMdFile fl server)) = 50%nat).
Proof.
  unfold getMeasMdFile. split.
  - destruct (fetchLoop_pages fl server 50 0 eq_refl) as (n & Hn & Hr & Hw).
    exists n. change (200 * Z.of_nat 0) with 0 in Hr, Hw.
    change (offsetsFrom 0 n) with (pageOffsets n) in Hr. rewrite Hr.
    split; [exact Hn|]. split; [reflexivity|].
    split; [apply request_offsets|].
    split; [|split; [apply request_parameters | exact Hw]].
    apply List.Forall_forall. intros r Hin.
    apply in_map_iff in Hin as (o & <- & Ho). unfold pageOffsets in Ho.
    apply in_map_iff in Ho as (i & <- & Hi). apply in_seq in Hi. cbn [reqOffset request]. lia.
  - intros Hs.
    destruct (fetchLoop_endless fl server 50 Hs 0 eq_refl) as (Hr & Hw).
    change (200 * Z.of_nat 0) with 0 in Hr, Hw.
    change (offsetsFrom 0 50) with (pageOffsets 50) in Hr. rewrite Hr.
    split; [reflexivity|]. rewrite request_offsets, length_map.
    split; [reflexivity|]. split; [reflexivity|]. split; [reflexivity | exact Hw].
Qed.

Lemma getMeasMdFile_at_most_50_pages_witness :
  map reqOffset (requests (getMeasMdFile Scenario.measFlags Scenario.alwaysNext))
  = map (fun i : nat => 200 * Z.of_nat i) (seq 0 50)
  /\ List.last (map reqOffset
                  (requests (getMeasMdFile Scenario.measFlags Scenario.alwaysNext))) 0
     = 9800.
Proof.
  assert (H : endless Scenario.alwaysNext)
    by (intros r; exists "{}", "next"; split; [reflexivity | discriminate]).
  split;
    apply (getMeasMdFile_at_most_50_pages Scenario.measFlags Scenario.alwaysNext); exact H.
Defined.

End Fetch.

(** ** The counters, the sample lists and the output of [analyze] *)

(** Tactics shared by the sections below. *)

Ltac conj := repeat match goal with |- _ /\ _ => split end.

Ltac acc_simpl :=
  cbn [Analyze.totFound Analyze.totAgentFailure Analyze.totCanceled
       Analyze.totFinished Analyze.totOngoing Analyze.nResults
       Analyze.durationCS Analyze.durationSE Analyze.agentsPerMeas Analyze.stdout
       Analyze.setDurations Analyze.setCounters Analyze.setAgents Analyze.print].

Tactic Notation "acc_simpl" "in" hyp(H) :=
  cbn [Analyze.totFound Analyze.totAgentFailure Analyze.totCanceled
       Analyze.totFinished Analyze.totOngoing Analyze.nResults
       Analyze.durationCS Analyze.durationSE Analyze.agentsPerMeas Analyze.stdout
       Analyze.setDurations Analyze.setCounters Analyze.setAgents Analyze.print] in H.

Section Counters.
Import Common Analyze Spec.

Lemma tally_cons {A} (p : A -> bool) x l :
  tally p (x :: l) = (if p x then 1 else 0) + tally p l.
Proof.
  unfold tally. cbn [List.filter]. destruct (p x); cbn [length]; lia.
Qed.

Lemma tally_nil {A} (p : A -> bool) : tally p [] = 0.
Proof. reflexivity. Qed.

Lemma measDuration_code fl m a :
  (fst (measDuration fl m a) =? DurationNone) = negb (allSet m).
Proof.
  unfold measDuration, allSet.
  destruct (unset (CreationTime m)); [reflexivity|].
  destruct (unset (StartTime m)); [reflexivity|].
  destruct (unset (EndTime m)); [reflexivity|].
  destruct (tookTooLong _ _ _ _); reflexivity.
Qed.

Lemma measDuration_unset_acc fl m a :
  allSet m = false ->
  exists o, snd (measDuration fl m a) = print o a.
Proof.
  unfold measDuration, allSet.
  destruct (unset (CreationTime m)); [eexists; reflexivity|].
  destruct (unset (StartTime m)); [eexists; reflexivity|].
  destruct (unset (EndTime m)); [eexists; reflexivity|].
  discriminate.
Qed.

Lemma measDuration_set_acc fl m a :
  allSet m = true ->
  snd (measDuration fl m a)
  = setDurations (durationCS a ++ [sampleCS m])%list (durationSE a ++ [sampleSE m])%list a.
Proof.
  unfold measDuration, allSet, sampleCS, sampleSE.
  destruct (unset (CreationTime m)); [discriminate|].
  destruct (unset (StartTime m)); [discriminate|].
  destruct (unset (EndTime m)); [discriminate|].
  destruct (tookTooLong _ _ _ _); reflexivity.
Qed.

Lemma knownState_dec st :
  knownState st <->
  (String.eqb st "agent_failure" || String.eqb st "canceled"
   || String.eqb st "finished" || String.eqb st "ongoing") = true.
Proof.
  unfold knownState. cbn [In].
  rewrite !orb_true_iff, !String.eqb_eq. intuition congruence.
Qed.

Lemma measState_known st a :
  knownState st ->
  measState st a =
    (setCounters (totFound a)
       (totAgentFailure a + (if String.eqb st "agent_failure" then 1 else 0))
       (totCanceled a + (if String.eqb st "canceled" then 1 else 0))
       (totFinished a + (if String.eqb st "finished" then 1 else 0))
       (totOngoing a + (if String.eqb st "ongoing" then 1 else 0)) a, None).
Proof.
  intros H. unfold measState.
  destruct H as [<-|[<-|[<-|[<-|[]]]]]; cbn; rewrite ?Z.add_0_r; reflexivity.
Qed.

Lemma measState_unknown st a :
  ~ knownState st ->
  measState st a = (a, Some (FatalError ("unknown state: " ++ st))).
Proof.
  intros H. rewrite knownState_dec in H. unfold measState.
  destruct (String.eqb st "agent_failure"); [exfalso; apply H; reflexivity|].
  destruct (String.eqb st "canceled"); [exfalso; apply H; reflexivity|].
  destruct (String.eqb st "finished"); [exfalso; apply H; reflexivity|].
  destruct (String.eqb st "ongoing"); [exfalso; apply H; reflexivity|].
  reflexivity.
Qed.

Lemma knownState_abbr st : knownState st -> exists ab, abbrState !! st = Some ab.
Proof.
  intros [<-|[<-|[<-|[<-|[]]]]]; eexists; vm_compute; reflexivity.
Qed.

Lemma knownState_decide st : knownState st \/ ~ knownState st.
Proof.
  rewrite knownState_dec.
  destruct (_ || _); [left; reflexivity | right; discriminate].
Qed.


Lemma accounted_refl fl a : accounted fl [] a a.
Proof.
  unfold accounted. cbn [List.filter map agentTotal].
  rewrite !tally_nil, !app_nil_r, !Z.add_0_r.
  conj; try reflexivity.
  - intros k. rewrite tally_nil. lia.
  - intros k. rewrite tally_nil. intuition lia.
Qed.

Lemma accounted_step fl m ms a a' a'' :
  accounted fl [m] a a' -> accounted fl ms a' a'' -> accounted fl (m :: ms) a a''.
Proof.
  unfold accounted.
  intros (F1 & A1 & C1 & I1 & O1 & CS1 & SE1 & R1 & P1 & D1)
         (F2 & A2 & C2 & I2 & O2 & CS2 & SE2 & R2 & P2 & D2).
  assert (D : forall k, is_Some (agentsPerMeas a'' !! k)
                <-> is_Some (agentsPerMeas a !! k) \/ 0 < tally (onAgents fl k) (m :: ms)).
  { intros k. rewrite D2, D1, (tally_cons _ m ms), (tally_cons _ m []), tally_nil.
    assert (0 <= tally (onAgents fl k) ms) by (unfold tally; lia).
    destruct (onAgents fl k m); intuition lia. }
  rewrite !tally_cons in *. rewrite !tally_nil in *.
  unfold inState in *.
  cbn [List.filter] in *. destruct (counted fl m).
  - cbn [map agentTotal] in *.
    rewrite CS2, SE2, CS1, SE1, <- !app_assoc.
    conj; try lia; try reflexivity; try exact D.
    intros k. rewrite P2, P1, !tally_cons, tally_nil. lia.
  - cbn [map agentTotal] in *.
    rewrite CS2, SE2, CS1, SE1, !app_nil_r.
    conj; try lia; try reflexivity; try exact D.
    intros k. rewrite P2, P1, !tally_cons, tally_nil. lia.
Qed.

Lemma accounted_print fl m o a : counted fl m = false -> accounted fl [m] a (print o a).
Proof.
  intros H. unfold accounted, inState, onAgents.
  rewrite !tally_cons, !tally_nil. cbn [List.filter]. rewrite H.
  cbn. rewrite !app_nil_r. conj; try lia; try reflexivity.
  - intros k. rewrite tally_cons, tally_nil, H. cbn. lia.
  - intros k. rewrite tally_cons, tally_nil, H. cbn. intuition lia.
Qed.

Lemma accounted_same fl m a : counted fl m = false -> accounted fl [m] a a.
Proof.
  intros H. unfold accounted, inState, onAgents.
  rewrite !tally_cons, !tally_nil. cbn [List.filter]. rewrite H.
  cbn. rewrite !app_nil_r. conj; try lia; try reflexivity.
  - intros k. rewrite tally_cons, tally_nil, H. cbn. lia.
  - intros k. rewrite tally_cons, tally_nil, H. cbn. intuition lia.
Qed.

Lemma printMeasDetails_known fl m issues a :
  knownState (State m) ->
  exists a', printMeasDetails fl m issues a = (a', None)
    /\ (a' = a \/ exists o, a' = print o a).
Proof.
  intros H. unfold printMeasDetails.
  destruct (_ && _); [eexists; split; [reflexivity | left; reflexivity]|].
  destruct (knownState_abbr _ H) as [ab ->].
  eexists; split; [reflexivity | right; eexists; reflexivity].
Qed.

Lemma analyzeLoop_cons_uncounted fl m rest a :
  counted fl m = false ->
  exists a', analyzeLoop fl (m :: rest) a = analyzeLoop fl rest a'
             /\ accounted fl [m] a a'.
Proof.
  intros H. cbn [analyzeLoop]. unfold counted in H.
  destruct (measSkip fl m) eqn:Hs.
  - exists a. split; [reflexivity | apply accounted_same; unfold counted; rewrite Hs; reflexivity].
  - cbn in H.
    destruct (measDuration fl m a) as [d a1] eqn:Hd.
    pose proof (measDuration_code fl m a) as Hc. rewrite Hd in Hc. cbn [fst] in Hc.
    rewrite Hc, H. cbn [negb].
    destruct (measDuration_unset_acc fl m a H) as [o Ho]. rewrite Hd in Ho. cbn [snd] in Ho.
    exists a1. split; [reflexivity|]. subst a1.
    apply accounted_print. unfold counted. rewrite Hs, H. reflexivity.
Qed.

Lemma accounted_counted fl m a :
  counted fl m = true -> knownState (State m) ->
  accounted fl [m] a
    (setAgents (nResults a + Z.of_nat (length (Agents m)))
       (<[Z.of_nat (length (Agents m)) :=
            default 0 (agentsPerMeas a !! Z.of_nat (length (Agents m))) + 1]>
          (agentsPerMeas a))
       (setCounters (totFound a + 1)
          (totAgentFailure a + (if String.eqb (State m) "agent_failure" then 1 else 0))
          (totCanceled a + (if String.eqb (State m) "canceled" then 1 else 0))
          (totFinished a + (if String.eqb (State m) "finished" then 1 else 0))
          (totOngoing a + (if String.eqb (State m) "ongoing" then 1 else 0))
          (setDurations (durationCS a ++ [sampleCS m])%list
             (durationSE a ++ [sampleSE m])%list a))).
Proof.
  intros H K. unfold accounted, inState, onAgents.
  rewrite !tally_cons, !tally_nil. cbn [List.filter]. rewrite H.
  cbn [andb map agentTotal]. acc_simpl.
  conj; try lia; try reflexivity.
  - intros k. rewrite tally_cons, tally_nil, H. cbn [andb].
    destruct (Z.eqb_spec (Z.of_nat (length (Agents m))) k) as [->|Hne].
    + rewrite lookup_insert_eq. cbn. lia.
    + rewrite lookup_insert_ne by congruence. lia.
  - intros k. rewrite tally_cons, tally_nil, H. cbn [andb].
    destruct (Z.eqb_spec (Z.of_nat (length (Agents m))) k) as [->|Hne].
    + rewrite lookup_insert_eq. split; [intros _; right; lia | intros _; eexists; reflexivity].
    + rewrite lookup_insert_ne by congruence. intuition lia.
Qed.

Lemma accounted_printed fl m o a a' :
  accounted fl [m] a a' -> accounted fl [m] a (print o a').
Proof. intros H. exact H. Qed.

Lemma analyzeLoop_cons_counted fl m rest a :
  counted fl m = true -> knownState (State m) ->
  exists a', analyzeLoop fl (m :: rest) a = analyzeLoop fl rest a'
             /\ accounted fl [m] a a'.
Proof.
  intros H K. cbn [analyzeLoop]. pose proof H as H'. unfold counted in H.
  apply andb_true_iff in H as [Hs Hset]. apply negb_true_iff in Hs. rewrite Hs.
  destruct (measDuration fl m a) as [d a1] eqn:Hd.
  pose proof (measDuration_code fl m a) as Hc. rewrite Hd in Hc. cbn [fst] in Hc.
  rewrite Hc, Hset. cbn [negb].
  pose proof (measDuration_set_acc fl m a Hset) as Ha. rewrite Hd in Ha. cbn [snd] in Ha.
  rewrite (measState_known _ _ K).
  cbv zeta. unfold measAgents.
  match goal with |- context [printMeasDetails fl m ?i ?x] =>
    destruct (printMeasDetails_known fl m i x K) as (a' & -> & Ha') end.
  exists a'. split; [reflexivity|].
  subst a1. acc_simpl in Ha'.
  destruct Ha' as [->|[x ->]];
    [|apply accounted_printed]; apply accounted_counted; assumption.
Qed.

Lemma analyzeLoop_cons_unknown fl m rest a :
  counted fl m = true -> ~ knownState (State m) ->
  snd (analyzeLoop fl (m :: rest) a)
  = Some (FatalError ("unknown state: " ++ State m)).
Proof.
  intros H K. cbn [analyzeLoop]. unfold counted in H.
  apply andb_true_iff in H as [Hs Hset]. apply negb_true_iff in Hs. rewrite Hs.
  destruct (measDuration fl m a) as [d a1] eqn:Hd.
  pose proof (measDuration_code fl m a) as Hc. rewrite Hd in Hc. cbn [fst] in Hc.
  rewrite Hc, Hset. cbn [negb]. cbv zeta.
  rewrite (measState_unknown _ _ K). reflexivity.
Qed.


Lemma analyzeLoop_accounted fl ms : forall a0 a,
  analyzeLoop fl ms a0 = (a, None) -> accounted fl ms a0 a.
Proof.
  induction ms as [|m rest IH]; intros a0 a H.
  - cbn in H. injection H as <-. apply accounted_refl.
  - destruct (counted fl m) eqn:Hc.
    + destruct (knownState_decide (State m)) as [K|K].
      * destruct (analyzeLoop_cons_counted fl m rest a0 Hc K) as (a' & E & Ha).
        rewrite E in H. eapply accounted_step; [exact Ha | apply IH, H].
      * pose proof (analyzeLoop_cons_unknown fl m rest a0 Hc K) as E.
        rewrite H in E. discriminate.
    + destruct (analyzeLoop_cons_uncounted fl m rest a0 Hc) as (a' & E & Ha).
      rewrite E in H. eapply accounted_step; [exact Ha | apply IH, H].
Qed.

Lemma analyzeLoop_abort fl ms : forall a0 a e,
  analyzeLoop fl ms a0 = (a, Some e) ->
  exists m, In m ms /\ counted fl m = true /\ ~ knownState (State m)
            /\ e = FatalError ("unknown state: " ++ State m).
Proof.
  induction ms as [|m rest IH]; intros a0 a e H.
  - cbn in H. discriminate.
  - destruct (counted fl m) eqn:Hc.
    + destruct (knownState_decide (State m)) as [K|K].
      * destruct (analyzeLoop_cons_counted fl m rest a0 Hc K) as (a' & E & Ha).
        rewrite E in H. destruct (IH _ _ _ H) as (m' & Hin & Hm').
        exists m'. split; [right; exact Hin | exact Hm'].
      * pose proof (analyzeLoop_cons_unknown fl m rest a0 Hc K) as E.
        rewrite H in E. cbn [snd] in E. injection E as ->.
        exists m. repeat split; [left; reflexivity | exact Hc | exact K].
    + destruct (analyzeLoop_cons_uncounted fl m rest a0 Hc) as (a' & E & Ha).
      rewrite E in H. destruct (IH _ _ _ H) as (m' & Hin & Hm').
      exists m'. split; [right; exact Hin | exact Hm'].
Qed.

Lemma analyzeLoop_known fl ms :
  (forall m, In m ms -> counted fl m = true -> knownState (State m)) ->
  forall a0, snd (analyzeLoop fl ms a0) = None.
Proof.
  induction ms as [|m rest IH]; intros Hk a0; [reflexivity|].
  destruct (counted fl m) eqn:Hc.
  - destruct (analyzeLoop_cons_counted fl m rest a0 Hc (Hk m (or_introl eq_refl) Hc))
      as (a' & -> & _).
    apply IH. intros m' Hin. apply Hk. right. exact Hin.
  - destruct (analyzeLoop_cons_uncounted fl m rest a0 Hc) as (a' & -> & _).
    apply IH. intros m' Hin. apply Hk. right. exact Hin.
Qed.

Lemma perMeasurement_print o a :
  perMeasurement o -> Forall perMeasurement (stdout a) ->
  Forall perMeasurement (stdout (print o a)).
Proof. intros Ho Ha. cbn. apply Forall_app. split; [exact Ha | constructor; [exact Ho | constructor]]. Qed.

Lemma analyzeLoop_lines fl ms : forall a,
  Forall perMeasurement (stdout a) ->
  Forall perMeasurement (stdout (fst (analyzeLoop fl ms a))).
Proof.
  induction ms as [|m rest IH]; intros a H; [exact H|].
  cbn [analyzeLoop]. destruct (measSkip fl m); [apply IH, H|].
  assert (Hd : Forall perMeasurement (stdout (snd (measDuration fl m a)))).
  { unfold measDuration.
    destruct (unset (CreationTime m)); [apply perMeasurement_print; [exact I | exact H]|].
    destruct (unset (StartTime m)); [apply perMeasurement_print; [exact I | exact H]|].
    destruct (unset (EndTime m)); [apply perMeasurement_print; [exact I | exact H]|].
    destruct (tookTooLong _ _ _ _); exact H. }
  destruct (measDuration fl m a) as [duration a1]. cbn [snd] in Hd.
  destruct (duration =? DurationNone); [apply IH, Hd|]. cbv zeta.
  set (a2 := setCounters _ _ _ _ _ a1).
  assert (H2 : Forall perMeasurement (stdout a2)) by exact Hd.
  assert (Hs : Forall perMeasurement (stdout (fst (measState (State m) a2)))).
  { unfold measState. repeat (destruct (String.eqb _ _); [exact H2|]). exact H2. }
  destruct (measState (State m) a2) as [a3 [e|]]; cbn [fst] in Hs |- *; [exact Hs|].
  unfold measAgents. cbv zeta.
  set (a4 := setAgents _ _ a3).
  assert (H4 : Forall perMeasurement (stdout a4)) by exact Hs.
  match goal with |- context [printMeasDetails fl m ?i a4] =>
    assert (Hp : Forall perMeasurement (stdout (fst (printMeasDetails fl m i a4))));
    [unfold printMeasDetails; destruct (_ && _); [exact H4|];
     destruct (abbrState !! State m); [apply perMeasurement_print; [exact I | exact H4] | exact H4]
    | destruct (printMeasDetails fl m i a4) as [a5 [e|]] ]
  end; cbn [fst] in Hp |- *; [exact Hp | apply IH, Hp].
Qed.

(** The effect of [printDurations] and [printAnalysis("all")] when
    both sample lists have statistics. *)
Lemma printDurations_out a cs se :
  durationStats (GoSort.Float64s (durationCS a)) = Some cs ->
  durationStats (GoSort.Float64s (durationSE a)) = Some se ->
  printDurations a =
    (print (statsRow se "start time to end time")
       (setDurations (GoSort.Float64s (durationCS a)) (GoSort.Float64s (durationSE a))
          (print (statsRow cs "creation time to start time")
             (print DurationHeader a))), None).
Proof.
  intros Hcs Hse. unfold printDurations. cbv zeta. acc_simpl.
  rewrite Hcs. acc_simpl. rewrite Hse. reflexivity.
Qed.

Lemma printAnalysis_all fl a cs se :
  totFound a <> 0 ->
  durationStats (GoSort.Float64s (durationCS a)) = Some cs ->
  durationStats (GoSort.Float64s (durationSE a)) = Some se ->
  exists a', printAnalysis fl "all" a = (a', None)
    /\ stdout a' =
       (stdout a ++ (if fVerbose fl then [VerboseNewline] else [])
        ++ (if 0 <? Z.of_nat (length (fAnalyzeTag fl))
            then [TagsSection (fAnalyzeTag fl)] else [])
        ++ [StatesSection (totFound a) (totAgentFailure a) (totCanceled a)
              (totFinished a) (totOngoing a);
            DurationHeader;
            statsRow cs "creation time to start time";
            statsRow se "start time to end time";
            AgentsSection (agentRows (agentsPerMeas a)) (nResults a)])%list.
Proof.
  intros H0 Hcs Hse. unfold printAnalysis.
  apply Z.eqb_neq in H0. rewrite H0. cbv zeta.
  change (String.eqb "all" "all") with true. cbn [orb].
  set (a1 := verbose fl VerboseNewline a).
  set (a2 := if 0 <? Z.of_nat (length (fAnalyzeTag fl))
             then print (TagsSection (fAnalyzeTag fl)) a1 else a1).
  assert (E1 : totFound a1 = totFound a /\ totAgentFailure a1 = totAgentFailure a
               /\ totCanceled a1 = totCanceled a /\ totFinished a1 = totFinished a
               /\ totOngoing a1 = totOngoing a /\ nResults a1 = nResults a
               /\ durationCS a1 = durationCS a /\ durationSE a1 = durationSE a
               /\ agentsPerMeas a1 = agentsPerMeas a
               /\ stdout a1 = (stdout a ++ (if fVerbose fl then [VerboseNewline] else []))%list).
  { subst a1. unfold verbose. destruct (fVerbose fl); acc_simpl; conj;
      rewrite ?app_nil_r; reflexivity. }
  assert (E2 : totFound a2 = totFound a /\ totAgentFailure a2 = totAgentFailure a
               /\ totCanceled a2 = totCanceled a /\ totFinished a2 = totFinished a
               /\ totOngoing a2 = totOngoing a /\ nResults a2 = nResults a
               /\ durationCS a2 = durationCS a /\ durationSE a2 = durationSE a
               /\ agentsPerMeas a2 = agentsPerMeas a
               /\ stdout a2 = (stdout a ++ (if fVerbose fl then [VerboseNewline] else [])
                               ++ (if 0 <? Z.of_nat (length (fAnalyzeTag fl))
                                   then [TagsSection (fAnalyzeTag fl)] else []))%list).
  { destruct E1 as (F & A & C & I & O & R & CS & SE & P & S).
    subst a2. destruct (0 <? _); acc_simpl; rewrite ?S, ?app_nil_r, <- ?app_assoc;
      conj; try assumption; reflexivity. }
  clearbody a2. clear E1 a1.
  destruct E2 as (F & A & C & I & O & R & CS & SE & P & S).
  set (a3 := print _ a2).
  rewrite (printDurations_out a3 cs se)
    by (subst a3; acc_simpl; rewrite ?CS, ?SE; assumption).
  eexists. split; [reflexivity|].
  subst a3. acc_simpl. rewrite S, F, A, C, I, O, R, P.
  rewrite <- !app_assoc. reflexivity.
Qed.

Lemma durationStats_Some x :
  x <> [] -> exists st, durationStats (GoSort.Float64s x) = Some st.
Proof.
  intros H.
  destruct (durationStats_sorted (GoSort.Float64s x)
              (Float64s_nonempty x H) (Float64s_sorted x)) as (st & E & _).
  exists st. exact E.
Qed.


(** *** The sorts keep the elements *)

Lemma insertZ_In a l x : In x (GoSort.insertZ a l) <-> x = a \/ In x l.
Proof.
  induction l as [|b l IH]; cbn [GoSort.insertZ].
  - cbn. intuition.
  - destruct (a <=? b); cbn [In]; [intuition | rewrite IH; intuition].
Qed.

Lemma Ints_In l x : In x (GoSort.Ints l) <-> In x l.
Proof.
  induction l as [|a l IH]; cbn [GoSort.Ints]; [reflexivity|].
  rewrite insertZ_In, IH. cbn. intuition.
Qed.

Lemma insertZ_sorted a l :
  StronglySorted Z.le l -> StronglySorted Z.le (GoSort.insertZ a l).
Proof.
  induction 1 as [|b l Hs IH Hb]; cbn [GoSort.insertZ].
  - constructor; constructor.
  - destruct (Z.leb_spec a b).
    + constructor; [constructor; assumption|].
      constructor; [assumption|]. eapply Forall_impl; [exact Hb|]. cbn. intros; lia.
    + constructor; [exact IH|]. apply List.Forall_forall. intros x Hx.
      apply insertZ_In in Hx as [->|Hx]; [lia|].
      rewrite List.Forall_forall in Hb. apply Hb, Hx.
Qed.

Lemma Ints_sorted l : StronglySorted Z.le (GoSort.Ints l).
Proof.
  induction l as [|a l IH]; cbn [GoSort.Ints]; [constructor | apply insertZ_sorted, IH].
Qed.

Lemma insertZ_NoDup a l : ~ In a l -> NoDup l -> NoDup (GoSort.insertZ a l).
Proof.
  induction l as [|b l IH]; intros Ha Hl; cbn [GoSort.insertZ].
  - constructor; [intros Hx; inversion Hx | constructor].
  - destruct (a <=? b).
    + constructor; [rewrite <- list_elem_of_In in Ha; exact Ha | exact Hl].
    + apply NoDup_cons in Hl as [Hb Hl]. constructor.
      * rewrite list_elem_of_In, insertZ_In. intros [->|Hx].
        -- apply Ha. left. reflexivity.
        -- apply Hb, list_elem_of_In, Hx.
      * apply IH; [intros Hx; apply Ha; right; exact Hx | exact Hl].
Qed.

Lemma Ints_NoDup l : NoDup l -> NoDup (GoSort.Ints l).
Proof.
  induction l as [|a l IH]; intros H; cbn [GoSort.Ints]; [constructor|].
  apply NoDup_cons in H as [Ha Hl].
  apply insertZ_NoDup; [|apply IH, Hl].
  rewrite Ints_In. intros Hx. apply Ha, list_elem_of_In, Hx.
Qed.

Lemma sorted_NoDup_strict l :
  StronglySorted Z.le l -> NoDup l -> StronglySorted Z.lt l.
Proof.
  induction 1 as [|a l Hs IH Ha]; intros Hn; [constructor|].
  apply NoDup_cons in Hn as [Hna Hn].
  constructor; [apply IH, Hn|].
  apply List.Forall_forall. intros x Hx. rewrite List.Forall_forall in Ha.
  pose proof (Ha x Hx).
  assert (x <> a) by (intros ->; apply Hna, list_elem_of_In, Hx). lia.
Qed.

Lemma insertQ_In a l x : In x (GoSort.insertQ a l) <-> x = a \/ In x l.
Proof.
  induction l as [|b l IH]; cbn [GoSort.insertQ].
  - cbn. intuition.
  - destruct (Qle_bool a b); cbn [In]; [intuition | rewrite IH; intuition].
Qed.

Lemma Float64s_In l x : In x (GoSort.Float64s l) <-> In x l.
Proof.
  induction l as [|a l IH]; cbn [GoSort.Float64s]; [reflexivity|].
  rewrite insertQ_In, IH. cbn. intuition.
Qed.

Lemma fmap_fst_map {A B} (l : list (A * B)) : l.*1 = map fst l.
Proof. induction l as [|x l IH]; [reflexivity | cbn; rewrite IH; reflexivity]. Qed.

Lemma keys_In {K V} `{Countable K} (apm : gmap K V) k :
  In k (map fst (map_to_list apm)) <-> is_Some (apm !! k).
Proof.
  rewrite in_map_iff. split.
  - intros ([k' v] & E & Hin). cbn in E. subst k'.
    apply list_elem_of_In, elem_of_map_to_list in Hin. eexists; exact Hin.
  - intros [v Hv]. exists (k, v). split; [reflexivity|].
    apply list_elem_of_In, elem_of_map_to_list, Hv.
Qed.

Lemma agentRows_spec (apm : gmap Z Z) :
  (forall k n, In (k, n) (agentRows apm) <-> is_Some (apm !! k) /\ n = default 0 (apm !! k))
  /\ StronglySorted Z.lt (map fst (agentRows apm)).
Proof.
  unfold agentRows. split.
  - intros k n. rewrite in_map_iff. split.
    + intros (k' & E & Hin). injection E as -> <-.
      apply Ints_In, keys_In in Hin. split; [exact Hin | reflexivity].
    + intros [Hs ->]. exists k. split; [reflexivity|]. apply Ints_In, keys_In, Hs.
  - rewrite map_map. cbn [fst]. rewrite map_id.
    apply sorted_NoDup_strict; [apply Ints_sorted|].
    apply Ints_NoDup. rewrite <- fmap_fst_map. apply NoDup_fst_map_to_list.
Qed.

(** *** A run of [analyze] from the fresh accumulators *)

Lemma tally_nonneg {A} (p : A -> bool) l : 0 <= tally p l.
Proof. unfold tally. lia. Qed.

Lemma tally_pos_In {A} (p : A -> bool) l :
  0 < tally p l <-> exists x, In x l /\ p x = true.
Proof.
  unfold tally. split.
  - intros H. destruct (List.filter p l) as [|x r] eqn:E; [cbn in H; lia|].
    exists x. apply filter_In. rewrite E. left. reflexivity.
  - intros (x & Hin & Hp).
    assert (Hx : In x (List.filter p l)) by (apply filter_In; split; assumption).
    destruct (List.filter p l); [destruct Hx | cbn [length]; lia].
Qed.

Lemma tally_zero_nil {A} (p : A -> bool) l : tally p l = 0 <-> List.filter p l = [].
Proof.
  unfold tally. destruct (List.filter p l); cbn [length]; split; intros; try lia; congruence.
Qed.

Lemma analyze_run fl ms a :
  analyze fl ms initAcc = (a, None) ->
  exists a1,
    analyzeLoop fl ms initAcc = (a1, None)
    /\ accounted fl ms initAcc a1
    /\ Forall perMeasurement (stdout a1)
    /\ ((tally (counted fl) ms = 0 /\ stdout a = (stdout a1 ++ [NothingToPrint])%list)
        \/ (0 < tally (counted fl) ms
            /\ exists cs se,
                 durationStats (GoSort.Float64s (durationCS a1)) = Some cs
                 /\ durationStats (GoSort.Float64s (durationSE a1)) = Some se
                 /\ stdout a =
                    (stdout a1 ++ (if fVerbose fl then [VerboseNewline] else [])
                     ++ (if 0 <? Z.of_nat (length (fAnalyzeTag fl))
                         then [TagsSection (fAnalyzeTag fl)] else [])
                     ++ [StatesSection (totFound a1) (totAgentFailure a1) (totCanceled a1)
                           (totFinished a1) (totOngoing a1);
                         DurationHeader;
                         statsRow cs "creation time to start time";
                         statsRow se "start time to end time";
                         AgentsSection (agentRows (agentsPerMeas a1)) (nResults a1)])%list)).
Proof.
  unfold analyze. intros H.
  pose proof (analyzeLoop_lines fl ms initAcc (List.Forall_nil _)) as Hl.
  destruct (analyzeLoop fl ms initAcc) as [a1 [e|]] eqn:E; [discriminate|].
  cbn [fst] in Hl. exists a1.
  pose proof (analyzeLoop_accounted fl ms _ _ E) as Hacc.
  split; [reflexivity|]. split; [exact Hacc|]. split; [exact Hl|].
  destruct Hacc as (F & _ & _ & _ & _ & CS & SE & _).
  cbn in F, CS, SE.
  destruct (Z.eq_dec (tally (counted fl) ms) 0) as [Z0|Z0].
  - left. split; [exact Z0|].
    unfold printAnalysis in H. rewrite F, Z0 in H. cbn in H. injection H as <-. reflexivity.
  - right. pose proof (tally_nonneg (counted fl) ms). split; [lia|].
    assert (Hne : List.filter (counted fl) ms <> []) by (rewrite <- tally_zero_nil; exact Z0).
    destruct (durationStats_Some (durationCS a1)) as [cs Hcs].
    { rewrite CS. destruct (List.filter (counted fl) ms); [congruence | discriminate]. }
    destruct (durationStats_Some (durationSE a1)) as [se Hse].
    { rewrite SE. destruct (List.filter (counted fl) ms); [congruence | discriminate]. }
    exists cs, se. split; [exact Hcs|]. split; [exact Hse|].
    destruct (printAnalysis_all fl a1 cs se) as (a' & E' & Hout); try assumption.
    { rewrite F. exact Z0. }
    rewrite E' in H. injection H as <-. exact Hout.
Qed.

Lemma perMeasurement_not_In o l :
  Forall perMeasurement l -> ~ perMeasurement o -> ~ In o l.
Proof. intros Hl Ho Hin. rewrite List.Forall_forall in Hl. apply Ho, Hl, Hin. Qed.


Lemma analyzeLoop_None_known fl ms : forall a0 a,
  analyzeLoop fl ms a0 = (a, None) ->
  forall m, In m ms -> counted fl m = true -> knownState (State m).
Proof.
  induction ms as [|m rest IH]; intros a0 a H m' Hin Hc; [destruct Hin|].
  destruct (counted fl m) eqn:Hm.
  - destruct (knownState_decide (State m)) as [K|K].
    + destruct (analyzeLoop_cons_counted fl m rest a0 Hm K) as (a' & E & _).
      rewrite E in H. destruct Hin as [<-|Hin]; [exact K | eapply IH; eassumption].
    + pose proof (analyzeLoop_cons_unknown fl m rest a0 Hm K) as E.
      rewrite H in E. discriminate.
  - destruct (analyzeLoop_cons_uncounted fl m rest a0 Hm) as (a' & E & _).
    rewrite E in H. destruct Hin as [<-|Hin]; [congruence | eapply IH; eassumption].
Qed.

Lemma tally_states fl ms :
  (forall m, In m ms -> counted fl m = true -> knownState (State m)) ->
  tally (counted fl) ms
  = tally (inState fl "agent_failure") ms + tally (inState fl "canceled") ms
    + tally (inState fl "finished") ms + tally (inState fl "ongoing") ms.
Proof.
  induction ms as [|m rest IH]; intros Hk; [reflexivity|].
  rewrite !tally_cons, IH by (intros m' Hin; apply Hk; right; exact Hin).
  unfold inState. destruct (counted fl m) eqn:Hc; cbn [andb]; [|lia].
  destruct (Hk m (or_introl eq_refl) Hc) as [<-|[<-|[<-|[<-|[]]]]]; cbn; lia.
Qed.

(** X1: the STATES line that [analyze] prints holds the number of
    measurements that pass the filter and have their three times set,
    and how many of them are in each of the four states; the total is
    the sum of the four; the line is printed exactly when that number
    is positive. *)
Theorem analyze_states_line (fl : Flags) (ms : list Measurement) (a : Acc) :
  analyze fl ms initAcc = (a, None) ->
  tally (counted fl) ms
  = tally (inState fl "agent_failure") ms + tally (inState fl "canceled") ms
    + tally (inState fl "finished") ms + tally (inState fl "ongoing") ms
  /\ (0 < tally (counted fl) ms ->
      In (StatesSection (tally (counted fl) ms)
            (tally (inState fl "agent_failure") ms) (tally (inState fl "canceled") ms)
            (tally (inState fl "finished") ms) (tally (inState fl "ongoing") ms))
         (stdout a))
  /\ (forall f af c fi on,
        In (StatesSection f af c fi on) (stdout a) ->
        0 < f
        /\ f = tally (counted fl) ms
        /\ af = tally (inState fl "agent_failure") ms
        /\ c = tally (inState fl "canceled") ms
        /\ fi = tally (inState fl "finished") ms
        /\ on = tally (inState fl "ongoing") ms).
Proof.
  intros H. destruct (analyze_run fl ms a H) as (a1 & E & Hacc & Hl & Hout).
  split; [apply tally_states, (analyzeLoop_None_known fl ms _ _ E)|].
  destruct Hacc as (F & A & C & I & O & _). cbn in F, A, C, I, O.
  destruct Hout as [[Z0 Hout]|(Hpos & cs & se & _ & _ & Hout)]; rewrite Hout.
  - split; [lia|]. intros f af c fi on Hin. exfalso.
    apply in_app_or in Hin as [Hin|[Hin|[]]]; [|discriminate].
    revert Hin. apply perMeasurement_not_In; [exact Hl | intros []].
  - rewrite F, A, C, I, O. split.
    + intros _. apply in_or_app. right. apply in_or_app. right. apply in_or_app. right.
      left. reflexivity.
    + intros f af c fi on Hin.
      apply in_app_or in Hin as [Hin|Hin];
        [exfalso; revert Hin; apply perMeasurement_not_In; [exact Hl | intros []]|].
      apply in_app_or in Hin as [Hin|Hin];
        [destruct (fVerbose fl); [destruct Hin as [Hin|[]]; discriminate | destruct Hin]|].
      apply in_app_or in Hin as [Hin|Hin];
        [destruct (0 <? _); [destruct Hin as [Hin|[]]; discriminate | destruct Hin]|].
      destruct Hin as [Hin|[Hin|[Hin|[Hin|[Hin|[]]]]]]; try discriminate.
      injection Hin as <- <- <- <- <-. conj; try reflexivity. exact Hpos.
Qed.

(** X3: the AGENTS PER MEASUREMENT table that [analyze] prints is the
    histogram of the counted measurements by their number of agents:
    a row (k, n) is printed exactly when n > 0 measurements have k
    agents, the rows are in ascending order of k without repetition,
    and the number of results is the total number of agents. *)
Theorem analyze_agents_table (fl : Flags) (ms : list Measurement) (a : Acc)
    (rows : list (Z * Z)) (results : Z) :
  analyze fl ms initAcc = (a, None) ->
  In (AgentsSection rows results) (stdout a) ->
  results = agentTotal (List.filter (counted fl) ms)
  /\ (forall k n, In (k, n) rows <-> n = tally (onAgents fl k) ms /\ 0 < n)
  /\ StronglySorted Z.lt (map fst rows).
Proof.
  intros H Hin. destruct (analyze_run fl ms a H) as (a1 & E & Hacc & Hl & Hout).
  destruct Hacc as (_ & _ & _ & _ & _ & _ & _ & R & P & D). cbn in R, P, D.
  assert (Hrows : rows = agentRows (agentsPerMeas a1) /\ results = nResults a1).
  { destruct Hout as [[Z0 Hout]|(Hpos & cs & se & _ & _ & Hout)]; rewrite Hout in Hin.
    - exfalso. apply in_app_or in Hin as [Hin|[Hin|[]]]; [|discriminate].
      revert Hin. apply perMeasurement_not_In; [exact Hl | intros []].
    - apply in_app_or in Hin as [Hin|Hin];
        [exfalso; revert Hin; apply perMeasurement_not_In; [exact Hl | intros []]|].
      apply in_app_or in Hin as [Hin|Hin];
        [destruct (fVerbose fl); [destruct Hin as [Hin|[]]; discriminate | destruct Hin]|].
      apply in_app_or in Hin as [Hin|Hin];
        [destruct (0 <? _); [destruct Hin as [Hin|[]]; discriminate | destruct Hin]|].
      destruct Hin as [Hin|[Hin|[Hin|[Hin|[Hin|[]]]]]]; try discriminate.
      injection Hin as <- <-. split; reflexivity. }
  destruct Hrows as [-> ->].
  destruct (agentRows_spec (agentsPerMeas a1)) as [Hr Hs].
  split; [exact R|]. split; [|exact Hs].
  intros k n. rewrite Hr, D, P, lookup_empty. cbn.
  split.
  - intros [[[x Hx]|Hp] ->]; [discriminate|]. split; [reflexivity | exact Hp].
  - intros [-> Hp]. split; [right; exact Hp | reflexivity].
Qed.


Lemma last_In {A} (l : list A) (d : A) : l <> [] -> In (List.last l d) l.
Proof.
  induction l as [|a l IH]; intros H; [congruence|].
  destruct l as [|b l]; [left; reflexivity|].
  right. apply IH. discriminate.
Qed.

Lemma durationStats_inv x st :
  durationStats x = Some st -> StronglySorted Qle x ->
  In (sMin st) x /\ In (sMax st) x /\ In (sP50 st) x /\ In (sP90 st) x
  /\ forall v, In v x -> (sMin st <= v)%Q /\ (v <= sMax st)%Q.
Proof.
  unfold durationStats. intros H Hs. destruct x as [|x0 x]; [discriminate|].
  destruct (Stat.Quantile (1 # 2) (x0 :: x)) as [p50|] eqn:E50; [|discriminate].
  destruct (Stat.Quantile (9 # 10) (x0 :: x)) as [p90|] eqn:E90; [|discriminate].
  injection H as <-. cbn [sMin sMax sP50 sP90].
  split; [left; reflexivity|]. split; [apply (last_In (x0 :: x) x0); discriminate|].
  split; [eapply Quantile_In, E50|]. split; [eapply Quantile_In, E90|].
  intros v Hv. split; [|apply (sorted_le_last (x0 :: x)); assumption].
  inversion Hs as [|? ? _ Ha]; subst. destruct Hv as [<-|Hv]; [apply Qle_refl|].
  rewrite List.Forall_forall in Ha. apply Ha, Hv.
Qed.

Lemma statsRow_samples (sample : Measurement -> Q) (l : list Measurement) st
    mn mx avg p50 p90 label label' :
  durationStats (GoSort.Float64s (map sample l)) = Some st ->
  DurationRow mn mx avg p50 p90 label' = statsRow st label ->
  label' = label
  /\ ((forall m, In m l -> isSample (sample m)) ->
      forall m, In m l -> mn <= shown (sample m) <= mx)
  /\ (exists m, In m l /\ mn = shown (sample m))
  /\ (exists m, In m l /\ mx = shown (sample m))
  /\ (exists m, In m l /\ p50 = shown (sample m))
  /\ (exists m, In m l /\ p90 = shown (sample m)).
Proof.
  intros Hst E. unfold statsRow in E. injection E as -> -> _ -> -> ->.
  destruct (durationStats_inv _ _ Hst (Float64s_sorted _))
    as (I1 & I2 & I3 & I4 & Hb).
  assert (Hin : forall v, In v (GoSort.Float64s (map sample l)) ->
                  exists m, In m l /\ v = sample m).
  { intros v Hv. apply Float64s_In, in_map_iff in Hv as (m & <- & Hm).
    exists m. split; [exact Hm | reflexivity]. }
  split; [reflexivity|]. split.
  - intros Hsam m Hm.
    assert (Hv : In (sample m) (GoSort.Float64s (map sample l)))
      by (apply Float64s_In, in_map; exact Hm).
    destruct (Hin _ I1) as (m1 & Hm1 & E1). destruct (Hin _ I2) as (m2 & Hm2 & E2).
    destruct (Hb _ Hv) as [L U].
    split; apply shown_mono; try assumption; try (apply Hsam; assumption);
      [rewrite E1 | rewrite E2]; apply Hsam; assumption.
  - conj.
    + destruct (Hin _ I1) as (m & Hm & ->). exists m. split; [exact Hm | reflexivity].
    + destruct (Hin _ I2) as (m & Hm & ->). exists m. split; [exact Hm | reflexivity].
    + destruct (Hin _ I3) as (m & Hm & ->). exists m. split; [exact Hm | reflexivity].
    + destruct (Hin _ I4) as (m & Hm & ->). exists m. split; [exact Hm | reflexivity].
Qed.

(** X2: in a row of the DURATION table that [analyze] prints, the
    minimum, the maximum, the median and the 90th percentile are each
    the duration of one counted measurement, as it is shown: taken in
    [float64] seconds, converted back and rounded to the second.  When
    no measurement with its three times set has a duration above
    [lastConvertible], the minimum and the maximum bound the shown
    durations of all counted measurements. *)
Theorem analyze_duration_row (fl : Flags) (ms : list Measurement) (a : Acc)
    (mn mx avg p50 p90 : GoTime.Duration) (label : string) :
  analyze fl ms initAcc = (a, None) ->
  In (DurationRow mn mx avg p50 p90 label) (stdout a) ->
  (Forall convertible ms ->
   forall m, In m ms -> counted fl m = true ->
     mn <= shown (durationOf label m) <= mx)
  /\ (exists m, In m ms /\ counted fl m = true /\ mn = shown (durationOf label m))
  /\ (exists m, In m ms /\ counted fl m = true /\ mx = shown (durationOf label m))
  /\ (exists m, In m ms /\ counted fl m = true /\ p50 = shown (durationOf label m))
  /\ (exists m, In m ms /\ counted fl m = true /\ p90 = shown (durationOf label m)).
Proof.
  intros H Hin. destruct (analyze_run fl ms a H) as (a1 & E & Hacc & Hl & Hout).
  destruct Hacc as (_ & _ & _ & _ & _ & CS & SE & _). cbn in CS, SE.
  assert (Hrow : exists st,
            durationStats (GoSort.Float64s (map (durationOf label)
                                              (List.filter (counted fl) ms))) = Some st
            /\ DurationRow mn mx avg p50 p90 label = statsRow st label).
  { destruct Hout as [[Z0 Hout]|(Hpos & cs & se & Hcs & Hse & Hout)]; rewrite Hout in Hin.
    - exfalso. apply in_app_or in Hin as [Hin|[Hin|[]]]; [|discriminate].
      revert Hin. apply perMeasurement_not_In; [exact Hl | intros []].
    - apply in_app_or in Hin as [Hin|Hin];
        [exfalso; revert Hin; apply perMeasurement_not_In; [exact Hl | intros []]|].
      apply in_app_or in Hin as [Hin|Hin];
        [destruct (fVerbose fl); [destruct Hin as [Hin|[]]; discriminate | destruct Hin]|].
      apply in_app_or in Hin as [Hin|Hin];
        [destruct (0 <? _); [destruct Hin as [Hin|[]]; discriminate | destruct Hin]|].
      destruct Hin as [Hin|[Hin|[Hin|[Hin|[Hin|[]]]]]]; try discriminate.
      + rewrite CS in Hcs. exists cs.
        assert (label = "creation time to start time")
          by (unfold statsRow in Hin; congruence).
        subst label. split; [exact Hcs | symmetry; exact Hin].
      + rewrite SE in Hse. exists se.
        assert (label = "start time to end time")
          by (unfold statsRow in Hin; congruence).
        subst label. split; [exact Hse | symmetry; exact Hin]. }
  destruct Hrow as (st & Hst & Hrow).
  destruct (statsRow_samples (durationOf label) (List.filter (counted fl) ms)
              st mn mx avg p50 p90 label label)
    as (_ & B & M1 & M2 & M3 & M4); try assumption.
  split.
  - intros Hms m Hm Hc. apply B; [|apply filter_In; split; assumption].
    intros m' Hm'. apply filter_In in Hm' as [Hm' Hc'].
    rewrite List.Forall_forall in Hms. specialize (Hms m' Hm').
    unfold counted in Hc'. apply andb_prop in Hc' as [_ Hset].
    destruct (Hms Hset) as [Hcs Hse].
    unfold durationOf, sampleCS, sampleSE.
    destruct (String.eqb _ _); apply isSample_Sub; assumption.
  - conj.
    + destruct M1 as (m & Hm & ->). apply filter_In in Hm as [Hm Hc]. exists m. auto.
    + destruct M2 as (m & Hm & ->). apply filter_In in Hm as [Hm Hc]. exists m. auto.
    + destruct M3 as (m & Hm & ->). apply filter_In in Hm as [Hm Hc]. exists m. auto.
    + destruct M4 as (m & Hm & ->). apply filter_In in Hm as [Hm Hc]. exists m. auto.
Qed.


Lemma analyze_ok fl ms a1 :
  analyzeLoop fl ms initAcc = (a1, None) -> snd (analyze fl ms initAcc) = None.
Proof.
  intros E. unfold analyze. rewrite E.
  destruct (analyzeLoop_accounted fl ms _ _ E) as (F & _ & _ & _ & _ & CS & SE & _).
  cbn in F, CS, SE.
  destruct (Z.eq_dec (tally (counted fl) ms) 0) as [Z0|Z0].
  - unfold printAnalysis. rewrite F, Z0. reflexivity.
  - assert (Hne : List.filter (counted fl) ms <> []) by (rewrite <- tally_zero_nil; exact Z0).
    destruct (durationStats_Some (durationCS a1)) as [cs Hcs].
    { rewrite CS. destruct (List.filter (counted fl) ms); [congruence | discriminate]. }
    destruct (durationStats_Some (durationSE a1)) as [se Hse].
    { rewrite SE. destruct (List.filter (counted fl) ms); [congruence | discriminate]. }
    destruct (printAnalysis_all fl a1 cs se) as (a' & -> & _); try assumption; [|reflexivity].
    rewrite F. exact Z0.
Qed.

(** X4: [analyze] run from the fresh accumulators stops early only in
    [measState], with "unknown state", on a counted measurement whose
    state is none of the four known ones; neither the panic of
    [printMeasDetails] nor an index panic of [printAnalysis] can
    occur. *)
Theorem analyze_fails_only_on_unknown_state (fl : Flags) (ms : list Measurement) :
  (snd (analyze fl ms initAcc) = None
   <-> forall m, In m ms -> counted fl m = true -> knownState (State m))
  /\ (forall e, snd (analyze fl ms initAcc) = Some e ->
        exists m, In m ms /\ counted fl m = true /\ ~ knownState (State m)
                  /\ e = FatalError ("unknown state: " ++ State m)).
Proof.
  split; [split|].
  - intros H. destruct (analyzeLoop fl ms initAcc) as [a1 [e|]] eqn:E.
    + unfold analyze in H. rewrite E in H. discriminate.
    + apply (analyzeLoop_None_known fl ms _ _ E).
  - intros Hk. pose proof (analyzeLoop_known fl ms Hk initAcc) as E.
    destruct (analyzeLoop fl ms initAcc) as [a1 o] eqn:E1. cbn [snd] in E. subst o.
    apply (analyze_ok fl ms a1 E1).
  - intros e H. destruct (analyzeLoop fl ms initAcc) as [a1 [e'|]] eqn:E.
    + unfold analyze in H. rewrite E in H. cbn [snd] in H. injection H as ->.
      apply (analyzeLoop_abort fl ms _ _ _ E).
    + rewrite (analyze_ok fl ms a1 E) in H. discriminate.
Qed.

Lemma ValidateState_known states :
  snd (ValidateState states) = None -> Forall knownState states.
Proof.
  induction states as [|st rest IH]; intros H; [constructor|].
  cbn [ValidateState] in H.
  destruct (String.eqb_spec st "finished") as [->|];
    [constructor; [cbn; tauto | apply IH, H]|].
  destruct (String.eqb_spec st "ongoing") as [->|];
    [constructor; [cbn; tauto | apply IH, H]|].
  destruct (String.eqb_spec st "canceled") as [->|];
    [constructor; [cbn; tauto | apply IH, H]|].
  destruct (String.eqb_spec st "agent_failure") as [->|];
    [constructor; [cbn; tauto | apply IH, H]|].
  discriminate.
Qed.

(** X6: [ValidateState] accepts a list exactly when every element is
    one of the four known states, and then returns the empty string;
    otherwise it returns the first element that is not. *)
Theorem ValidateState_first_invalid (states : list string) :
  match ValidateState states with
  | (s, None) => s = "" /\ Forall knownState states
  | (s, Some ErrInvalidState) =>
      exists pre post, states = (pre ++ s :: post)%list
                       /\ Forall knownState pre /\ ~ knownState s
  end.
Proof.
  induction states as [|st rest IH]; [split; [reflexivity | constructor]|].
  cbn [ValidateState].
  assert (Hk : knownState st ->
               match ValidateState rest with
               | (s, None) => s = "" /\ Forall knownState (st :: rest)
               | (s, Some ErrInvalidState) =>
                   exists pre post, (st :: rest) = (pre ++ s :: post)%list
                                    /\ Forall knownState pre /\ ~ knownState s
               end).
  { intros K. destruct (ValidateState rest) as [s [[]|]].
    - destruct IH as (pre & post & -> & Hp & Hs).
      exists (st :: pre), post. split; [reflexivity|]. split; [constructor; assumption | exact Hs].
    - destruct IH as [-> Hr]. split; [reflexivity | constructor; assumption]. }
  destruct (String.eqb_spec st "finished") as [E|N1]; [apply Hk; subst; cbn; tauto|].
  destruct (String.eqb_spec st "ongoing") as [E|N2]; [apply Hk; subst; cbn; tauto|].
  destruct (String.eqb_spec st "canceled") as [E|N3]; [apply Hk; subst; cbn; tauto|].
  destruct (String.eqb_spec st "agent_failure") as [E|N4]; [apply Hk; subst; cbn; tauto|].
  exists [], rest. split; [reflexivity|]. split; [constructor|].
  unfold knownState. cbn. intuition congruence.
Qed.

(** X5: once [validateFlags] has accepted a non-empty [--state]
    filter, [analyze] runs to its end on any list of measurements:
    every measurement it counts is in a state of the filter, which is a
    known one. *)
Theorem validated_state_filter_never_fails (fl : Flags) (ms : list Measurement) :
  fAnalyzeState fl <> [] -> validateFlags fl = None ->
  snd (analyze fl ms initAcc) = None.
Proof.
  intros Hne Hv.
  assert (Hk : Forall knownState (fAnalyzeState fl)).
  { unfold validateFlags in Hv.
    destruct (0 <? Z.of_nat (length (fAnalyzeState fl))) eqn:E.
    - apply ValidateState_known.
      destruct (ValidateState (fAnalyzeState fl)) as [s [e|]]; [discriminate | reflexivity].
    - apply length_pos_nonnil in E. contradiction. }
  assert (Hc : forall m, In m ms -> counted fl m = true -> knownState (State m)).
  { intros m _ Hc. unfold counted in Hc. apply andb_true_iff in Hc as [Hs _].
    apply negb_true_iff, measSkip_false in Hs as (_ & [Hs|Hs] & _).
    - apply length_pos_nonnil in Hs. contradiction.
    - apply MatchState_In in Hs. rewrite List.Forall_forall in Hk. apply Hk, Hs. }
  pose proof (analyzeLoop_known fl ms Hc initAcc) as E.
  destruct (analyzeLoop fl ms initAcc) as [a1 o] eqn:E1. cbn [snd] in E. subst o.
  apply (analyze_ok fl ms a1 E1).
Qed.



Lemma measDuration_facts fl m a :
  totFound (snd (measDuration fl m a)) = totFound a
  /\ (fst (measDuration fl m a) =? DurationNone) = negb (allSet m)
  /\ (allSet m = true ->
      (fst (measDuration fl m a) =? DurationTooLong) = tooLong m).
Proof.
  unfold measDuration, allSet, tooLong.
  destruct (unset (CreationTime m)); [conj; try reflexivity; discriminate|].
  destruct (unset (StartTime m)); [conj; try reflexivity; discriminate|].
  destruct (unset (EndTime m)); [conj; try reflexivity; discriminate|].
  cbn [tookTooLong durationClasses]. rewrite !MatchTag_single.
  destruct (tagFound (Tags m) "zeph-gcp-daily.json" && _);
    [conj; reflexivity|].
  destruct (tagFound (Tags m) "collection:exhaustive" && _); conj; reflexivity.
Qed.

Lemma detailOK_print fl all B o a :
  detailOK fl all B o -> Forall (detailOK fl all B) (stdout a) ->
  Forall (detailOK fl all B) (stdout (print o a)).
Proof.
  intros Ho Ha. cbn. apply Forall_app. split; [exact Ha | constructor; [exact Ho | constructor]].
Qed.

Lemma detail_loop fl all B rest : forall a,
  incl rest all -> 0 <= totFound a -> totFound a + tally (counted fl) rest <= B ->
  Forall (detailOK fl all B) (stdout a) ->
  Forall (detailOK fl all B) (stdout (fst (analyzeLoop fl rest a))).
Proof.
  induction rest as [|m rest IH]; intros a Hin H0 HB H; [exact H|].
  assert (Hin' : incl rest all) by (intros x Hx; apply Hin; right; exact Hx).
  assert (Hm : In m all) by (apply Hin; left; reflexivity).
  rewrite tally_cons in HB.
  assert (Hcm : counted fl m = negb (measSkip fl m) && allSet m) by reflexivity.
  cbn [analyzeLoop]. destruct (measSkip fl m) eqn:Hs; cbn [negb andb] in Hcm.
  { rewrite Hcm in HB. apply IH; first [assumption | lia]. }
  destruct (measDuration_facts fl m a) as (F1 & C1 & T1).
  assert (Hd : Forall (detailOK fl all B) (stdout (snd (measDuration fl m a)))).
  { unfold measDuration.
    destruct (unset (CreationTime m)); [apply detailOK_print; [exact I | exact H]|].
    destruct (unset (StartTime m)); [apply detailOK_print; [exact I | exact H]|].
    destruct (unset (EndTime m)); [apply detailOK_print; [exact I | exact H]|].
    destruct (tookTooLong _ _ _ _); exact H. }
  destruct (measDuration fl m a) as [duration a1]. cbn [fst snd] in *.
  rewrite C1. destruct (allSet m) eqn:Hset; cbn [negb]; rewrite Hcm in HB.
  2:{ apply IH; first [assumption | lia]. }
  specialize (T1 eq_refl). rewrite T1. cbv zeta.
  set (a2 := setCounters _ _ _ _ _ a1).
  assert (H2 : Forall (detailOK fl all B) (stdout a2)) by exact Hd.
  assert (Hst : (fst (measState (State m) a2) = a2
                 /\ snd (measState (State m) a2) <> None)
                \/ (snd (measState (State m) a2) = None
                    /\ stdout (fst (measState (State m) a2)) = stdout a2
                    /\ totFound (fst (measState (State m) a2)) = totFound a2)).
  { unfold measState.
    repeat (destruct (String.eqb (State m) _);
            [right; conj; reflexivity|]).
    left. split; [reflexivity | discriminate]. }
  destruct (measState (State m) a2) as [a3 [e|]]; cbn [fst snd] in Hst |- *.
  { destruct Hst as [[-> _]|[? _]]; [exact H2 | discriminate]. }
  destruct Hst as [[_ Hx]|(_ & S3 & F3)]; [congruence|].
  unfold measAgents. cbv zeta.
  set (a4 := setAgents _ _ a3).
  assert (H4 : Forall (detailOK fl all B) (stdout a4)) by (cbn; rewrite S3; exact H2).
  assert (F4 : totFound a4 = totFound a + 1) by (cbn; rewrite F3; cbn; lia).
  match goal with |- context [printMeasDetails fl m ?i a4] => set (issues := i) end.
  assert (Hiss : (In "took too long" issues <-> tooLong m = true)
                 /\ (In "has no agents" issues <-> Agents m = [])).
  { assert (Hn : (Z.of_nat (length (Agents m)) =? 0)
                 = match Agents m with [] => true | _ => false end)
      by (destruct (Agents m); reflexivity).
    subst issues. rewrite Hn.
    destruct (tooLong m); destruct (Agents m) as [|x l]; cbn;
      split; split; intros; try tauto; try discriminate;
      repeat match goal with H : _ \/ _ |- _ => destruct H end; try discriminate;
      try contradiction. }
  unfold printMeasDetails.
  destruct (negb (fVerbose fl) && (Z.of_nat (length issues) =? 0)) eqn:Hq.
  { apply IH; first [assumption | lia]. }
  destruct (abbrState !! State m) as [ab|] eqn:Hab; [|exact H4].
  apply IH; try assumption; cbn [totFound print]; try lia.
  apply detailOK_print; [|exact H4].
  cbn [detailOK]. split; [exact Hm|].
  split; [unfold counted; rewrite Hs, Hset; reflexivity|].
  split; [exact Hab|]. split; [apply Hiss|]. split; [apply Hiss|].
  split; [|pose proof (tally_nonneg (counted fl) rest); lia].
  intros Hv. rewrite Hv in Hq. cbn [negb andb] in Hq.
  intros ->. discriminate.
Qed.

Lemma printAnalysis_lines (P : Out -> Prop) fl what a :
  P NothingToPrint -> P VerboseNewline -> (forall t, P (TagsSection t)) ->
  (forall f af c fi on, P (StatesSection f af c fi on)) -> P DurationHeader ->
  (forall mn mx avg p50 p90 l, P (DurationRow mn mx avg p50 p90 l)) ->
  (forall r n, P (AgentsSection r n)) ->
  Forall P (stdout a) -> Forall P (stdout (fst (printAnalysis fl what a))).
Proof.
  intros P1 P2 P3 P4 P5 P6 P7.
  assert (Pp : forall o a, P o -> Forall P (stdout a) -> Forall P (stdout (print o a))).
  { intros o x Ho Hx. cbn. apply Forall_app. split; [exact Hx | constructor; [exact Ho | constructor]]. }
  intros H. unfold printAnalysis.
  destruct (totFound a =? 0); [apply Pp; assumption|]. cbv zeta.
  set (a1 := verbose fl VerboseNewline a).
  assert (H1 : Forall P (stdout a1))
    by (subst a1; unfold verbose; destruct (fVerbose fl); [apply Pp|]; assumption).
  clearbody a1. clear H a.
  match goal with |- context [printDurations ?x] => set (a3 := x) end.
  assert (H3 : Forall P (stdout a3)).
  { subst a3.
    destruct (_ || _); destruct (_ || _); try destruct (0 <? _);
      repeat (apply Pp; [auto|]); exact H1. }
  clearbody a3.
  assert (H4 : Forall P (stdout (fst (printDurations a3)))).
  { unfold printDurations. cbv zeta.
    destruct (durationStats _); [|apply Pp; assumption].
    destruct (durationStats _); cbn [fst]; acc_simpl;
      repeat (apply Forall_app; split); try exact H3;
      repeat constructor; auto; apply P6. }
  destruct (_ || _).
  - destruct (printDurations a3) as [a4 [e|]]; cbn [fst] in *; [exact H4|].
    destruct (_ || _); [apply Pp; [apply P7 | exact H4] | exact H4].
  - destruct (_ || _); [apply Pp; [apply P7 | exact H3] | exact H3].
Qed.

(** X8: every line that [printMeasDetails] prints in a run of
    [analyze] is for a counted measurement of the input, carries the
    letter of its state, lists "took too long" exactly when the run
    time exceeds the limit of the measurement's class and "has no
    agents" exactly when the agent list is empty, and is numbered
    between 1 and the number of counted measurements; without
    [--verbose] only measurements with an issue get a line. *)
Theorem analyze_detail_lines (fl : Flags) (ms : list Measurement)
    (n : Z) (m : Measurement) (ab : string) (issues : list string) :
  In (MeasDetails n m ab issues) (stdout (fst (analyze fl ms initAcc))) ->
  In m ms /\ counted fl m = true /\ abbrState !! State m = Some ab
  /\ (In "took too long" issues <-> tooLong m = true)
  /\ (In "has no agents" issues <-> Agents m = [])
  /\ (fVerbose fl = false -> issues <> [])
  /\ 1 <= n <= tally (counted fl) ms.
Proof.
  intros Hin.
  assert (H : Forall (detailOK fl ms (tally (counted fl) ms))
                (stdout (fst (analyze fl ms initAcc)))).
  { unfold analyze.
    pose proof (detail_loop fl ms (tally (counted fl) ms) ms initAcc
                  (incl_refl _) (Z.le_refl _) (Z.le_refl _) (List.Forall_nil _)) as Hl.
    destruct (analyzeLoop fl ms initAcc) as [a1 [e|]]; cbn [fst] in *; [exact Hl|].
    apply printAnalysis_lines; try exact Hl; intros; exact I. }
  rewrite List.Forall_forall in H. apply (H _ Hin).
Qed.


Lemma analyze_states_line_witness :
  In (StatesSection 1 0 0 1 0)
     (stdout (fst (analyze defaultFlags Scenario.smallRun initAcc))).
Proof.
  destruct (analyze_states_line defaultFlags Scenario.smallRun _
              ltac:(vm_compute; reflexivity))
    as (_ & H & _).
  apply H. reflexivity.
Defined.

Lemma analyze_agents_table_witness :
  3 = agentTotal (List.filter (counted defaultFlags) Scenario.smallRun)
  /\ (In (3, 1) [(3, 1)]
      <-> 1 = tally (onAgents defaultFlags 3) Scenario.smallRun /\ 0 < 1).
Proof.
  destruct (analyze_agents_table defaultFlags Scenario.smallRun _ [(3, 1)] 3
              ltac:(vm_compute; reflexivity) ltac:(vm_compute; tauto))
    as (R & H & _).
  split; [exact R | apply H].
Defined.

Lemma analyze_duration_row_witness :
  (exists m, In m Scenario.smallRun /\ counted defaultFlags m = true
             /\ 6 * GoTime.Hour = shown (durationOf "start time to end time" m))
  /\ 6 * GoTime.Hour
     <= shown (durationOf "start time to end time" (Scenario.daily (6 * GoTime.Hour)))
     <= 6 * GoTime.Hour.
Proof.
  destruct (analyze_duration_row defaultFlags Scenario.smallRun _
              (6 * GoTime.Hour) (6 * GoTime.Hour) (6 * GoTime.Hour) (6 * GoTime.Hour)
              (6 * GoTime.Hour) "start time to end time"
              ltac:(vm_compute; reflexivity) ltac:(vm_compute; tauto))
    as (B & M & _).
  split; [exact M|]. apply B.
  - apply List.Forall_cons; [|apply List.Forall_cons; [|apply List.Forall_nil]];
      intros Hs; vm_compute in Hs; try discriminate Hs;
      vm_compute; split; discriminate.
  - left. reflexivity.
  - reflexivity.
Defined.

Lemma validated_state_filter_never_fails_witness :
  snd (analyze Scenario.finishedFlags Scenario.smallRun initAcc) = None.
Proof.
  apply (validated_state_filter_never_fails Scenario.finishedFlags Scenario.smallRun).
  - discriminate.
  - reflexivity.
Defined.

Lemma analyze_detail_lines_witness :
  In "took too long" ["took too long"%string]
  <-> tooLong (Scenario.daily (6 * GoTime.Hour)) = true.
Proof.
  apply (analyze_detail_lines defaultFlags Scenario.smallRun 1
           (Scenario.daily (6 * GoTime.Hour)) "F" ["took too long"%string]).
  vm_compute. tauto.
Defined.

End Counters.

(** ** The table lines of [printTables] *)

Section TableLines.
Import Common Analyze Spec.

Lemma insertS_In a l x : In x (GoSort.insertS a l) <-> x = a \/ In x l.
Proof.
  induction l as [|b l IH]; cbn [GoSort.insertS].
  - cbn. intuition.
  - destruct (String.leb a b); cbn [In]; [intuition | rewrite IH; intuition].
Qed.

Lemma Strings_In l x : In x (GoSort.Strings l) <-> In x l.
Proof.
  induction l as [|a l IH]; cbn [GoSort.Strings]; [reflexivity|].
  rewrite insertS_In, IH. cbn. intuition.
Qed.

Lemma sortByKey_In (data : gmap string tableDetails) name :
  In name (sortByKey data) <-> is_Some (data !! name).
Proof. unfold sortByKey. rewrite Strings_In. apply keys_In. Qed.

Lemma agentSkip_In agents h : agentSkip agents h = false <-> In h agents.
Proof.
  induction agents as [|a rest IH]; cbn [agentSkip In]; [split; [discriminate | tauto]|].
  destruct (String.eqb_spec a h) as [->|N]; [tauto|].
  rewrite IH. intuition congruence.
Qed.

Lemma rowOK_print fl dir tables o a :
  rowOK fl dir tables o -> Forall (rowOK fl dir tables) (stdout a) ->
  Forall (rowOK fl dir tables) (stdout (print o a)).
Proof.
  intros Ho Ha. cbn. apply Forall_app. split; [exact Ha | constructor; [exact Ho | constructor]].
Qed.

Lemma rowOK_verbose fl dir tables o a :
  rowOK fl dir tables o -> Forall (rowOK fl dir tables) (stdout a) ->
  Forall (rowOK fl dir tables) (stdout (verbose fl o a)).
Proof.
  intros Ho Ha. unfold verbose. destruct (fVerbose fl); [apply rowOK_print; assumption | exact Ha].
Qed.

(** The rows of one group: no panic, and every line is sound. *)
Lemma printTableRows_sound fl dir tables data names : forall a,
  dataOK fl tables data ->
  (forall n, In n names -> is_Some (data !! n)) ->
  Forall (rowOK fl dir tables) (stdout a) ->
  snd (printTableRows fl dir data names a) = None
  /\ Forall (rowOK fl dir tables) (stdout (fst (printTableRows fl dir data names a))).
Proof.
  induction names as [|tblName rest IH]; intros a Hd Hn Ha; cbn [printTableRows].
  - split; [reflexivity | exact Ha].
  - destruct (Hn tblName (or_introl eq_refl)) as [d Hdn].
    destruct (Hd _ _ Hdn) as (Hw & t & Ht & Hwin & Hname & Hmt & Hr & Hb).
    assert (Hrest : forall n, In n rest -> is_Some (data !! n))
      by (intros n Hin; apply Hn; right; exact Hin).
    pose proof Hw as Hw'. unfold wellNamed in Hw'.
    assert (Hh : hostOf dir tblName
                 = Agents.GetAgentName dir
                     (GoStrings.ReplaceAll (snd (fst (parseMeasAgentUUIDs tblName))) "_" "-"))
      by reflexivity.
    destruct (parseMeasAgentUUIDs tblName) as [[measUUID agentUUID] [err|]];
      [discriminate|].
    cbn [fst snd] in Hh. rewrite <- Hh. cbv zeta.
    destruct (0 <? Z.of_nat (length (fAnalyzeAgents fl))) eqn:Hlen.
    + destruct (agentSkip (fAnalyzeAgents fl) (hostOf dir tblName)) eqn:Hskip;
        [apply IH; assumption|].
      apply IH; try assumption. apply rowOK_print; [|exact Ha].
      rewrite Hdn. cbn [default rowOK].
      split; [exists t; conj; auto|].
      split; [exact Hw|]. split; [reflexivity|].
      split; [right; apply agentSkip_In, Hskip | reflexivity].
    + apply IH; try assumption. apply rowOK_print; [|exact Ha].
      rewrite Hdn. cbn [default rowOK].
      split; [exists t; conj; auto|].
      split; [exact Hw|]. split; [reflexivity|].
      split; [left; apply length_pos_nonnil, Hlen | reflexivity].
Qed.

Lemma printTableDetails_sound fl dir tables data a :
  dataOK fl tables data ->
  Forall (rowOK fl dir tables) (stdout a) ->
  snd (printTableDetails fl dir data a) = None
  /\ Forall (rowOK fl dir tables) (stdout (fst (printTableDetails fl dir data a))).
Proof.
  intros Hd Ha. apply printTableRows_sound; try assumption.
  intros n Hn. apply sortByKey_In, Hn.
Qed.

Lemma dataOK_empty fl tables : dataOK fl tables ∅.
Proof. intros name d H. rewrite lookup_empty in H. discriminate. Qed.

Lemma dataOK_insert fl tables data (t : MeasTable) :
  In t tables -> inWindow fl t = true -> wellNamed (Name t) = true ->
  dataOK fl tables data ->
  dataOK fl tables
    (<[Name t := {| modTime := ModTime t; rows := Rows t; bytes := Bytes t |}]> data).
Proof.
  intros Ht Hw Hn Hd name d H.
  destruct (String.eqb_spec (Name t) name) as [E|N].
  - rewrite <- E, lookup_insert_eq in H. injection H as <-. rewrite <- E.
    split; [exact Hn|]. exists t. cbn. conj; auto.
  - rewrite lookup_insert_ne in H by exact N. apply (Hd _ _ H).
Qed.

Lemma printTablesLoop_sound fl dir tables ts : forall data prev a,
  incl ts tables -> dataOK fl tables data ->
  Forall (rowOK fl dir tables) (stdout a) ->
  Forall (rowOK fl dir tables) (stdout (fst (printTablesLoop fl dir ts data prev a)))
  /\ (forall e, snd (printTablesLoop fl dir ts data prev a) = Some e ->
        exists t, In t ts /\ stopsAt fl t e).
Proof.
  induction ts as [|table rest IH]; intros data prev a Hin Hd Ha; cbn [printTablesLoop].
  - destruct (printTableDetails_sound fl dir tables data a Hd Ha) as [E H].
    split; [exact H | intros e He; rewrite E in He; discriminate].
  - assert (Hin' : incl rest tables) by (intros x Hx; apply Hin; right; exact Hx).
    assert (Ht : In table tables) by (apply Hin; left; reflexivity).
    assert (Hlift : forall (x : Acc * option Abort),
              Forall (rowOK fl dir tables) (stdout (fst x))
              /\ (forall e, snd x = Some e -> exists t, In t rest /\ stopsAt fl t e) ->
              Forall (rowOK fl dir tables) (stdout (fst x))
              /\ (forall e, snd x = Some e -> exists t, In t (table :: rest) /\ stopsAt fl t e)).
    { intros x [H1 H2]. split; [exact H1|]. intros e He.
      destruct (H2 e He) as (t & Hti & Hs). exists t. split; [right; exact Hti | exact Hs]. }
    pose proof (eq_refl : inWindow fl table = inWindow fl table) as Hwin.
    unfold inWindow at 2 in Hwin.
    destruct (GoTime.ParseDateTime (ModTime table)) as [mt|] eqn:Hp.
    2:{ split; [exact Ha|]. intros e He. cbn [snd] in He. injection He as <-.
        exists table. split; [left; reflexivity | left; split; [exact Hp | reflexivity]]. }
    destruct (GoTime.After mt (fAnalyzeAfter fl)); cbn [negb orb andb] in *.
    2:{ apply Hlift, IH; try assumption. apply rowOK_verbose; [exact I | exact Ha]. }
    destruct (GoTime.Before mt (fAnalyzeBefore fl)); cbn [negb orb andb] in *.
    2:{ apply Hlift, IH; try assumption. apply rowOK_verbose; [exact I | exact Ha]. }
    pose proof (eq_refl : wellNamed (Name table) = wellNamed (Name table)) as Hwn.
    unfold wellNamed at 2 in Hwn.
    destruct (parseMeasAgentUUIDs (Name table)) as [[measUUID agentUUID] [err|]] eqn:Hparse.
    { split; [exact Ha|]. intros e He. cbn [snd] in He. injection He as <-.
      exists table. split; [left; reflexivity|]. right.
      split; [exact Hwin|]. split; [exact Hwn|].
      unfold parseMeasAgentUUIDs in Hparse.
      destruct (_ =? -1) in Hparse; [injection Hparse as _ _ <-; reflexivity|].
      cbv zeta in Hparse.
      destruct (_ =? -1) in Hparse; [injection Hparse as _ _ <-; reflexivity|].
      discriminate. }
    cbv zeta. destruct (negb _).
    + assert (Hh : Forall (rowOK fl dir tables)
                     (stdout (print (MeasHeader (if String.eqb prev "" then measUUID else prev)) a)))
        by (apply rowOK_print; [exact I | exact Ha]).
      destruct (printTableDetails_sound fl dir tables data _ Hd Hh) as [E H].
      destruct (printTableDetails fl dir data _) as [a1 [e|]]; cbn [fst snd] in *;
        [discriminate|].
      apply Hlift, IH; try assumption.
      apply dataOK_insert; try assumption. apply dataOK_empty.
    + apply Hlift, IH; try assumption.
      apply dataOK_insert; assumption.
Qed.


Lemma printTablesLoop_good fl dir ts : forall data prev a,
  (forall n, is_Some (data !! n) -> wellNamed n = true) ->
  (snd (printTablesLoop fl dir ts data prev a) = None
   <-> forall t, In t ts -> goodRow fl t).
Proof.
  assert (Hrows : forall data names a,
            (forall n, In n names -> wellNamed n = true) ->
            snd (printTableRows fl dir data names a) = None).
  { intros data names. induction names as [|n rest IH]; intros a Hn; [reflexivity|].
    cbn [printTableRows]. pose proof (Hn n (or_introl eq_refl)) as Hw.
    unfold wellNamed in Hw.
    destruct (parseMeasAgentUUIDs n) as [[mu au] [err|]]; [discriminate|]. cbv zeta.
    destruct (if 0 <? _ then _ else false); apply IH; intros x Hx; apply Hn; right; exact Hx. }
  assert (Hflush : forall data a,
            (forall n, is_Some (data !! n) -> wellNamed n = true) ->
            snd (printTableDetails fl dir data a) = None).
  { intros data a Hd. apply Hrows. intros n Hn. apply Hd, sortByKey_In, Hn. }
  induction ts as [|table rest IH]; intros data prev a Hd; cbn [printTablesLoop].
  - rewrite Hflush by exact Hd. split; [intros _ t [] | reflexivity].
  - assert (Hcons : forall P : Prop,
              goodRow fl table -> (P <-> forall t, In t rest -> goodRow fl t) ->
              (P <-> forall t, In t (table :: rest) -> goodRow fl t)).
    { intros P Hg [H1 H2]. split.
      - intros HP t [<-|Ht]; [exact Hg | apply H1; assumption].
      - intros H. apply H2. intros t Ht. apply H. right. exact Ht. }
    pose proof (eq_refl : inWindow fl table = inWindow fl table) as Hwin.
    unfold inWindow at 2 in Hwin. unfold goodRow in *.
    destruct (GoTime.ParseDateTime (ModTime table)) as [mt|] eqn:Hp.
    2:{ cbn [snd]. split; [discriminate|]. intros H.
        destruct (H table (or_introl eq_refl)) as [Hx _]. congruence. }
    destruct (GoTime.After mt (fAnalyzeAfter fl)); cbn [negb orb andb] in *.
    2:{ apply Hcons; [|apply IH, Hd].
        split; [try rewrite Hp; discriminate | rewrite Hwin; discriminate]. }
    destruct (GoTime.Before mt (fAnalyzeBefore fl)); cbn [negb orb andb] in *.
    2:{ apply Hcons; [|apply IH, Hd].
        split; [try rewrite Hp; discriminate | rewrite Hwin; discriminate]. }
    pose proof (eq_refl : wellNamed (Name table) = wellNamed (Name table)) as Hwn.
    unfold wellNamed at 2 in Hwn.
    destruct (parseMeasAgentUUIDs (Name table)) as [[measUUID agentUUID] [err|]] eqn:Hparse.
    { cbn [snd]. split; [discriminate|]. intros H.
      destruct (H table (or_introl eq_refl)) as [_ Hx].
      specialize (Hx Hwin). congruence. }
    assert (Hins : forall d0 : gmap string tableDetails,
              (forall n, is_Some (d0 !! n) -> wellNamed n = true) ->
              forall n, is_Some (<[Name table := {| modTime := ModTime table;
                                                    rows := Rows table;
                                                    bytes := Bytes table |}]> d0 !! n) ->
              wellNamed n = true).
    { intros d0 Hd0 n Hn. destruct (String.eqb_spec (Name table) n) as [<-|N]; [exact Hwn|].
      rewrite lookup_insert_ne in Hn by exact N. apply Hd0, Hn. }
    cbv zeta. destruct (negb _).
    + pose proof (Hflush data (print (MeasHeader (if String.eqb prev "" then measUUID else prev)) a) Hd) as E.
      destruct (printTableDetails fl dir data _) as [a1 [e|]]; cbn [snd] in E;
        [discriminate|].
      apply Hcons; [split; [try rewrite Hp; discriminate | intros _; exact Hwn]|].
      apply IH, Hins. intros n Hn. rewrite lookup_empty in Hn. destruct Hn; discriminate.
    + apply Hcons; [split; [try rewrite Hp; discriminate | intros _; exact Hwn]|].
      apply IH, Hins, Hd.
Qed.

(** X9: [printTables] never reaches the panic of [printTableDetails]:
    it runs to its end exactly when every modification time parses and
    every table inside the window has a name with the two delimiters,
    and otherwise returns the parse error or ErrInvalidTableName of
    such a row. *)
Theorem printTables_stops_only_on_bad_rows (fl : Flags) (dir : gmap string string)
    (tables : list MeasTable) (a : Acc) :
  (snd (printTables fl dir tables a) = None
   <-> forall t, In t tables ->
         GoTime.ParseDateTime (ModTime t) <> None
         /\ (inWindow fl t = true -> wellNamed (Name t) = true))
  /\ (forall e, snd (printTables fl dir tables a) = Some e ->
        exists t, In t tables
          /\ ((GoTime.ParseDateTime (ModTime t) = None
               /\ e = Returned (ErrParseTime (ModTime t)))
              \/ (inWindow fl t = true /\ wellNamed (Name t) = false
                  /\ e = Returned ErrInvalidTableName))).
Proof.
  split.
  - apply printTablesLoop_good. intros n Hn. rewrite lookup_empty in Hn.
    destruct Hn; discriminate.
  - assert (H : forall ts data prev a0,
              (forall n, is_Some (data !! n) -> wellNamed n = true) ->
              forall e, snd (printTablesLoop fl dir ts data prev a0) = Some e ->
                exists t, In t ts /\ stopsAt fl t e).
    { clear. intros ts. induction ts as [|table rest IH]; intros data prev a Hd e He.
      - pose proof (proj2 (printTablesLoop_good fl dir [] data prev a Hd)) as E.
        rewrite E in He by (intros t []). discriminate.
      - cbn [printTablesLoop] in He.
        pose proof (eq_refl : inWindow fl table = inWindow fl table) as Hwin.
        unfold inWindow at 2 in Hwin.
        assert (Hr : forall d p x, 
                  (forall n, is_Some (d !! n) -> wellNamed n = true) ->
                  snd (printTablesLoop fl dir rest d p x) = Some e ->
                  exists t, In t (table :: rest) /\ stopsAt fl t e).
        { intros d p x Hdd Hx. destruct (IH d p x Hdd e Hx) as (t & Ht & Hs).
          exists t. split; [right; exact Ht | exact Hs]. }
        destruct (GoTime.ParseDateTime (ModTime table)) as [mt|] eqn:Hp.
        2:{ cbn [snd] in He. injection He as <-. exists table.
            split; [left; reflexivity | left; split; [exact Hp | reflexivity]]. }
        destruct (GoTime.After mt (fAnalyzeAfter fl)); cbn [negb orb andb] in *;
          [|eapply Hr; eassumption].
        destruct (GoTime.Before mt (fAnalyzeBefore fl)); cbn [negb orb andb] in *;
          [|eapply Hr; eassumption].
        pose proof (eq_refl : wellNamed (Name table) = wellNamed (Name table)) as Hwn.
        unfold wellNamed at 2 in Hwn.
        destruct (parseMeasAgentUUIDs (Name table)) as [[measUUID agentUUID] [err|]] eqn:Hparse.
        { cbn [snd] in He. injection He as <-. exists table.
          split; [left; reflexivity|]. right.
          split; [exact Hwin|]. split; [exact Hwn|].
          unfold parseMeasAgentUUIDs in Hparse.
          destruct (_ =? -1) in Hparse; [injection Hparse as _ _ <-; reflexivity|].
          cbv zeta in Hparse.
          destruct (_ =? -1) in Hparse; [injection Hparse as _ _ <-; reflexivity|].
          discriminate. }
        assert (Hins : forall d0 : gmap string tableDetails,
                  (forall n, is_Some (d0 !! n) -> wellNamed n = true) ->
                  forall n, is_Some (<[Name table := {| modTime := ModTime table;
                                                        rows := Rows table;
                                                        bytes := Bytes table |}]> d0 !! n) ->
                  wellNamed n = true).
        { intros d0 Hd0 n Hn. destruct (String.eqb_spec (Name table) n) as [<-|N]; [exact Hwn|].
          rewrite lookup_insert_ne in Hn by exact N. apply Hd0, Hn. }
        cbv zeta in He. destruct (negb _) in He.
        + pose proof (proj2 (printTablesLoop_good fl dir [] data prev
                               (print (MeasHeader (if String.eqb prev "" then measUUID else prev)) a)
                               Hd)) as E.
          cbn [printTablesLoop] in E.
          destruct (printTableDetails fl dir data _) as [a1 [e'|]]; cbn [snd] in E.
          * specialize (E ltac:(intros t [])). discriminate.
          * eapply Hr; [|exact He]. apply Hins. intros n Hn. rewrite lookup_empty in Hn.
            destruct Hn; discriminate.
        + eapply Hr; [|exact He]. apply Hins, Hd. }
    intros e He. destruct (H tables ∅ "" a) with (e := e) as (t & Ht & Hs);
      [intros n Hn; rewrite lookup_empty in Hn; destruct Hn; discriminate | exact He|].
    exists t. split; [exact Ht | exact Hs].
Qed.

(** X10: every table line that [printTables] prints is a catalog row
    whose modification time lies strictly inside the window, shown with
    its own time, rows and bytes and with the host of the agent that
    its name carries; the host is on the [--agent] list when one is
    given, and the line is flagged exactly when rows or bytes is 0. *)
Theorem printTables_lines_sound (fl : Flags) (dir : gmap string string)
    (tables : list MeasTable) (name mt : string) (r b : Z) (host : string) (w : bool) :
  In (TableLine name mt r b host w) (stdout (fst (printTables fl dir tables initAcc))) ->
  (exists t, In t tables /\ inWindow fl t = true /\ Name t = name
             /\ ModTime t = mt /\ Rows t = r /\ Bytes t = b)
  /\ wellNamed name = true
  /\ host = hostOf dir name
  /\ (fAnalyzeAgents fl = [] \/ In host (fAnalyzeAgents fl))
  /\ w = ((r =? 0) || (b =? 0)).
Proof.
  intros Hin.
  destruct (printTablesLoop_sound fl dir tables tables ∅ "" initAcc
              (incl_refl _) (dataOK_empty _ _) (List.Forall_nil _)) as [H _].
  rewrite List.Forall_forall in H. apply (H _ Hin).
Qed.


(** *** Every table passing the filters is printed *)

Lemma listed_extends name a a' : extends a a' -> listed name (stdout a) -> listed name (stdout a').
Proof.
  intros [later E] (mt & r & b & host & w & H). rewrite E.
  exists mt, r, b, host, w. apply in_or_app. left. exact H.
Qed.

Lemma extends_printTableRows fl dir data names a :
  extends a (fst (printTableRows fl dir data names a)).
Proof. apply calm_printTableRows. Qed.

Lemma printTableRows_complete fl dir data names : forall a n,
  (forall x, In x names -> wellNamed x = true) ->
  In n names -> hostAllowed fl (hostOf dir n) ->
  listed n (stdout (fst (printTableRows fl dir data names a))).
Proof.
  induction names as [|tblName rest IH]; intros a n Hw Hn Hh; [destruct Hn|].
  cbn [printTableRows].
  pose proof (Hw tblName (or_introl eq_refl)) as Hwt. unfold wellNamed in Hwt.
  assert (Hhost : hostOf dir tblName
                  = Agents.GetAgentName dir
                      (GoStrings.ReplaceAll (snd (fst (parseMeasAgentUUIDs tblName))) "_" "-"))
    by reflexivity.
  destruct (parseMeasAgentUUIDs tblName) as [[measUUID agentUUID] [err|]]; [discriminate|].
  cbn [fst snd] in Hhost. rewrite <- Hhost. cbv zeta.
  assert (Hrest : forall x, In x rest -> wellNamed x = true)
    by (intros x Hx; apply Hw; right; exact Hx).
  destruct Hn as [<-|Hn].
  - assert (Hskip : (if 0 <? Z.of_nat (length (fAnalyzeAgents fl))
                     then agentSkip (fAnalyzeAgents fl) (hostOf dir tblName) else false)
                    = false).
    { destruct (0 <? _) eqn:Hlen; [|reflexivity].
      apply agentSkip_In. destruct Hh as [Hnil|Hin]; [|exact Hin].
      apply length_pos_nonnil in Hnil. congruence. }
    rewrite Hskip.
    eapply listed_extends; [apply extends_printTableRows|].
    eexists _, _, _, _, _. cbn. apply in_or_app. right. left. reflexivity.
  - destruct (if 0 <? _ then _ else false); apply IH; assumption.
Qed.

Lemma printTableDetails_complete fl dir (data : gmap string tableDetails) a n :
  (forall x, is_Some (data !! x) -> wellNamed x = true) ->
  is_Some (data !! n) -> hostAllowed fl (hostOf dir n) ->
  listed n (stdout (fst (printTableDetails fl dir data a))).
Proof.
  intros Hw Hn Hh. apply printTableRows_complete; [|apply sortByKey_In, Hn | exact Hh].
  intros x Hx. apply Hw, sortByKey_In, Hx.
Qed.

Lemma extends_printTablesLoop fl dir ts data prev a :
  extends a (fst (printTablesLoop fl dir ts data prev a)).
Proof. apply calm_printTablesLoop. Qed.

Lemma printTablesLoop_complete fl dir ts : forall data prev a a' name,
  printTablesLoop fl dir ts data prev a = (a', None) ->
  (forall x, is_Some (data !! x) -> wellNamed x = true) ->
  is_Some (data !! name) \/ (exists t, In t ts /\ inWindow fl t = true /\ Name t = name) ->
  hostAllowed fl (hostOf dir name) ->
  listed name (stdout a').
Proof.
  induction ts as [|table rest IH]; intros data prev a a' name H Hw Hn Hh;
    cbn [printTablesLoop] in H.
  - destruct Hn as [Hn|(t & [] & _)].
    pose proof (printTableDetails_complete fl dir data a name Hw Hn Hh) as L.
    rewrite H in L. exact L.
  - pose proof (eq_refl : inWindow fl table = inWindow fl table) as Hwin.
    unfold inWindow at 2 in Hwin.
    destruct (GoTime.ParseDateTime (ModTime table)) as [mt|] eqn:Hp; [|discriminate].
    assert (Hout : inWindow fl table = false ->
              is_Some (data !! name)
              \/ (exists t, In t rest /\ inWindow fl t = true /\ Name t = name)).
    { intros Hf. destruct Hn as [Hn|(t & [<-|Ht] & Hwt & Hnt)];
        [left; exact Hn | congruence | right; exists t; auto]. }
    destruct (GoTime.After mt (fAnalyzeAfter fl)); cbn [negb orb andb] in *;
      [|eapply IH; [exact H | exact Hw | apply Hout, Hwin | exact Hh]].
    destruct (GoTime.Before mt (fAnalyzeBefore fl)); cbn [negb orb andb] in *;
      [|eapply IH; [exact H | exact Hw | apply Hout, Hwin | exact Hh]].
    pose proof (eq_refl : wellNamed (Name table) = wellNamed (Name table)) as Hwn.
    unfold wellNamed at 2 in Hwn.
    destruct (parseMeasAgentUUIDs (Name table)) as [[measUUID agentUUID] [err|]];
      [discriminate|].
    assert (Hins : forall d0 : gmap string tableDetails,
              (forall n, is_Some (d0 !! n) -> wellNamed n = true) ->
              forall n, is_Some (<[Name table := {| modTime := ModTime table;
                                                    rows := Rows table;
                                                    bytes := Bytes table |}]> d0 !! n) ->
              wellNamed n = true).
    { intros d0 Hd0 n Hn'. destruct (String.eqb_spec (Name table) n) as [<-|N]; [exact Hwn|].
      rewrite lookup_insert_ne in Hn' by exact N. apply Hd0, Hn'. }
    cbv zeta in H. destruct (negb _) in H.
    + pose proof (printTableDetails_complete fl dir data
                    (print (MeasHeader (if String.eqb prev "" then measUUID else prev)) a)
                    name Hw) as L.
      destruct (printTableDetails fl dir data _) as [a1 [e|]]; [discriminate|].
      cbn [fst] in L.
      destruct Hn as [Hn|(t & [<-|Ht] & Hwt & Hnt)].
      * eapply listed_extends; [|apply L; assumption].
        pose proof (extends_printTablesLoop fl dir rest
                      (<[Name table := {| modTime := ModTime table; rows := Rows table;
                                          bytes := Bytes table |}]> ∅) measUUID a1) as Hx.
        rewrite H in Hx. exact Hx.
      * eapply IH; [exact H | apply Hins | left | exact Hh].
        -- intros x Hx. rewrite lookup_empty in Hx. destruct Hx; discriminate.
        -- rewrite <- Hnt, lookup_insert_eq. eexists; reflexivity.
      * eapply IH; [exact H | apply Hins | right; exists t; auto | exact Hh].
        intros x Hx. rewrite lookup_empty in Hx. destruct Hx; discriminate.
    + destruct Hn as [Hn|(t & [<-|Ht] & Hwt & Hnt)].
      * eapply IH; [exact H | apply Hins, Hw | left | exact Hh].
        destruct (String.eqb_spec (Name table) name) as [<-|N];
          [rewrite lookup_insert_eq; eexists; reflexivity
          | rewrite lookup_insert_ne by exact N; exact Hn].
      * eapply IH; [exact H | apply Hins, Hw | left | exact Hh].
        rewrite <- Hnt, lookup_insert_eq. eexists; reflexivity.
      * eapply IH; [exact H | apply Hins, Hw | right; exists t; auto | exact Hh].
Qed.

(** X11: when [printTables] runs to its end, every catalog row whose
    modification time lies inside the window and whose host passes the
    [--agent] list has a table line in the output. *)
Theorem printTables_lists_every_table (fl : Flags) (dir : gmap string string)
    (tables : list MeasTable) (a' : Acc) (t : MeasTable) :
  printTables fl dir tables initAcc = (a', None) ->
  In t tables -> inWindow fl t = true ->
  fAnalyzeAgents fl = [] \/ In (hostOf dir (Name t)) (fAnalyzeAgents fl) ->
  exists mt r b w, In (TableLine (Name t) mt r b (hostOf dir (Name t)) w) (stdout a').
Proof.
  intros H Ht Hw Hh.
  destruct (printTablesLoop_complete fl dir tables ∅ "" initAcc a' (Name t) H)
    as (mt & r & b & host & w & Hin).
  - intros x Hx. rewrite lookup_empty in Hx. destruct Hx; discriminate.
  - right. exists t. auto.
  - exact Hh.
  - exists mt, r, b, w.
    destruct (printTablesLoop_sound fl dir tables tables ∅ "" initAcc
                (incl_refl _) (dataOK_empty _ _) (List.Forall_nil _)) as [Hs _].
    fold (printTables fl dir tables initAcc) in Hs. rewrite H in Hs. cbn [fst] in Hs.
    rewrite List.Forall_forall in Hs. destruct (Hs _ Hin) as (_ & _ & -> & _).
    exact Hin.
Qed.

(** *** The UUID headers *)





(** *** The first case of [analyzeTables] *)

Lemma skipLine_printTablesLoop fl dir ts : forall prev a,
  fAnalyzeAfter fl = GoTime.zeroTime -> fAnalyzeBefore fl = GoTime.zeroTime ->
  Forall skipLine (stdout a) ->
  Forall skipLine (stdout (fst (printTablesLoop fl dir ts ∅ prev a))).
Proof.
  induction ts as [|table rest IH]; intros prev a Ha Hb H; cbn [printTablesLoop].
  - exact H.
  - destruct (GoTime.ParseDateTime (ModTime table)) as [mt|]; [|exact H].
    assert (E : negb (GoTime.After mt (fAnalyzeAfter fl))
                || negb (GoTime.Before mt (fAnalyzeBefore fl)) = true).
    { rewrite Ha, Hb. unfold GoTime.After, GoTime.Before.
      destruct (Z.ltb_spec GoTime.zeroTime mt); destruct (Z.ltb_spec mt GoTime.zeroTime);
        try reflexivity. lia. }
    rewrite E. apply IH; try assumption.
    unfold verbose. destruct (fVerbose fl); [|exact H].
    cbn. apply Forall_app. split; [exact H|]. constructor; [|constructor].
    eexists. reflexivity.
Qed.

(** X13: [analyzeTables] takes its first case, the single query for
    all tables, only when [--after] and [--before] are both the zero
    time, because the two dates it compares them with fail to parse;
    every catalog row is then outside the window, and
    [analyzeTablesByName] prints no table, only "skipping" lines. *)
Theorem byNameCase_prints_no_table (fl : Flags) (nargs : Z) (dir : gmap string string)
    (tables : list MeasTable) :
  byNameCase fl nargs = true ->
  fAnalyzeAfter fl = GoTime.zeroTime /\ fAnalyzeBefore fl = GoTime.zeroTime
  /\ Forall skipLine
       (stdout (fst (analyzeTablesByName fl dir (tables, None) initAcc))).
Proof.
  intros H. unfold byNameCase in H. cbv zeta in H.
  change (GoTime.ParseDate FirstMeasurementDate) with (@None GoTime.Time) in H.
  change (GoTime.ParseDate LastMeasurementDate) with (@None GoTime.Time) in H.
  cbn [default] in H.
  repeat (apply andb_true_iff in H as [H ?]).
  unfold GoTime.Equal in *.
  assert (Ha : fAnalyzeAfter fl = GoTime.zeroTime)
    by (symmetry; apply Z.eqb_eq; assumption).
  assert (Hb : fAnalyzeBefore fl = GoTime.zeroTime)
    by (symmetry; apply Z.eqb_eq; assumption).
  split; [exact Ha|]. split; [exact Hb|].
  unfold analyzeTablesByName, printTables.
  apply skipLine_printTablesLoop; try assumption. constructor.
Qed.


Lemma printTables_lines_sound_witness :
  "iris-asia-northeast1" = hostOf Scenario.directory "links__m_1__a_3"
  /\ true = ((0 =? 0) || (4096 =? 0)).
Proof.
  destruct (printTables_lines_sound defaultFlags Scenario.directory Scenario.twelveTables
              "links__m_1__a_3" "2024-03-02 10:00:00" 0 4096 "iris-asia-northeast1" true
              ltac:(vm_compute; tauto))
    as (_ & _ & H & _ & W).
  split; [exact H | exact W].
Defined.

Lemma printTables_lists_every_table_witness :
  exists mt r b w,
    In (TableLine "links__m_1__a_3" mt r b
          (hostOf Scenario.directory "links__m_1__a_3") w)
       (stdout (fst (printTables defaultFlags Scenario.directory
                       Scenario.twelveTables initAcc))).
Proof.
  apply (printTables_lists_every_table defaultFlags Scenario.directory
           Scenario.twelveTables _ (Scenario.table "links__m_1__a_3" 0)).
  - vm_compute. reflexivity.
  - vm_compute. tauto.
  - reflexivity.
  - left. reflexivity.
Defined.


Lemma byNameCase_prints_no_table_witness :
  Forall skipLine
    (stdout (fst (analyzeTablesByName Scenario.zeroWindowFlags Scenario.directory
                    (Scenario.twelveTables, None) initAcc))).
Proof.
  apply (byNameCase_prints_no_table Scenario.zeroWindowFlags 0 Scenario.directory
           Scenario.twelveTables).
  reflexivity.
Defined.

End TableLines.

(** ** What [getMeasMdFile] sends, writes and returns *)

Section FetchRun.
Import Meas Spec.

Lemma offsetsFrom_S k n : offsetsFrom k (S n) = 200 * Z.of_nat k :: offsetsFrom (S k) n.
Proof. reflexivity. Qed.

Lemma fetchLoop_stops fl server k : forall p,
  (p + k < 50)%nat ->
  (forall i, (p <= i < p + k)%nat ->
     continues (server (request fl (200 * Z.of_nat i))) = true) ->
  continues (server (request fl (200 * Z.of_nat (p + k)))) = false ->
  requests (fetchLoop fl server (200 * Z.of_nat p))
  = map (request fl) (offsetsFrom p (S k))
  /\ written (fetchLoop fl server (200 * Z.of_nat p))
     = flat_map (fun o => bodyOf (server (request fl o))) (offsetsFrom p (S k))
  /\ failure (fetchLoop fl server (200 * Z.of_nat p))
     = errorOf (server (request fl (200 * Z.of_nat (p + k)))).
Proof.
  induction k as [|k IH]; intros p Hp Hc Hs; rewrite fetchLoop_eq;
    (destruct (Z.ltb_spec (200 * Z.of_nat p) 10000); [|lia]).
  - rewrite Nat.add_0_r in Hs.
    rewrite Nat.add_0_r. unfold offsetsFrom. cbn [seq map flat_map].
    destruct (server (request fl (200 * Z.of_nat p))) as [m|j m|j m|j next];
      cbn [continues] in Hs; cbn [sent wrote stop requests written failure bodyOf errorOf app];
      try (conj; reflexivity).
    apply negb_false_iff in Hs. rewrite Hs.
    cbn [sent wrote stop requests written failure]. conj; reflexivity.
  - pose proof (Hc p ltac:(lia)) as Hcp.
    rewrite offsetsFrom_S. cbn [map flat_map].
    destruct (server (request fl (200 * Z.of_nat p))) as [m|j m|j m|j next];
      cbn [continues] in Hcp; try discriminate.
    apply negb_true_iff in Hcp. rewrite Hcp.
    replace (200 * Z.of_nat p + limit) with (200 * Z.of_nat (S p)) by (unfold limit; lia).
    destruct (IH (S p)) as (R & W & F).
    + lia.
    + intros i Hi. apply Hc. lia.
    + replace (S p + k)%nat with (p + S k)%nat by lia. exact Hs.
    + cbn [sent wrote requests written failure bodyOf app].
      rewrite R, W, F. replace (S p + k)%nat with (p + S k)%nat by lia.
      conj; reflexivity.
Qed.

(** X14: [getMeasMdFile] stops at the first reply that is not a batch
    naming a next page: when the replies to the pages before page [k]
    are such batches and the reply to page [k] is not, it sends exactly
    the requests for pages 0 to [k], the file holds the bodies received
    for them, in order, and the error returned is that of the reply to
    page [k] (none when it is the last batch). *)
Theorem getMeasMdFile_stops_at_first_stop (fl : Flags) (server : Request -> Reply)
    (k : nat) :
  (k < 50)%nat ->
  (forall i, (i < k)%nat ->
     continues (server (request fl (200 * Z.of_nat i))) = true) ->
  continues (server (request fl (200 * Z.of_nat k))) = false ->
  requests (getMeasMdFile fl server) = map (request fl) (pageOffsets (S k))
  /\ written (getMeasMdFile fl server)
     = flat_map (fun o => bodyOf (server (request fl o))) (pageOffsets (S k))
  /\ failure (getMeasMdFile fl server)
     = errorOf (server (request fl (200 * Z.of_nat k))).
Proof.
  intros Hk Hc Hs. unfold getMeasMdFile.
  apply (fetchLoop_stops fl server k 0%nat); [lia | intros i Hi; apply Hc; lia | exact Hs].
Qed.

Lemma getMeasMdFile_stops_at_first_stop_witness :
  requests (getMeasMdFile Scenario.measFlags Scenario.threePages)
  = map (request Scenario.measFlags) [0; 200; 400]
  /\ written (getMeasMdFile Scenario.measFlags Scenario.threePages)
     = ["{page}"; "{page}"; "{last}"]
  /\ failure (getMeasMdFile Scenario.measFlags Scenario.threePages) = None.
Proof.
  apply (getMeasMdFile_stops_at_first_stop Scenario.measFlags Scenario.threePages 2).
  - lia.
  - intros i Hi. destruct i as [|[|i]]; [reflexivity | reflexivity | lia].
  - reflexivity.
Defined.

Lemma fetchLoop_file fl server j : forall p,
  (p + j = 50)%nat ->
  written (fetchLoop fl server (200 * Z.of_nat p))
  = flat_map (fun r => bodyOf (server r)) (requests (fetchLoop fl server (200 * Z.of_nat p)))
  /\ (forall msg, failure (fetchLoop fl server (200 * Z.of_nat p)) = Some msg ->
        exists r, List.last (map Some (requests (fetchLoop fl server (200 * Z.of_nat p)))) None
                  = Some r
                  /\ errorOf (server r) = Some msg)
  /\ (failure (fetchLoop fl server (200 * Z.of_nat p)) = None ->
      Forall (fun r => errorOf (server r) = None)
        (requests (fetchLoop fl server (200 * Z.of_nat p)))).
Proof.
  induction j as [|j IH]; intros p Hp; rewrite fetchLoop_eq.
  - destruct (Z.ltb_spec (200 * Z.of_nat p) 10000); [lia|].
    cbn. conj; [reflexivity | discriminate | constructor].
  - destruct (Z.ltb_spec (200 * Z.of_nat p) 10000); [|lia].
    destruct (server (request fl (200 * Z.of_nat p))) as [m|b m|b m|b next] eqn:E.
    + cbn. rewrite E. cbn. conj; [reflexivity | | discriminate].
      intros msg [= <-]. eexists. split; [reflexivity | rewrite E; reflexivity].
    + cbn. rewrite E. cbn. conj; [reflexivity | | discriminate].
      intros msg [= <-]. eexists. split; [reflexivity | rewrite E; reflexivity].
    + cbn. rewrite E. cbn. conj; [reflexivity | | discriminate].
      intros msg [= <-]. eexists. split; [reflexivity | rewrite E; reflexivity].
    + destruct (lastPage next).
      * cbn. rewrite E. cbn. conj; [reflexivity | discriminate |].
        intros _. constructor; [rewrite E; reflexivity | constructor].
      * replace (200 * Z.of_nat p + limit) with (200 * Z.of_nat (S p))
          by (unfold limit; lia).
        destruct (IH (S p)) as (W & F & N); [lia|].
        set (f := fetchLoop fl server (200 * Z.of_nat (S p))) in *.
        cbn [sent wrote requests written failure flat_map map].
        rewrite E. cbn [bodyOf app]. rewrite <- W. conj; [reflexivity | |].
        -- intros msg Hm. destruct (F msg Hm) as (r & Hl & He).
           exists r. split; [|exact He].
           destruct (requests f) as [|r0 rs]; [discriminate|]. exact Hl.
        -- intros Hn. constructor; [rewrite E; reflexivity | apply N, Hn].
Qed.

(** X15: after any run of [getMeasMdFile] the file holds, in order, the
    bodies of the replies to the requests sent, a failed download
    leaving none; an error returned is that of the reply to the last
    request; and against a server that always names a next page the
    run ends after page 50 without any error. *)
Theorem getMeasMdFile_file_and_error (fl : Flags) (server : Request -> Reply) :
  written (getMeasMdFile fl server)
  = flat_map (fun r => bodyOf (server r)) (requests (getMeasMdFile fl server))
  /\ (forall msg, failure (getMeasMdFile fl server) = Some msg ->
        exists r, List.last (map Some (requests (getMeasMdFile fl server))) None = Some r
                  /\ errorOf (server r) = Some msg)
  /\ (failure (getMeasMdFile fl server) = None ->
      Forall (fun r => errorOf (server r) = None) (requests (getMeasMdFile fl server)))
  /\ (endless server -> failure (getMeasMdFile fl server) = None).
Proof.
  unfold getMeasMdFile.
  destruct (fetchLoop_file fl server 50 0%nat eq_refl) as (W & F & N).
  conj; try assumption.
  intros Hs.
  assert (G : forall j p, (p + j = 50)%nat ->
                failure (fetchLoop fl server (200 * Z.of_nat p)) = None).
  { induction j as [|j IH]; intros p Hp; rewrite fetchLoop_eq.
    - destruct (Z.ltb_spec (200 * Z.of_nat p) 10000); [lia | reflexivity].
    - destruct (Z.ltb_spec (200 * Z.of_nat p) 10000); [|lia].
      destruct (Hs (request fl (200 * Z.of_nat p))) as (d & next & -> & Hne).
      unfold lastPage. destruct (String.eqb_spec next ""); [contradiction|].
      replace (200 * Z.of_nat p + limit) with (200 * Z.of_nat (S p))
        by (unfold limit; lia).
      cbn [sent wrote failure]. apply IH. lia. }
  apply (G 50%nat 0%nat eq_refl).
Qed.

End FetchRun.

(** ** The algebra of [MatchTag] *)

Section TagAlgebra.
Import Common Analyze Spec GoStrings.

Lemma tagFound_ext mTags mTags' tag :
  sameElements mTags mTags' -> tagFound mTags tag = tagFound mTags' tag.
Proof.
  intros H. apply eq_true_iff_eq. rewrite !tagFound_hit. unfold foundIn.
  split; intros (x & Hx & Hc); exists x; (split; [apply H, Hx | exact Hc]).
Qed.

Lemma MatchTag_forms mTags tags tagsAnd :
  MatchTag mTags tags tagsAnd =
    match tags with
    | [] => false
    | _ :: _ => if tagsAnd then forallb (tagFound mTags) tags
                else existsb (tagFound mTags) tags
    end.
Proof.
  unfold MatchTag. destruct tagsAnd; [rewrite matchTagLoop_and | rewrite matchTagLoop_or];
    destruct tags; reflexivity.
Qed.

(** X16: the result of [MatchTag] depends only on which tags the two
    lists hold: the order of the filter tags and of the measurement's
    tags, and repetitions in either list, do not matter. *)
Theorem MatchTag_order_irrelevant (mTags mTags' tags tags' : list string)
    (tagsAnd : bool) :
  sameElements mTags mTags' -> sameElements tags tags' ->
  MatchTag mTags tags tagsAnd = MatchTag mTags' tags' tagsAnd.
Proof.
  intros Hm Ht. rewrite !MatchTag_forms.
  assert (Hf : forall t, tagFound mTags t = tagFound mTags' t)
    by (intros t; apply tagFound_ext, Hm).
  destruct tags as [|t ts], tags' as [|t' ts'].
  - reflexivity.
  - exfalso. apply (proj2 (Ht t')). left. reflexivity.
  - exfalso. apply (proj1 (Ht t)). left. reflexivity.
  - apply eq_true_iff_eq. destruct tagsAnd.
    + rewrite !forallb_forall. split; intros H x Hx.
      * rewrite <- Hf. apply H, Ht, Hx.
      * rewrite Hf. apply H, Ht, Hx.
    + rewrite !existsb_exists. split; intros (x & Hx & Hc); exists x.
      * rewrite <- Hf. split; [apply Ht, Hx | exact Hc].
      * rewrite Hf. split; [apply Ht, Hx | exact Hc].
Qed.

Lemma MatchTag_order_irrelevant_witness :
  MatchTag ["zeph-gcp-daily.json"; "collection:exhaustive"] ["zeph"; "exhaustive"] true
  = MatchTag ["collection:exhaustive"; "zeph-gcp-daily.json"; "collection:exhaustive"]
      ["exhaustive"; "zeph"; "zeph"] true.
Proof.
  apply MatchTag_order_irrelevant.
  - intros x. cbn. tauto.
  - intros x. cbn. tauto.
Defined.

Lemma Index_empty s : Index s "" = 0.
Proof. unfold Index. destruct s; reflexivity. Qed.

(** X17: a measurement that [--tags-and] selects is also selected
    without it; a measurement selected with some tags is still selected
    when it carries more tags; and the empty filter tag is found in
    every tag, so it selects exactly the measurements that have at
    least one tag. *)
Theorem MatchTag_and_or_more (mTags mTags' tags : list string) (tagsAnd : bool) :
  (MatchTag mTags tags true = true -> MatchTag mTags tags false = true)
  /\ (incl mTags mTags' -> MatchTag mTags tags tagsAnd = true ->
      MatchTag mTags' tags tagsAnd = true)
  /\ (MatchTag mTags [""] tagsAnd = true <-> mTags <> []).
Proof.
  assert (Hmono : incl mTags mTags' ->
            forall t, tagFound mTags t = true -> tagFound mTags' t = true).
  { intros Hi t. rewrite !tagFound_hit. intros (x & Hx & Hc).
    exists x. split; [apply Hi, Hx | exact Hc]. }
  conj.
  - rewrite !MatchTag_forms. destruct tags as [|t ts]; [discriminate|].
    rewrite forallb_forall, existsb_exists. intros H.
    exists t. split; [left; reflexivity | apply H; left; reflexivity].
  - intros Hi. rewrite !MatchTag_forms. destruct tags as [|t ts]; [discriminate|].
    destruct tagsAnd.
    + rewrite !forallb_forall. intros H x Hx. apply Hmono; [exact Hi | apply H, Hx].
    + rewrite !existsb_exists. intros (x & Hx & Hc).
      exists x. split; [exact Hx | apply Hmono; assumption].
  - rewrite MatchTag_single. destruct mTags as [|m ms].
    + cbn. split; [discriminate | congruence].
    + cbn [tagFound]. unfold Contains. rewrite Index_empty. cbn.
      split; [discriminate | reflexivity].
Qed.

End TagAlgebra.

(** ** The two tables of [analyzeTags] *)

Section Tags.
Import Common Analyze Spec Spec.

(** *** [sort.Strings] gives one result for all orders of the input *)

Lemma ascii_compare_trans a b c o :
  Ascii.compare a b = o -> Ascii.compare b c = o -> Ascii.compare a c = o.
Proof.
  unfold Ascii.compare. intros H1 H2. destruct o.
  - apply N.compare_eq_iff in H1, H2. apply N.compare_eq_iff. congruence.
  - rewrite N.compare_lt_iff in *. lia.
  - rewrite N.compare_gt_iff in *. lia.
Qed.

Lemma string_compare_Lt_trans s1 : forall s2 s3,
  String.compare s1 s2 = Lt -> String.compare s2 s3 = Lt -> String.compare s1 s3 = Lt.
Proof.
  induction s1 as [|a s1 IH]; intros [|b s2] [|c s3]; cbn; try congruence.
  destruct (Ascii.compare a b) eqn:E1; try discriminate;
    destruct (Ascii.compare b c) eqn:E2; try discriminate; intros H1 H2.
  - rewrite (ascii_compare_trans a b c Eq E1 E2). eapply IH; eassumption.
  - apply Ascii.compare_eq_iff in E1. subst b. rewrite E2. reflexivity.
  - apply Ascii.compare_eq_iff in E2. subst c. rewrite E1. reflexivity.
  - rewrite (ascii_compare_trans a b c Lt E1 E2). reflexivity.
Qed.

Lemma sle_trans a b c : sle a b -> sle b c -> sle a c.
Proof.
  unfold sle, String.leb. intros H1 H2.
  destruct (String.compare a b) eqn:E1; [| |discriminate].
  - apply String.compare_eq_iff in E1. subst b. exact H2.
  - destruct (String.compare b c) eqn:E2; [| |discriminate].
    + apply String.compare_eq_iff in E2. subst c. rewrite E1. reflexivity.
    + rewrite (string_compare_Lt_trans a b c E1 E2). reflexivity.
Qed.

Lemma sle_total a b : sle a b \/ sle b a.
Proof. apply String.leb_total. Qed.

Lemma insertS_perm a l : Permutation (GoSort.insertS a l) (a :: l).
Proof.
  induction l as [|b l IH]; cbn [GoSort.insertS]; [reflexivity|].
  destruct (String.leb a b); [reflexivity|].
  rewrite IH. apply perm_swap.
Qed.

Lemma Strings_perm l : Permutation (GoSort.Strings l) l.
Proof.
  induction l as [|a l IH]; cbn [GoSort.Strings]; [reflexivity|].
  rewrite insertS_perm, IH. reflexivity.
Qed.

Lemma insertS_sorted a l :
  StronglySorted sle l -> StronglySorted sle (GoSort.insertS a l).
Proof.
  induction 1 as [|b l Hs IH Hb]; cbn [GoSort.insertS].
  - constructor; constructor.
  - destruct (String.leb a b) eqn:E.
    + constructor; [constructor; assumption|].
      constructor; [exact E|]. eapply Forall_impl; [exact Hb|].
      intros x Hx. eapply sle_trans; [exact E | exact Hx].
    + constructor; [exact IH|]. apply List.Forall_forall. intros x Hx.
      apply insertS_In in Hx as [->|Hx].
      * destruct (sle_total a b) as [H|H]; [unfold sle in H; congruence | exact H].
      * rewrite List.Forall_forall in Hb. apply Hb, Hx.
Qed.

Lemma Strings_sorted l : StronglySorted sle (GoSort.Strings l).
Proof.
  induction l as [|a l IH]; cbn [GoSort.Strings]; [constructor | apply insertS_sorted, IH].
Qed.

Lemma sorted_perm_eq l1 : forall l2,
  StronglySorted sle l1 -> StronglySorted sle l2 -> Permutation l1 l2 -> l1 = l2.
Proof.
  induction l1 as [|a l1 IH]; intros l2 H1 H2 P.
  - apply Permutation_nil in P. congruence.
  - destruct l2 as [|b l2]; [apply Permutation_sym, Permutation_nil in P; discriminate|].
    inversion H1 as [|? ? S1 F1]; inversion H2 as [|? ? S2 F2]; subst.
    rewrite List.Forall_forall in F1, F2.
    assert (E : a = b).
    { assert (Ha : In a (b :: l2)) by (eapply Permutation_in; [exact P | left; reflexivity]).
      assert (Hb : In b (a :: l1))
        by (eapply Permutation_in; [apply Permutation_sym, P | left; reflexivity]).
      destruct Ha as [->|Ha]; [reflexivity|]. destruct Hb as [->|Hb]; [reflexivity|].
      apply String.leb_antisym; [apply F1, Hb | apply F2, Ha]. }
    subst b. f_equal. apply IH; try assumption. eapply Permutation_cons_inv, P.
Qed.

Lemma Strings_canonical l l' : Permutation l l' -> GoSort.Strings l = GoSort.Strings l'.
Proof.
  intros P. apply sorted_perm_eq; try apply Strings_sorted.
  rewrite !Strings_perm. exact P.
Qed.

(** *** The two maps of [analyzeTags] *)

Lemma countTag_lookup mt tag t :
  countTag mt tag !! t
  = if String.eqb t tag then Some (default 0 (mt !! tag) + 1) else mt !! t.
Proof.
  unfold countTag. destruct (String.eqb_spec t tag) as [->|N].
  - destruct (mt !! tag); rewrite lookup_insert_eq; reflexivity.
  - destruct (mt !! tag); rewrite lookup_insert_ne by congruence; reflexivity.
Qed.

Lemma countTags_lookup tags : forall mt t,
  default 0 (fold_left countTag tags mt !! t)
  = default 0 (mt !! t) + tally (String.eqb t) tags
  /\ (is_Some (fold_left countTag tags mt !! t) <-> is_Some (mt !! t) \/ In t tags).
Proof.
  induction tags as [|tag tags IH]; intros mt t; cbn [fold_left].
  - rewrite tally_nil. split; [lia | cbn; tauto].
  - destruct (IH (countTag mt tag) t) as [V S]. rewrite V, S, tally_cons, countTag_lookup.
    destruct (String.eqb_spec t tag) as [->|N].
    + split; [cbn; lia|].
      split; [intros _; right; left; reflexivity | intros _; left; eexists; reflexivity].
    + split; [lia|]. cbn [In]. intuition congruence.
Qed.


Lemma tagsLoop_inv fl ms : forall mt0 tc0,
  tagInv fl ms mt0 tc0 (fst (tagsLoop fl ms mt0 tc0)) (snd (tagsLoop fl ms mt0 tc0)).
Proof.
  induction ms as [|m rest IH]; intros mt0 tc0.
  - unfold tagInv. cbn [tagsLoop fst snd tagOccurrences]. rewrite !tally_nil.
    conj; intros t; rewrite ?tally_nil; try (destruct (String.eqb t "")); try lia;
      intuition lia.
  - cbn [tagsLoop]. unfold tagInv. cbn [tagOccurrences].
    assert (Ht : tally (tagless fl) (m :: rest)
                 = (if negb (measSkip fl m) && (Z.of_nat (length (Tags m)) =? 0)
                    then 1 else 0) + tally (tagless fl) rest)
      by apply (tally_cons (tagless fl)).
    assert (Hc : forall k, tally (combined fl k) (m :: rest)
                 = (if negb (measSkip fl m) && String.eqb (combination m) k
                    then 1 else 0) + tally (combined fl k) rest)
      by (intros k; apply (tally_cons (combined fl k))).
    unfold passes at 1. unfold passes at 1.
    destruct (measSkip fl m) eqn:Hs; cbn [negb andb] in *.
    + destruct (IH mt0 tc0) as (I1 & I2 & I3 & I4).
      conj; intros t; rewrite ?Ht, ?Hc; [rewrite I1 | rewrite I2 | rewrite I3 | rewrite I4];
        first [lia | tauto | intuition lia].
    + cbv zeta.
      set (mt1 := if Z.of_nat (length (Tags m)) =? 0 then _ else _).
      set (tc1 := <[_ := _]> tc0).
      destruct (IH mt1 tc1) as (I1 & I2 & I3 & I4).
      assert (M1 : forall t, default 0 (mt1 !! t)
                   = default 0 (mt0 !! t) + tally (String.eqb t) (Tags m)
                     + (if String.eqb t "" then
                          (if Z.of_nat (length (Tags m)) =? 0 then 1 else 0) else 0)).
      { intros t. subst mt1. destruct (Z.of_nat (length (Tags m)) =? 0) eqn:E.
        - assert (Tags m = []) as -> by (destruct (Tags m); [reflexivity | discriminate]).
          rewrite tally_nil. destruct (String.eqb_spec t "") as [->|N].
          + rewrite lookup_insert_eq. cbn. lia.
          + rewrite lookup_insert_ne by congruence. lia.
        - rewrite (proj1 (countTags_lookup _ _ _)). destruct (String.eqb t ""); lia. }
      assert (M2 : forall t, is_Some (mt1 !! t)
                   <-> is_Some (mt0 !! t) \/ In t (Tags m)
                       \/ (t = "" /\ Z.of_nat (length (Tags m)) = 0)).
      { intros t. subst mt1. destruct (Z.eqb_spec (Z.of_nat (length (Tags m))) 0) as [E|E].
        - assert (Tags m = []) as -> by (destruct (Tags m); [reflexivity | discriminate]).
          destruct (String.eqb_spec t "") as [->|N].
          + rewrite lookup_insert_eq. cbn. split; [intros _; right; right; auto|].
            intros _. eexists; reflexivity.
          + rewrite lookup_insert_ne by congruence. cbn. intuition.
        - rewrite (proj2 (countTags_lookup _ _ _)). intuition. }
      assert (Hin : forall t, In t (Tags m) <-> 0 < tally (String.eqb t) (Tags m)).
      { intros t. rewrite tally_pos_In. split.
        - intros H. exists t. split; [exact H | apply String.eqb_refl].
        - intros (x & Hx & E). apply String.eqb_eq in E. subst x. exact Hx. }
      assert (T0 : forall t, 0 <= tagOccurrences fl t rest).
      { intros t. clear. induction rest as [|x r IHr]; cbn [tagOccurrences]; [lia|].
        destruct (passes fl x); [pose proof (tally_nonneg (String.eqb t) (Tags x))|]; lia. }
      conj; intros t; rewrite ?Ht, ?Hc.
      * rewrite I1, M1. destruct (String.eqb t ""); lia.
      * rewrite I2, M2, Hin.
        pose proof (tally_nonneg (String.eqb t) (Tags m)).
        pose proof (tally_nonneg (tagless fl) rest). pose proof (T0 t).
        destruct (Z.eqb_spec (Z.of_nat (length (Tags m))) 0); intuition lia.
      * rewrite I3. subst tc1.
        fold (combination m).
        destruct (String.eqb_spec (combination m) t) as [->|N].
        -- rewrite lookup_insert_eq. cbn. lia.
        -- rewrite lookup_insert_ne by congruence. lia.
      * rewrite I4. subst tc1. fold (combination m).
        pose proof (tally_nonneg (combined fl t) rest).
        destruct (String.eqb_spec (combination m) t) as [->|N].
        -- rewrite lookup_insert_eq.
           split; [intros _; right; lia | intros _; left; eexists; reflexivity].
        -- rewrite lookup_insert_ne by congruence. intuition lia.
Qed.


(** X18: in the table of tags that [analyzeTags] builds, the count of
    a tag is the number of its occurrences on the measurements that
    pass the filter; the measurements without tags are counted under
    the empty tag, and the row "<no-tags>", which is always present,
    counts only the occurrences of a tag spelled that way, so it stays
    at 0 however many measurements have no tag. *)
Theorem analyzeTags_tag_rows (fl : Flags) (ms : list Measurement) (t : string) :
  default 0 (fst (analyzeTags fl ms) !! t)
  = tagOccurrences fl t ms + (if String.eqb t "" then tally (tagless fl) ms else 0)
  /\ (is_Some (fst (analyzeTags fl ms) !! t)
      <-> t = "<no-tags>" \/ 0 < tagOccurrences fl t ms
          \/ (t = "" /\ 0 < tally (tagless fl) ms))
  /\ fst (analyzeTags fl ms) !! "<no-tags>" = Some (tagOccurrences fl "<no-tags>" ms).
Proof.
  unfold analyzeTags.
  destruct (tagsLoop_inv fl ms (<["<no-tags>" := 0]> ∅) ∅) as (V & S & _).
  assert (V0 : forall x, default 0 ((<["<no-tags>" := 0]> ∅ : gmap string Z) !! x) = 0).
  { intros x. destruct (String.eqb_spec "<no-tags>" x) as [<-|N].
    - rewrite lookup_insert_eq. reflexivity.
    - rewrite lookup_insert_ne by exact N. rewrite lookup_empty. reflexivity. }
  assert (S0 : forall x, is_Some ((<["<no-tags>" := 0]> ∅ : gmap string Z) !! x)
                         <-> x = "<no-tags>").
  { intros x. destruct (String.eqb_spec "<no-tags>" x) as [<-|N].
    - rewrite lookup_insert_eq. split; [reflexivity | intros _; eexists; reflexivity].
    - rewrite lookup_insert_ne by exact N. rewrite lookup_empty.
      split; [intros [? ?]; discriminate | congruence]. }
  conj.
  - rewrite V, V0. lia.
  - rewrite S, S0. reflexivity.
  - pose proof (V "<no-tags>") as Hv. rewrite V0 in Hv.
    change (String.eqb "<no-tags>" "") with false in Hv.
    assert (Hs : is_Some (fst (tagsLoop fl ms (<["<no-tags>" := 0]> ∅) ∅) !! "<no-tags>"))
      by (apply S; left; apply S0; reflexivity).
    destruct Hs as [n Hn]. rewrite Hn in Hv |- *. cbn in Hv. f_equal. lia.
Qed.

(** X19: in the table of tag combinations that [analyzeTags] builds,
    the count under a key is the number of measurements that pass the
    filter and whose tags, sorted and joined with commas, give that
    key; a key is present exactly when that number is positive; and two
    measurements that carry the same tags in a different order have the
    same key. *)
Theorem analyzeTags_combination_rows (fl : Flags) (ms : list Measurement) (k : string) :
  default 0 (snd (analyzeTags fl ms) !! k) = tally (combined fl k) ms
  /\ (is_Some (snd (analyzeTags fl ms) !! k) <-> 0 < tally (combined fl k) ms)
  /\ (forall m m', Permutation (Tags m) (Tags m') -> combination m = combination m').
Proof.
  unfold analyzeTags.
  destruct (tagsLoop_inv fl ms (<["<no-tags>" := 0]> ∅) ∅) as (_ & _ & V & S).
  conj.
  - rewrite V, lookup_empty. cbn. lia.
  - rewrite S, lookup_empty. split; [intros [[? ?]|H]; [discriminate | exact H] | auto].
  - intros m m' P. unfold combination. rewrite (Strings_canonical _ _ P). reflexivity.
Qed.

End Tags.

(** ** The grid of [analyzeHours] after [initHoursTable]: population, trimming, charts *)

Section HoursChart.
Import Common Analyze Spec Spec.

Lemma populateHours_cells fl ms : forall g g',
  populateHours fl ms g = (g', None) ->
  (forall d h, cellCount g' d h = cellCount g d h + tally (createdAt fl d h) ms)
  /\ (forall d, is_Some (g' !! d) <-> is_Some (g !! d)).
Proof.
  induction ms as [|m rest IH]; intros g g' H.
  - cbn in H. injection H as <-. split; [intros; rewrite tally_nil; lia | tauto].
  - cbn [populateHours] in H.
    assert (Hc : forall d h, tally (createdAt fl d h) (m :: rest)
                 = (if negb (measSkip fl m)
                       && String.eqb (GoTime.FormatDate (CreationTime m)) d
                       && String.eqb (GoTime.pad2 (GoTime.HourOf (CreationTime m))) h
                    then 1 else 0) + tally (createdAt fl d h) rest)
      by (intros d h; apply (tally_cons (createdAt fl d h))).
    destruct (measSkip fl m); cbn [negb andb] in Hc.
    + destruct (IH _ _ H) as [V S]. split; [|exact S].
      intros d h. rewrite V, Hc. lia.
    + destruct (g !! GoTime.FormatDate (CreationTime m)) as [bucket|] eqn:Hb;
        [|discriminate].
      destruct (IH _ _ H) as [V S]. split.
      * intros d h. rewrite V, Hc. unfold cellCount, cell.
        destruct (String.eqb_spec (GoTime.FormatDate (CreationTime m)) d) as [E|N].
        -- rewrite E in *. rewrite lookup_insert_eq, Hb.
           destruct (String.eqb_spec (GoTime.pad2 (GoTime.HourOf (CreationTime m))) h)
             as [E2|N2].
           ++ rewrite E2. rewrite lookup_insert_eq. cbn. lia.
           ++ rewrite lookup_insert_ne by exact N2. cbn. lia.
        -- rewrite lookup_insert_ne by exact N. cbn. lia.
      * intros d. rewrite S.
        destruct (String.eqb_spec (GoTime.FormatDate (CreationTime m)) d) as [E|N].
        -- rewrite E in *. rewrite lookup_insert_eq, Hb.
           split; intros _; eexists; reflexivity.
        -- rewrite lookup_insert_ne by exact N. reflexivity.
Qed.

Lemma populateHours_panic fl ms : forall g,
  snd (populateHours fl ms g) = None
  <-> forall m, In m ms -> measSkip fl m = false ->
        is_Some (g !! GoTime.FormatDate (CreationTime m)).
Proof.
  induction ms as [|m rest IH]; intros g.
  - cbn. split; [intros _ m [] | reflexivity].
  - cbn [populateHours]. destruct (measSkip fl m) eqn:Hs.
    + rewrite IH. split; intros H x Hx.
      * destruct Hx as [<-|Hx]; [congruence | apply H, Hx].
      * apply H. right. exact Hx.
    + destruct (g !! GoTime.FormatDate (CreationTime m)) as [bucket|] eqn:Hb.
      * rewrite IH. split; intros H x Hx Hsx.
        -- destruct Hx as [<-|Hx]; [rewrite Hb; eexists; reflexivity|].
           specialize (H x Hx Hsx).
           destruct (String.eqb_spec (GoTime.FormatDate (CreationTime m))
                       (GoTime.FormatDate (CreationTime x))) as [E|N].
           ++ rewrite <- E, Hb. eexists; reflexivity.
           ++ rewrite lookup_insert_ne in H by exact N. exact H.
        -- specialize (H x (or_intror Hx) Hsx).
           destruct (String.eqb_spec (GoTime.FormatDate (CreationTime m))
                       (GoTime.FormatDate (CreationTime x))) as [E|N].
           ++ rewrite <- E, lookup_insert_eq. eexists; reflexivity.
           ++ rewrite lookup_insert_ne by exact N. exact H.
      * cbn [snd]. split; [discriminate|]. intros H.
        destruct (H m (or_introl eq_refl) Hs) as [b Hb']. congruence.
Qed.

(** X20: the population loop of [analyzeHours] adds to each cell of
    the grid the number of measurements that pass the filter and were
    created on that date in that hour, whether or not the hour was in
    the grid before, and it keeps the dates of the grid; it panics
    exactly when such a measurement was created on a date that the grid
    does not hold. *)
Theorem populateHours_counts (fl : Flags) (ms : list Measurement)
    (g : gmap string (gmap string Z)) :
  (snd (populateHours fl ms g) = None
   <-> forall m, In m ms -> measSkip fl m = false ->
         is_Some (g !! GoTime.FormatDate (CreationTime m)))
  /\ (snd (populateHours fl ms g) = None ->
      (forall d h, cellCount (fst (populateHours fl ms g)) d h
                   = cellCount g d h + tally (createdAt fl d h) ms)
      /\ (forall d, is_Some (fst (populateHours fl ms g) !! d) <-> is_Some (g !! d))).
Proof.
  split; [apply populateHours_panic|].
  intros H. apply populateHours_cells.
  destruct (populateHours fl ms g) as [g' o]. cbn [snd] in H. subst o. reflexivity.
Qed.


(** *** The trimmed grid *)

Lemma insertSR_In a l x : In x (GoSort.insertSR a l) <-> x = a \/ In x l.
Proof.
  induction l as [|b l IH]; cbn [GoSort.insertSR].
  - cbn. intuition.
  - destruct (String.leb b a); cbn [In]; [intuition | rewrite IH; intuition].
Qed.

Lemma StringsReverse_In l x : In x (GoSort.StringsReverse l) <-> In x l.
Proof.
  induction l as [|a l IH]; cbn [GoSort.StringsReverse]; [reflexivity|].
  rewrite insertSR_In, IH. cbn. intuition.
Qed.

Lemma insertSR_NoDup a l : ~ In a l -> NoDup l -> NoDup (GoSort.insertSR a l).
Proof.
  induction l as [|b l IH]; intros Ha Hl; cbn [GoSort.insertSR].
  - constructor; [intros Hx; inversion Hx | constructor].
  - destruct (String.leb b a).
    + constructor; [rewrite <- list_elem_of_In in Ha; exact Ha | exact Hl].
    + apply NoDup_cons in Hl as [Hb Hl]. constructor.
      * rewrite list_elem_of_In, insertSR_In. intros [->|Hx].
        -- apply Ha. left. reflexivity.
        -- apply Hb, list_elem_of_In, Hx.
      * apply IH; [intros Hx; apply Ha; right; exact Hx | exact Hl].
Qed.

Lemma StringsReverse_NoDup l : NoDup l -> NoDup (GoSort.StringsReverse l).
Proof.
  induction l as [|a l IH]; intros H; cbn [GoSort.StringsReverse]; [constructor|].
  apply NoDup_cons in H as [Ha Hl].
  apply insertSR_NoDup; [|apply IH, Hl].
  rewrite StringsReverse_In. intros Hx. apply Ha, list_elem_of_In, Hx.
Qed.

Lemma sortedDatesOf_In g d : In d (sortedDatesOf g) <-> is_Some (g !! d).
Proof. unfold sortedDatesOf. rewrite StringsReverse_In. apply keys_In. Qed.

Lemma sortedDatesOf_NoDup g : NoDup (sortedDatesOf g).
Proof.
  unfold sortedDatesOf. apply StringsReverse_NoDup.
  rewrite <- fmap_fst_map. apply NoDup_fst_map_to_list.
Qed.

(** The loop over the hours that fills the bucket of one date. *)
Lemma copyLoop_lookup (g : gmap string (gmap string Z)) date hs :
  forall (mph : gmap string (gmap string Z)) b0,
  mph !! date = Some b0 ->
  exists b,
    fold_left (fun m hour =>
                 <[date := <[hour := default 0 (cell g date hour)]>
                             (default ∅ (m !! date))]> m) hs mph !! date = Some b
    /\ (forall h, In h hs -> b !! h = Some (cellCount g date h))
    /\ (forall h, ~ In h hs -> b !! h = b0 !! h)
    /\ (forall d, d <> date ->
          fold_left (fun m hour =>
                       <[date := <[hour := default 0 (cell g date hour)]>
                                   (default ∅ (m !! date))]> m) hs mph !! d = mph !! d).
Proof.
  induction hs as [|hour hs IH]; intros mph b0 Hb; cbn [fold_left].
  - exists b0. conj; auto. intros h [].
  - destruct (IH (<[date := <[hour := default 0 (cell g date hour)]>
                              (default ∅ (mph !! date))]> mph)
                 (<[hour := default 0 (cell g date hour)]> b0))
      as (b & E & Hin & Hout & Hd).
    { rewrite lookup_insert_eq, Hb. reflexivity. }
    exists b. conj.
    + exact E.
    + intros h [<-|Hh].
      * destruct (in_dec String.string_dec hour hs) as [Hi|Hi]; [apply Hin, Hi|].
        rewrite (Hout _ Hi), lookup_insert_eq. reflexivity.
      * apply Hin, Hh.
    + intros h Hh. rewrite Hout by (intros Hx; apply Hh; right; exact Hx).
      apply lookup_insert_ne. intros ->. apply Hh. left. reflexivity.
    + intros d Hne. rewrite (Hd d Hne). apply lookup_insert_ne. congruence.
Qed.

Lemma copyHours_lookup g date mph :
  (exists b, copyHours g date mph !! date = Some b /\ denseBucket g date b)
  /\ (forall d, d <> date -> copyHours g date mph !! d = mph !! d).
Proof.
  unfold copyHours.
  destruct (copyLoop_lookup g date hours (<[date := ∅]> mph) ∅)
    as (b & E & Hin & Hout & Hd); [apply lookup_insert_eq|].
  split.
  - exists b. split; [exact E|]. split; [exact Hin|].
    intros h Hs. destruct (in_dec String.string_dec h hours) as [Hi|Hi]; [exact Hi|].
    rewrite (Hout _ Hi), lookup_empty in Hs. destruct Hs; discriminate.
  - intros d Hne. rewrite (Hd d Hne). apply lookup_insert_ne. congruence.
Qed.

Lemma trimLoop_spec g firstDate sortedDates : forall mph,
  (forall d, In d sortedDates -> is_Some (g !! d)) ->
  denseGrid g mph ->
  denseGrid g (trimLoop g firstDate sortedDates mph)
  /\ (forall d, is_Some (trimLoop g firstDate sortedDates mph !! d)
                <-> is_Some (mph !! d) \/ In d (upTo firstDate sortedDates)).
Proof.
  induction sortedDates as [|date rest IH]; intros mph Hg Hd; cbn [trimLoop upTo].
  - split; [exact Hd | cbn; tauto].
  - destruct (copyHours_lookup g date mph) as ((b & Eb & Db) & Ho).
    assert (Hd1 : denseGrid g (copyHours g date mph)).
    { intros d bucket Hb. destruct (String.eqb_spec d date) as [->|N].
      - rewrite Eb in Hb. injection Hb as <-. split; [exact Db|].
        apply Hg. left. reflexivity.
      - rewrite (Ho d N) in Hb. apply (Hd _ _ Hb). }
    assert (Hs1 : forall d, is_Some (copyHours g date mph !! d)
                            <-> is_Some (mph !! d) \/ d = date).
    { intros d. destruct (String.eqb_spec d date) as [->|N].
      - rewrite Eb. split; [auto | intros _; eexists; reflexivity].
      - rewrite (Ho d N). intuition. }
    cbv zeta. destruct (String.eqb date firstDate).
    + split; [exact Hd1|]. intros d. rewrite Hs1. cbn [In]. intuition.
    + destruct (IH (copyHours g date mph)) as [D S];
        [intros d Hin; apply Hg; right; exact Hin | exact Hd1|].
      split; [exact D|]. intros d. rewrite S, Hs1. cbn [In]. intuition.
Qed.

Lemma scan_positive g sd : forall acc,
  (exists d, In d sd /\ anyPositive g d = true) ->
  In (fold_left (fun firstDate date => if anyPositive g date then date else firstDate)
        sd acc) sd.
Proof.
  induction sd as [|x rest IH]; intros acc (d & Hin & Hp); [destruct Hin|].
  cbn [fold_left].
  destruct (existsb (anyPositive g) rest) eqn:E.
  - apply existsb_exists in E as (d' & Hd' & Hp'). right. apply IH. exists d'. auto.
  - assert (Hrest : forall acc', fold_left (fun firstDate date =>
                       if anyPositive g date then date else firstDate) rest acc' = acc').
    { clear -E. induction rest as [|y r IHr]; intros acc'; [reflexivity|].
      cbn [existsb] in E. apply orb_false_iff in E as [Ey Er].
      cbn [fold_left]. rewrite Ey. apply IHr, Er. }
    rewrite Hrest. destruct Hin as [<-|Hin].
    + rewrite Hp. left. reflexivity.
    + exfalso. assert (existsb (anyPositive g) rest = true)
        by (apply existsb_exists; exists d; auto). congruence.
Qed.

Lemma scan_upTo g sd : forall acc d,
  NoDup sd -> In d sd -> anyPositive g d = true ->
  In d (upTo (fold_left (fun firstDate date =>
                           if anyPositive g date then date else firstDate) sd acc) sd).
Proof.
  induction sd as [|x rest IH]; intros acc d Hn Hin Hp; [destruct Hin|].
  apply NoDup_cons in Hn as [Hx Hn]. cbn [fold_left upTo].
  destruct Hin as [<-|Hin]; [left; reflexivity|]. right.
  set (acc' := if anyPositive g x then x else acc).
  assert (Hf : In (fold_left (fun firstDate date =>
                      if anyPositive g date then date else firstDate) rest acc') rest)
    by (apply scan_positive; exists d; auto).
  destruct (String.eqb_spec x (fold_left (fun firstDate date =>
                      if anyPositive g date then date else firstDate) rest acc')) as [E|N].
  - exfalso. apply Hx, list_elem_of_In. rewrite E. exact Hf.
  - apply IH; assumption.
Qed.

Lemma trimHours_spec g :
  denseGrid g (trimHours g)
  /\ (forall d, anyPositive g d = true -> is_Some (g !! d) -> is_Some (trimHours g !! d))
  /\ (forall d, is_Some (g !! d) -> trimHours g !! d = None -> anyPositive g d = false).
Proof.
  unfold trimHours. cbv zeta.
  destruct (trimLoop_spec g (scanFirstDate g (sortedDatesOf g)) (sortedDatesOf g) ∅)
    as [D S].
  { intros d Hd. apply sortedDatesOf_In, Hd. }
  { intros d b Hb. rewrite lookup_empty in Hb. discriminate. }
  assert (K : forall d, anyPositive g d = true -> is_Some (g !! d) ->
                is_Some (trimLoop g (scanFirstDate g (sortedDatesOf g))
                           (sortedDatesOf g) ∅ !! d)).
  { intros d Hp Hd. apply S. right. unfold scanFirstDate.
    apply scan_upTo; [apply sortedDatesOf_NoDup | apply sortedDatesOf_In, Hd | exact Hp]. }
  conj; [exact D | exact K|].
  intros d Hd Hn. destruct (anyPositive g d) eqn:Hp; [|reflexivity].
  destruct (K d Hp Hd) as [b Hb]. congruence.
Qed.

(** X21: the trimmed grid that [analyzeHours] hands to the charts is
    dense, however sparse the untrimmed grid is: each of its dates is a
    date of the untrimmed grid and holds exactly the 24 hours, each with
    the count of the untrimmed grid, 0 where that has none; and no
    measurement is lost, every date with a positive count is kept. *)
Theorem trimHours_dense_and_complete (g : gmap string (gmap string Z)) :
  (forall date bucket, trimHours g !! date = Some bucket ->
     (forall hour, In hour hours -> bucket !! hour = Some (cellCount g date hour))
     /\ (forall hour, is_Some (bucket !! hour) -> In hour hours)
     /\ is_Some (g !! date))
  /\ (forall date hour n, cell g date hour = Some n -> In hour hours -> 0 < n ->
        is_Some (trimHours g !! date)).
Proof.
  destruct (trimHours_spec g) as (D & K & _). split.
  - intros date bucket Hb. destruct (D _ _ Hb) as [[H1 H2] H3]. auto.
  - intros date hour n Hc Hh Hn. apply K.
    + unfold anyPositive. apply existsb_exists. exists hour. split; [exact Hh|].
      rewrite Hc. apply Z.ltb_lt, Hn.
    + unfold cell in Hc. destruct (g !! date); [eexists; reflexivity | discriminate].
Qed.


(** *** The charts *)

Lemma existsb_ext_in {A} (f g : A -> bool) l :
  (forall x, In x l -> f x = g x) -> existsb f l = existsb g l.
Proof.
  induction l as [|x l IH]; intros H; [reflexivity|]. cbn [existsb].
  rewrite (H x (or_introl eq_refl)), IH; [reflexivity|].
  intros y Hy. apply H. right. exact Hy.
Qed.

Lemma flat_map_ext_in' {A B} (f g : A -> list B) l :
  (forall x, In x l -> f x = g x) -> flat_map f l = flat_map g l.
Proof.
  induction l as [|x l IH]; intros H; [reflexivity|]. cbn [flat_map].
  rewrite (H x (or_introl eq_refl)), IH; [reflexivity|].
  intros y Hy. apply H. right. exact Hy.
Qed.

Lemma anyPositive_false g d :
  anyPositive g d = false ->
  forall h n, In h hours -> cell g d h = Some n -> n <= 0.
Proof.
  unfold anyPositive. intros H h n Hh Hc.
  destruct (Z.ltb_spec 0 n) as [Hn|Hn]; [|exact Hn].
  assert (existsb (fun hour => match cell g d hour with
                               | Some number => 0 <? number
                               | None => false
                               end) hours = true).
  { apply existsb_exists. exists h. split; [exact Hh|]. rewrite Hc. apply Z.ltb_lt, Hn. }
  congruence.
Qed.

(** On every date of the untrimmed grid the trimmed grid shows the
    same cells. *)
Lemma trimHours_cells g d h :
  nonNegative g -> is_Some (g !! d) -> In h hours ->
  match cell (trimHours g) d h with
  | Some number => if number =? 0 then None else Some number
  | None => None
  end
  = match cell g d h with
    | Some number => if number =? 0 then None else Some number
    | None => None
    end.
Proof.
  intros Hn Hd Hh. destruct (trimHours_spec g) as (D & _ & K).
  unfold cell at 1. destruct (trimHours g !! d) as [bucket|] eqn:Hb.
  - destruct (D _ _ Hb) as [[H1 _] _]. rewrite (H1 h Hh). unfold cellCount.
    destruct (cell g d h) as [n|]; reflexivity.
  - pose proof (anyPositive_false g d (K d Hd Hb) h) as Hz.
    destruct (cell g d h) as [n|] eqn:Hc; [|reflexivity].
    specialize (Hz n Hh eq_refl). pose proof (Hn d h n Hc).
    assert (n = 0) as -> by lia. reflexivity.
Qed.

Lemma trimHours_anyRun g d :
  nonNegative g -> is_Some (g !! d) -> anyRun (trimHours g) d = anyRun g d.
Proof.
  intros Hn Hd. unfold anyRun. apply existsb_ext_in. intros h Hh.
  pose proof (trimHours_cells g d h Hn Hd Hh) as E.
  destruct (cell (trimHours g) d h) as [a|]; destruct (cell g d h) as [b|];
    try reflexivity.
  - destruct (Z.eqb_spec a 0); destruct (Z.eqb_spec b 0); try reflexivity; congruence.
  - destruct (a =? 0); [reflexivity | discriminate].
  - destruct (b =? 0); [reflexivity | discriminate].
Qed.

Lemma trimHours_chartRow g d :
  nonNegative g -> is_Some (g !! d) -> chartRow (trimHours g) d = chartRow g d.
Proof.
  intros Hn Hd. unfold chartRow. f_equal. apply map_ext_in. intros h Hh.
  apply trimHours_cells; assumption.
Qed.

(** X22: the text chart of [analyzeHours] is the text chart of the
    untrimmed grid: trimming changes no row (counts are never
    negative), so under [--verbose] the days before the first
    measurement are shown too; without [--verbose] a row is printed
    only for a date on which some hour has a measurement. *)
Theorem analyzeHoursText_rows (fl : Flags) (g : gmap string (gmap string Z)) :
  nonNegative g ->
  analyzeHoursText fl g = textChart fl g (sortedDatesOf g)
  /\ (fVerbose fl = false ->
      forall date cells, In (ChartRow date cells) (analyzeHoursText fl g) ->
        exists hour n, In hour hours /\ cell g date hour = Some n /\ 0 < n).
Proof.
  intros Hn.
  assert (E : analyzeHoursText fl g = textChart fl g (sortedDatesOf g)).
  { unfold analyzeHoursText, textChart. f_equal.
    apply flat_map_ext_in'. intros d Hd. apply sortedDatesOf_In in Hd.
    rewrite trimHours_anyRun, trimHours_chartRow by assumption. reflexivity. }
  split; [exact E|].
  intros Hv date cells Hin. rewrite E in Hin. unfold textChart in Hin.
  destruct Hin as [Hin|Hin]; [discriminate|].
  apply in_flat_map in Hin as (d & Hd & Hin). rewrite Hv in Hin. cbn [negb andb] in Hin.
  destruct (anyRun g d) eqn:Hr; cbn [negb] in Hin; [|destruct Hin].
  destruct Hin as [Hin|[]]. unfold chartRow in Hin. injection Hin as <- _.
  unfold anyRun in Hr. apply existsb_exists in Hr as (hour & Hh & Hc).
  destruct (cell g d hour) as [n|] eqn:Hcell; [|discriminate].
  exists hour, n. conj; [exact Hh | exact Hcell|].
  pose proof (Hn d hour n Hcell). apply negb_true_iff, Z.eqb_neq in Hc. lia.
Qed.

Lemma hours_formatted :
  Forall (fun h => In (GoTime.pad2 (Z.of_nat h)) hours) (seq 0 24).
Proof.
  apply List.Forall_forall. intros h Hh. cbn [seq In] in Hh.
  repeat (destruct Hh as [<-|Hh]; [vm_compute; tauto|]). destruct Hh.
Qed.

Lemma xyHours_dense mph date d bucket hs : forall xy,
  mph !! date = Some bucket ->
  (forall h, In h hours -> is_Some (bucket !! h)) ->
  Forall (fun h => In (GoTime.pad2 (Z.of_nat h)) hours) hs ->
  snd (xyHours mph date d hs xy) = None.
Proof.
  induction hs as [|h rest IH]; intros xy Hb Hd Hs; [reflexivity|].
  inversion Hs as [|? ? Hh Hr]; subst. cbn [xyHours]. cbv zeta.
  unfold cell at 1. rewrite Hb.
  destruct (Hd _ Hh) as [n ->].
  destruct (negb (anyRun mph date)); apply IH; assumption.
Qed.

Lemma xyDates_dense g dates : forall xy,
  (forall d, In d dates -> is_Some (trimHours g !! d)) ->
  (snd (xyDates (trimHours g) dates xy) = None
   <-> forall d, In d dates -> GoTime.ParseDate d <> None)
  /\ snd (xyDates (trimHours g) dates xy) <> Some (Panic "corrupted measPerHour map").
Proof.
  destruct (trimHours_spec g) as (D & _ & _).
  induction dates as [|date rest IH]; intros xy Hk; cbn [xyDates].
  - split; [split; [intros _ d [] | reflexivity] | discriminate].
  - destruct (GoTime.ParseDate date) as [d|] eqn:Hp.
    2:{ split; [|discriminate]. split; [discriminate|].
        intros H. exfalso. apply (H date (or_introl eq_refl)), Hp. }
    destruct (Hk date (or_introl eq_refl)) as [bucket Hb]. rewrite Hb.
    destruct (D _ _ Hb) as [[H1 _] _].
    pose proof (xyHours_dense (trimHours g) date d bucket (seq 0 24) xy Hb
                  ltac:(intros h Hh; rewrite (H1 h Hh); eexists; reflexivity)
                  hours_formatted) as Hx.
    destruct (xyHours (trimHours g) date d (seq 0 24) xy) as [xy' o]. cbn [snd] in Hx.
    subst o.
    destruct (IH xy') as [I1 I2]; [intros x Hx'; apply Hk; right; exact Hx'|].
    split; [|exact I2]. rewrite I1. split.
    + intros H x [<-|Hx']; [congruence | apply H, Hx'].
    + intros H x Hx'. apply H. right. exact Hx'.
Qed.

(** X23: [initXY] never meets its "corrupted measPerHour map" panic on
    the trimmed grid of [analyzeHours], whatever the untrimmed grid
    holds: every date of the trimmed grid has all 24 hours.  It returns
    its points exactly when every date of the grid parses as a date. *)
Theorem initXY_not_corrupted (g : gmap string (gmap string Z)) :
  snd (initXY (trimHours g)) <> Some (Panic "corrupted measPerHour map")
  /\ (snd (initXY (trimHours g)) = None
      <-> forall date, is_Some (trimHours g !! date) -> GoTime.ParseDate date <> None).
Proof.
  unfold initXY.
  destruct (xyDates_dense g (map fst (map_to_list (trimHours g))) [])
    as [H1 H2]; [intros d Hd; apply keys_In, Hd|].
  split; [exact H2|]. rewrite H1. split.
  - intros H date Hd. apply H, keys_In, Hd.
  - intros H d Hd. apply H, keys_In, Hd.
Qed.


Lemma analyzeHoursText_rows_witness :
  analyzeHoursText defaultFlags Scenario.oneDayGrid
  = textChart defaultFlags Scenario.oneDayGrid (sortedDatesOf Scenario.oneDayGrid).
Proof.
  apply (analyzeHoursText_rows defaultFlags Scenario.oneDayGrid).
  intros d h n H. unfold cell, Scenario.oneDayGrid in H.
  destruct (String.eqb_spec "2024-03-01" d) as [<-|N];
    [rewrite lookup_singleton_eq in H
    | rewrite lookup_singleton_ne in H by exact N; discriminate].
  destruct (String.eqb_spec "10" h) as [<-|N];
    [rewrite lookup_singleton_eq in H; injection H as <-; lia
    | rewrite lookup_singleton_ne in H by exact N; discriminate].
Defined.

End HoursChart.

(** ** The two date layouts, and the lines of [list] *)

Section Layouts.
Import Common Analyze Spec Spec.

Lemma CustomTimeSet_ten y1 y2 y3 y4 s1 m1 m2 s2 d1 d2 :
  CustomTimeSet
    (String y1 (String y2 (String y3 (String y4 (String s1
       (String m1 (String m2 (String s2 (String d1 (String d2 "")))))))))) = None.
Proof.
  unfold CustomTimeSet. cbn [GoTime.getyear].
  destruct (forallb GoTime.isDigit [y1; y2; y3; y4]); [|reflexivity].
  cbn [mbind option_bind GoTime.skipByte].
  destruct (Ascii.eqb s1 "-"); [|reflexivity].
  cbn [mbind option_bind GoTime.getnum].
  destruct (GoTime.isDigit m1); [|reflexivity].
  destruct (GoTime.isDigit m2); [|reflexivity].
  cbn [mbind option_bind GoTime.skipByte].
  destruct (Ascii.eqb s2 "-"); [|reflexivity].
  cbn [mbind option_bind GoTime.getnum].
  destruct (GoTime.isDigit d1); [|reflexivity].
  destruct (GoTime.isDigit d2); reflexivity.
Qed.

(** X24: no value is accepted both by [CustomTime.Set] and by the
    layout "2006-01-02": a value that the date layout accepts ends
    where [Set] requires the "T".  So the constants of package
    [analyze], which its [init] hands to [Set] successfully, cannot
    parse in [initHoursTable] and [analyzeTables]; and the constants of
    package [list] are dates, so its [init] fails in [Set] and is
    fatal. *)
Theorem Set_layout_excludes_date_layout :
  (forall value, GoTime.ParseDate value <> None -> CustomTimeSet value = None)
  /\ CustomTimeSet Analyze.FirstMeasurementDate = Some (GoTime.Date 2020 1 1 0 0 0)
  /\ CustomTimeSet Analyze.LastMeasurementDate = Some (GoTime.Date 2040 1 1 0 0 0)
  /\ GoTime.ParseDate Analyze.FirstMeasurementDate = None
  /\ GoTime.ParseDate Analyze.LastMeasurementDate = None
  /\ ListCmd.init = Some (FatalError "parsing time").
Proof.
  conj; try reflexivity.
  intros value H. unfold GoTime.ParseDate in H.
  destruct value as [|y1 [|y2 [|y3 [|y4 [|s1 [|m1 [|m2 [|s2 [|d1 [|d2 rest]]]]]]]]]];
    try congruence.
  destruct rest as [|c rest]; [apply CustomTimeSet_ten|].
  exfalso. apply H.
  destruct (_ && _); [|reflexivity]. cbv zeta.
  destruct (_ && _); reflexivity.
Qed.


(** *** The lines of [list] *)

Lemma abbrState_known st ab : abbrState !! st = Some ab -> knownState st.
Proof.
  intros H. apply knownState_dec.
  destruct (String.eqb_spec st "agent_failure") as [->|N1]; [reflexivity|].
  destruct (String.eqb_spec st "canceled") as [->|N2]; [reflexivity|].
  destruct (String.eqb_spec st "finished") as [->|N3]; [reflexivity|].
  destruct (String.eqb_spec st "ongoing") as [->|N4]; [reflexivity|].
  exfalso. unfold abbrState in H. cbn [list_to_map foldr uncurry fst snd] in H.
  rewrite !lookup_insert_ne, lookup_empty in H by congruence. discriminate.
Qed.

Lemma lineUUIDs_app out out' : lineUUIDs (out ++ out')%list = (lineUUIDs out ++ lineUUIDs out')%list.
Proof. unfold lineUUIDs. apply flat_map_app. Qed.

Lemma listLoop_lines fl details ms : forall out,
  ListCmd.fListBQFormat fl = false ->
  (snd (ListCmd.listLoop fl details ms out) = None
   <-> ListCmd.fBrief fl = true
       \/ forall m, In m ms -> listPasses fl m = true -> knownState (State m))
  /\ (snd (ListCmd.listLoop fl details ms out) = None ->
      lineUUIDs (fst (ListCmd.listLoop fl details ms out))
      = (lineUUIDs out ++ map UUID (List.filter (listPasses fl) ms))%list)
  /\ (forall e, snd (ListCmd.listLoop fl details ms out) = Some e ->
        e = Panic "internal error: invalid measurement state").
Proof.
  intros out Hbq. revert out.
  induction ms as [|m rest IH]; intros out.
  - cbn. rewrite app_nil_r. conj; [split; [intros _; right; intros m [] | reflexivity]
                                  | reflexivity | discriminate].
  - cbn [ListCmd.listLoop List.filter]. unfold listPasses at 2 3.
    destruct (ListCmd.measSkip fl m) eqn:Hs; cbn [negb].
    + destruct (IH out) as (I1 & I2 & I3). conj; [|exact I2 | exact I3].
      rewrite I1. split; (intros [Hb|H]; [left; exact Hb | right]).
      * intros x [<-|Hx] Hp; [unfold listPasses in Hp; rewrite Hs in Hp; discriminate|].
        apply H; assumption.
      * intros x Hx. apply H. right. exact Hx.
    + rewrite Hbq. unfold ListCmd.printMeasDetails. cbv zeta.
      destruct (ListCmd.fBrief fl) eqn:Hb.
      * destruct (IH ((out ++ [ListCmd.LineUUID (UUID m)]) ++ [ListCmd.LineEnd])%list)
          as (I1 & I2 & I3).
        conj; [|intros H; rewrite (I2 H) | exact I3].
        -- rewrite I1. split; intros _; left; reflexivity.
        -- rewrite !lineUUIDs_app. cbn. rewrite app_nil_r, <- app_assoc. reflexivity.
      * destruct (abbrState !! State m) as [ab|] eqn:Hab.
        -- destruct (IH ((out ++ [ListCmd.LineUUID (UUID m)])
                           ++ [ListCmd.LineDetails m ab])%list) as (I1 & I2 & I3).
           conj; [|intros H; rewrite (I2 H) | exact I3].
           ++ rewrite I1. split; (intros [Hx|H]; [discriminate | right]).
              ** intros x [<-|Hx] Hp; [eapply abbrState_known, Hab | apply H; assumption].
              ** intros x Hx. apply H. right. exact Hx.
           ++ rewrite !lineUUIDs_app. cbn. rewrite app_nil_r, <- app_assoc. reflexivity.
        -- cbn [fst snd]. conj; [|discriminate | intros e [= <-]; reflexivity].
           split; [discriminate|]. intros [Hx|H]; [discriminate|]. exfalso.
           destruct (knownState_abbr (State m)) as [ab Hab'];
             [apply H; [left; reflexivity | unfold listPasses; rewrite Hs; reflexivity]|].
           congruence.
Qed.

(** X25: without [--bq] and [--uuid], [list] prints one line per
    measurement that passes the filter, in the order of the input, each
    starting with the measurement's UUID.  It runs to its end exactly
    when [--brief] is set or every such measurement is in a known
    state, and otherwise stops in the panic of [printMeasDetails]; a
    non-empty [--state] filter that [validateFlags] has accepted rules
    the panic out. *)
Theorem list_prints_passing_measurements (fl : ListCmd.Flags)
    (details : string -> string + Measurement) (ms : list Measurement) :
  ListCmd.fListBQFormat fl = false ->
  (snd (ListCmd.listLoop fl details ms []) = None
   <-> ListCmd.fBrief fl = true
       \/ forall m, In m ms -> listPasses fl m = true -> knownState (State m))
  /\ (snd (ListCmd.listLoop fl details ms []) = None ->
      lineUUIDs (fst (ListCmd.listLoop fl details ms []))
      = map UUID (List.filter (listPasses fl) ms))
  /\ (forall e, snd (ListCmd.listLoop fl details ms []) = Some e ->
        e = Panic "internal error: invalid measurement state")
  /\ (ListCmd.fListState fl <> [] -> ListCmd.validateFlags fl = None ->
      snd (ListCmd.listLoop fl details ms []) = None).
Proof.
  intros Hbq. destruct (listLoop_lines fl details ms [] Hbq) as (I1 & I2 & I3).
  conj; [exact I1 | exact I2 | exact I3|].
  intros Hne Hv. apply I1. right. intros m _ Hp.
  assert (Hk : Forall knownState (ListCmd.fListState fl)).
  { unfold ListCmd.validateFlags in Hv.
    destruct (0 <? Z.of_nat (length (ListCmd.fListState fl))) eqn:E.
    - apply ValidateState_known.
      destruct (ValidateState (ListCmd.fListState fl)) as [s0 [e|]];
        [discriminate | reflexivity].
    - apply length_pos_nonnil in E. contradiction. }
  unfold listPasses, ListCmd.measSkip in Hp.
  destruct ((0 <? _) && negb (MatchTag _ _ _)); [discriminate|].
  destruct (0 <? Z.of_nat (length (ListCmd.fListState fl))) eqn:E.
  - destruct (MatchState (State m) (ListCmd.fListState fl)) eqn:Hm; [|discriminate].
    apply MatchState_In in Hm. rewrite List.Forall_forall in Hk. apply Hk, Hm.
  - apply length_pos_nonnil in E. contradiction.
Qed.


Lemma list_prints_passing_measurements_witness :
  lineUUIDs (fst (ListCmd.listLoop Scenario.listFlags Scenario.noDetails
                    Scenario.smallRun []))
  = ["m-1"; "m-2"].
Proof.
  apply (list_prints_passing_measurements Scenario.listFlags Scenario.noDetails
           Scenario.smallRun).
  - reflexivity.
  - vm_compute. reflexivity.
Defined.

End Layouts.

(** ** Table names: parsing inverts the naming *)

Section RoundTrip.
Import Common Analyze Spec GoStrings.

Lemma ReplaceAll_byte c d s :
  ReplaceAll s (String c "") (String d "") = swapByte c d s.
Proof.
  unfold ReplaceAll. induction s as [|x s IH]; [reflexivity|].
  cbn [replaceAllFrom HasPrefix swapByte String.length Nat.sub].
  rewrite Ascii.eqb_sym. destruct (Ascii.eqb x c).
  - destruct s; cbn [HasPrefix]; rewrite append_cons, append_nil, IH; reflexivity.
  - rewrite IH. reflexivity.
Qed.

Lemma swapByte_back c d s : lacks d s = true -> swapByte d c (swapByte c d s) = s.
Proof.
  induction s as [|x s IH]; intros H; [reflexivity|]. cbn [lacks] in H.
  apply andb_true_iff in H as [Hx Hs]. apply negb_true_iff in Hx.
  cbn [swapByte]. rewrite (IH Hs). f_equal.
  destruct (Ascii.eqb_spec x c) as [->|N].
  - rewrite Ascii.eqb_refl. reflexivity.
  - rewrite Hx. reflexivity.
Qed.

Lemma length_swapByte c d s : String.length (swapByte c d s) = String.length s.
Proof. induction s as [|x s IH]; [reflexivity | cbn; rewrite IH; reflexivity]. Qed.

Lemma lacks_spaced c s : lacks c s = true -> spaced c s = true.
Proof.
  induction s as [|x s IH]; intros H; [reflexivity|]. cbn [lacks] in H.
  apply andb_true_iff in H as [Hx Hs]. apply negb_true_iff in Hx.
  cbn [spaced]. rewrite Hx, (IH Hs). reflexivity.
Qed.

Lemma spaced_swap c d s :
  lacks d s = true -> spaced c s = true -> spaced d (swapByte c d s) = true.
Proof.
  induction s as [|x s IH]; intros Hl Hs; [reflexivity|].
  cbn [lacks] in Hl. apply andb_true_iff in Hl as [Hx Hl].
  apply negb_true_iff in Hx.
  cbn [spaced] in Hs. apply andb_true_iff in Hs as [Hh Hs].
  cbn [swapByte spaced]. rewrite (IH Hl Hs), andb_true_r.
  destruct (Ascii.eqb x c) eqn:Exc.
  - destruct s as [|y s]; [discriminate|]. cbn [swapByte].
    cbn [lacks] in Hl. apply andb_true_iff in Hl as [Hy _].
    apply negb_true_iff in Hy. apply negb_true_iff in Hh.
    rewrite Ascii.eqb_refl, Hh, Hy. reflexivity.
  - rewrite Hx. reflexivity.
Qed.

(** The first "__" after a text in which every underscore is followed
    by another byte is the one that follows the text. *)
Lemma IndexFrom_delimiter a b : forall i,
  spaced "_" a = true ->
  IndexFrom i (a ++ "__" ++ b) "__" = i + Z.of_nat (String.length a).
Proof.
  induction a as [|x a IH]; intros i Hs.
  - rewrite append_nil, !append_cons, append_nil.
    cbn [IndexFrom HasPrefix]. rewrite !Ascii.eqb_refl. cbn [String.length]. lia.
  - cbn [spaced] in Hs. apply andb_true_iff in Hs as [Hh Hs].
    rewrite append_cons. cbn [IndexFrom HasPrefix].
    assert (E : (if Ascii.eqb "_" x
                 then match a ++ "__" ++ b with
                      | EmptyString => false
                      | String b0 _ => if Ascii.eqb "_" b0 then true else false
                      end
                 else false) = false).
    { rewrite Ascii.eqb_sym. destruct (Ascii.eqb x "_"); [|reflexivity].
      destruct a as [|y a]; [discriminate|].
      rewrite append_cons. rewrite Ascii.eqb_sym.
      apply negb_true_iff in Hh. rewrite Hh. reflexivity. }
    rewrite E, (IH (i + 1) Hs). cbn [String.length]. lia.
Qed.

Lemma Contains_middle a x b : Contains (a ++ x ++ b) x = true.
Proof.
  unfold Contains, Index.
  destruct (IndexFrom_spec x (a ++ x ++ b) 0) as [[_ H]|(a' & b' & _ & -> & _)].
  - exfalso. apply (H a b). reflexivity.
  - apply Z.leb_le. lia.
Qed.

(** X26: parsing is the inverse of the naming of the tables: for a
    kind and two UUIDs without underscores, the measurement UUID having
    no two hyphens in a row and none at its end, [parseMeasAgentUUIDs]
    gives back the measurement UUID from the table name, the agent part
    translates back to the agent UUID, so [printTableDetails] looks up
    the host of that agent; and the name contains the text that
    [getOneMeasTables] searches for. *)
Theorem tableName_round_trip (kind uuid agent : string) (dir : gmap string string) :
  lacks "_" kind = true -> lacks "_" uuid = true -> spaced "-" uuid = true ->
  lacks "_" agent = true ->
  parseMeasAgentUUIDs (tableName kind uuid agent)
  = (uuid, ReplaceAll agent "-" "_", None)
  /\ ReplaceAll (ReplaceAll agent "-" "_") "_" "-" = agent
  /\ hostOf dir (tableName kind uuid agent) = Agents.GetAgentName dir agent
  /\ Contains (tableName kind uuid agent) (ReplaceAll uuid "-" "_") = true.
Proof.
  intros Hk Hu Hs Ha.
  assert (Hback : ReplaceAll (ReplaceAll agent "-" "_") "_" "-" = agent)
    by (rewrite !ReplaceAll_byte; apply swapByte_back, Ha).
  assert (Hparse : parseMeasAgentUUIDs (tableName kind uuid agent)
                   = (uuid, ReplaceAll agent "-" "_", None)).
  { unfold parseMeasAgentUUIDs, tableName, Index.
    set (X := ReplaceAll uuid "-" "_"). set (Y := ReplaceAll agent "-" "_").
    rewrite (IndexFrom_delimiter kind (X ++ "__" ++ Y) 0 (lacks_spaced _ _ Hk)).
    destruct (Z.eqb_spec (0 + Z.of_nat (String.length kind)) (-1)) as [E|_]; [lia|].
    cbv zeta.
    assert (Hdrop : sliceFrom (kind ++ "__" ++ X ++ "__" ++ Y)
                      (0 + Z.of_nat (String.length kind) + 2)
                    = X ++ "__" ++ Y).
    { unfold sliceFrom.
      replace (Z.to_nat (0 + Z.of_nat (String.length kind) + 2))
        with (String.length (kind ++ "__")) by (rewrite length_append_s; cbn; lia).
      rewrite <- append_assoc_s. apply dropn_length. }
    rewrite Hdrop.
    assert (HX : spaced "_" X = true).
    { subst X. rewrite ReplaceAll_byte. apply spaced_swap; assumption. }
    rewrite (IndexFrom_delimiter X Y 0 HX).
    destruct (Z.eqb_spec (0 + Z.of_nat (String.length X)) (-1)) as [E|_]; [lia|].
    assert (Hslice : slice (kind ++ "__" ++ X ++ "__" ++ Y)
                       (0 + Z.of_nat (String.length kind) + 2)
                       (0 + Z.of_nat (String.length kind) + 2
                        + (0 + Z.of_nat (String.length X)))
                     = X).
    { unfold slice. fold (sliceFrom (kind ++ "__" ++ X ++ "__" ++ Y)
                            (0 + Z.of_nat (String.length kind) + 2)).
      rewrite Hdrop.
      replace (Z.to_nat _) with (String.length X) by lia.
      apply taken_length. }
    rewrite Hslice.
    assert (Hagent : sliceFrom (kind ++ "__" ++ X ++ "__" ++ Y)
                       (0 + Z.of_nat (String.length X)
                        + (0 + Z.of_nat (String.length kind) + 2) + 2)
                     = Y).
    { unfold sliceFrom.
      replace (Z.to_nat _) with (String.length (kind ++ "__" ++ X ++ "__"))
        by (rewrite !length_append_s; cbn; lia).
      replace (kind ++ "__" ++ X ++ "__" ++ Y) with ((kind ++ "__" ++ X ++ "__") ++ Y)
        by (rewrite !append_assoc_s; reflexivity).
      apply dropn_length. }
    rewrite Hagent. subst X.
    rewrite !ReplaceAll_byte, swapByte_back by exact Hu. reflexivity. }
  conj.
  - exact Hparse.
  - exact Hback.
  - unfold hostOf. rewrite Hparse. cbn [fst snd]. rewrite Hback. reflexivity.
  - unfold tableName.
    replace (kind ++ "__" ++ ReplaceAll uuid "-" "_" ++ "__" ++ ReplaceAll agent "-" "_")
      with ((kind ++ "__") ++ ReplaceAll uuid "-" "_" ++ ("__" ++ ReplaceAll agent "-" "_"))
      by (rewrite !append_assoc_s; reflexivity).
    apply Contains_middle.
Qed.

Lemma tableName_round_trip_witness :
  parseMeasAgentUUIDs
    "results__0a7c5c2e_5f0d_4c5b_9b26_3d1c8e0f7a11__f3b1a2c4_7d8e_4f90_a1b2_c3d4e5f60718"
  = ("0a7c5c2e-5f0d-4c5b-9b26-3d1c8e0f7a11",
     "f3b1a2c4_7d8e_4f90_a1b2_c3d4e5f60718", None).
Proof.
  apply (tableName_round_trip "results" "0a7c5c2e-5f0d-4c5b-9b26-3d1c8e0f7a11"
           "f3b1a2c4-7d8e-4f90-a1b2-c3d4e5f60718" ∅); reflexivity.
Defined.

End RoundTrip.

(** ** Which measurements [analyzeTablesByMeasurement] announces *)

Section TablesRun.
Import Common Analyze Spec Spec.

Lemma announced_print fl catalog all B o a :
  announced fl catalog all B o -> Forall (announced fl catalog all B) (stdout a) ->
  Forall (announced fl catalog all B) (stdout (print o a)).
Proof.
  intros Ho Ha. cbn. apply Forall_app. split; [exact Ha | constructor; [exact Ho | constructor]].
Qed.

Lemma announced_verbose fl catalog all B o a :
  announced fl catalog all B o -> Forall (announced fl catalog all B) (stdout a) ->
  Forall (announced fl catalog all B) (stdout (verbose fl o a)).
Proof.
  intros Ho Ha. unfold verbose. destruct (fVerbose fl); [apply announced_print; assumption | exact Ha].
Qed.

Lemma announced_printTableRows fl dir catalog all B data names : forall a,
  Forall (announced fl catalog all B) (stdout a) ->
  Forall (announced fl catalog all B) (stdout (fst (printTableRows fl dir data names a))).
Proof.
  induction names as [|n rest IH]; intros a Ha; cbn [printTableRows]; [exact Ha|].
  destruct (parseMeasAgentUUIDs n) as [[mu au] [err|]]; [exact Ha|]. cbv zeta.
  destruct (if 0 <? _ then _ else false); apply IH; [exact Ha|].
  apply announced_print; [exact I | exact Ha].
Qed.

Lemma announced_printTables fl dir catalog all B ts : forall data prev a,
  Forall (announced fl catalog all B) (stdout a) ->
  Forall (announced fl catalog all B) (stdout (fst (printTablesLoop fl dir ts data prev a))).
Proof.
  induction ts as [|table rest IH]; intros data prev a Ha; cbn [printTablesLoop].
  - apply announced_printTableRows, Ha.
  - destruct (GoTime.ParseDateTime (ModTime table)) as [mt|]; [|exact Ha].
    destruct (negb _ || negb _).
    { apply IH. apply announced_verbose; [exact I | exact Ha]. }
    destruct (parseMeasAgentUUIDs (Name table)) as [[measUUID agentUUID] [err|]];
      [exact Ha|].
    cbv zeta. destruct (negb _); [|apply IH, Ha].
    match goal with |- context [printTableDetails fl dir data ?b] =>
      pose proof (announced_printTableRows fl dir catalog all B data (sortByKey data) b) as Hd;
      fold (printTableDetails fl dir data b) in Hd;
      destruct (printTableDetails fl dir data b) as [a1 [e|]]
    end; cbn [fst] in *.
    + apply Hd, announced_print; [exact I | exact Ha].
    + apply IH, Hd, announced_print; [exact I | exact Ha].
Qed.

Lemma tablesLoop_run fl dir catalog all B ms : forall n a,
  incl ms all -> 0 <= n -> n + tally (withTables fl catalog) ms <= B ->
  Forall (announced fl catalog all B) (stdout a) ->
  Forall (announced fl catalog all B)
    (stdout (snd (fst (tablesLoop fl dir catalog ms n a))))
  /\ (snd (tablesLoop fl dir catalog ms n a) = None ->
      fst (fst (tablesLoop fl dir catalog ms n a))
      = n + tally (withTables fl catalog) ms).
Proof.
  induction ms as [|m rest IH]; intros n a Hin Hn HB Ha.
  - cbn. rewrite tally_nil. split; [exact Ha | intros _; lia].
  - assert (Hin' : incl rest all) by (intros x Hx; apply Hin; right; exact Hx).
    assert (Hm : In m all) by (apply Hin; left; reflexivity).
    assert (Ht : tally (withTables fl catalog) (m :: rest)
                 = (if withTables fl catalog m then 1 else 0)
                   + tally (withTables fl catalog) rest)
      by apply (tally_cons (withTables fl catalog)).
    rewrite Ht in *. clear Ht.
    assert (Hw : withTables fl catalog m
                 = selected fl m && match catalog (UUID m) with
                                    | (_, None) => true
                                    | (_, Some _) => false
                                    end) by reflexivity.
    assert (Hsel : selected fl m
                   = negb (measSkip fl m
                           || (negb (String.eqb (fTablesMeasUUID fl) "")
                               && negb (String.eqb (fTablesMeasUUID fl) (UUID m))))
                     && negb (Z.of_nat (length (Agents m)) =? 0)).
    { unfold selected. destruct (measSkip fl m); [reflexivity|].
      destruct (String.eqb (fTablesMeasUUID fl) ""); [reflexivity|].
      destruct (String.eqb (fTablesMeasUUID fl) (UUID m)); reflexivity. }
    cbn [tablesLoop].
    destruct (measSkip fl m || _) eqn:Hskip; cbn [negb andb] in Hsel.
    { rewrite Hsel in Hw. cbn [andb] in Hw. rewrite Hw in *.
      apply IH; try assumption. apply announced_verbose; [exact I | exact Ha]. }
    destruct (Z.of_nat (length (Agents m)) =? 0) eqn:Hag; cbn [negb] in Hsel.
    { rewrite Hsel in Hw. cbn [andb] in Hw. rewrite Hw in *.
      apply IH; try assumption. apply announced_verbose; [exact I | exact Ha]. }
    rewrite Hsel in Hw. cbn [andb] in Hw.
    destruct (catalog (UUID m)) as [measTables [err|]] eqn:Hcat.
    + rewrite Hw in *. destruct err; cbn [isZeroLength negb];
        try (split; [exact Ha | discriminate]).
      apply IH; try assumption. apply announced_print; [|exact Ha].
      cbn [announced]. exists m. rewrite Hcat. conj; auto.
    + rewrite Hw in HB |- *. cbv zeta.
      pose proof (tally_nonneg (withTables fl catalog) rest) as Hnn.
      assert (Hwm : withTables fl catalog m = true)
        by (unfold withTables; rewrite Hsel, Hcat; reflexivity).
      match goal with |- context [printTables fl dir measTables ?x] => set (a1 := x) end.
      assert (H1 : Forall (announced fl catalog all B) (stdout a1)).
      { subst a1. destruct (fVerbose fl); apply announced_print; try exact Ha;
          cbn [announced].
        - exists m. rewrite Hcat. conj; auto.
        - split; [lia|]. exists m. conj; auto. }
      pose proof (announced_printTables fl dir catalog all B measTables ∅ "" a1 H1) as H2.
      fold (printTables fl dir measTables a1) in H2.
      destruct (printTables fl dir measTables a1) as [a2 [e|]]; cbn [fst snd] in *.
      * split; [exact H2 | discriminate].
      * destruct (IH (n + 1) a2) as [I1 I2]; try assumption; try lia.
        split; [exact I1|]. intros Hnone. rewrite (I2 Hnone). lia.
Qed.

(** X27: [analyzeTablesByMeasurement] announces, with its progress
    line or (under [--verbose]) its measurement line, only measurements
    of the input that pass the filter, are the one named by
    [--meas-uuid] when it is given, have agents and have tables in the
    catalog; the measurement line shows the number of tables the
    catalog returned; the "no ClickHouse tables" warning is printed only
    for a selected measurement for which the catalog reports a
    zero-length answer; and the count returned at the end is the number
    of measurements announced, the progress lines being numbered within
    1 and that count. *)
Theorem analyzeTablesByMeasurement_selected (fl : Flags) (dir : gmap string string)
    (catalog : Catalog) (ms : list Measurement) :
  Forall (announced fl catalog ms (tally (withTables fl catalog) ms))
    (stdout (snd (fst (analyzeTablesByMeasurement fl dir catalog ms initAcc))))
  /\ (snd (analyzeTablesByMeasurement fl dir catalog ms initAcc) = None ->
      fst (fst (analyzeTablesByMeasurement fl dir catalog ms initAcc))
      = tally (withTables fl catalog) ms).
Proof.
  unfold analyzeTablesByMeasurement.
  destruct (tablesLoop_run fl dir catalog ms (tally (withTables fl catalog) ms) ms 0 initAcc
              (incl_refl _) (Z.le_refl _) ltac:(lia) (List.Forall_nil _)) as [H1 H2].
  destruct (tablesLoop fl dir catalog ms 0 initAcc) as [[n a] [e|]]; cbn [fst snd] in *.
  - split; [exact H1 | discriminate].
  - split; [|intros _; rewrite H2 by reflexivity; lia].
    destruct (negb (fVerbose fl)); [|exact H1].
    apply announced_print; [exact I | exact H1].
Qed.

End TablesRun.

(** ** Checks of the modelled library functions on concrete values *)

Example Index_first_separator : GoStrings.Index "results__a_b__c_d" "__" = 7.
Proof. reflexivity. Qed.

Example Index_absent : GoStrings.Index "results" "__" = -1.
Proof. reflexivity. Qed.

Example ReplaceAll_underscores : GoStrings.ReplaceAll "a_b__c" "_" "-" = "a-b--c".
Proof. reflexivity. Qed.

Example ToLower_ascii : GoStrings.ToLower "Zeph-GCP" = "zeph-gcp".
Proof. reflexivity. Qed.

Example civil_2020 : GoTime.civil 737424 = (2020, 1, 1).
Proof. reflexivity. Qed.

Example civil_zero : GoTime.civil 0 = (1, 1, 1).
Proof. reflexivity. Qed.

Example civil_before_zero : GoTime.civil (-1) = (0, 12, 31).
Proof. reflexivity. Qed.

Example daysFromCivil_2020 : GoTime.daysFromCivil 2020 1 1 = 737424.
Proof. reflexivity. Qed.

Example FormatDate_leap_day :
  GoTime.FormatDate (GoTime.Date 2024 2 29 13 5 7) = "2024-02-29".
Proof. vm_compute. reflexivity. Qed.

Example FormatDate_year_end :
  GoTime.FormatDate (GoTime.Date 2023 12 31 23 59 59) = "2023-12-31".
Proof. vm_compute. reflexivity. Qed.

Example HourOf_afternoon : GoTime.HourOf (GoTime.Date 2024 2 29 13 5 7) = 13.
Proof. vm_compute. reflexivity. Qed.

Example ParseDate_plain :
  GoTime.ParseDate "2020-01-01" = Some (GoTime.Date 2020 1 1 0 0 0).
Proof. vm_compute. reflexivity. Qed.

Example ParseDate_extra_text : GoTime.ParseDate Analyze.FirstMeasurementDate = None.
Proof. vm_compute. reflexivity. Qed.

Example ParseDateTime_plain :
  GoTime.ParseDateTime "2024-03-01 10:00:00" = Some (GoTime.Date 2024 3 1 10 0 0).
Proof. vm_compute. reflexivity. Qed.

Example ParseDateTime_fraction :
  GoTime.ParseDateTime "2024-03-01 10:00:00.5"
  = Some (GoTime.Date 2024 3 1 10 0 0 + 500000000).
Proof. vm_compute. reflexivity. Qed.

Example ParseDateTime_bad_day : GoTime.ParseDateTime "2024-02-30 10:00:00" = None.
Proof. vm_compute. reflexivity. Qed.

Example Round_half_up : GoTime.Round 5500000000 GoTime.Second = 6 * GoTime.Second.
Proof. reflexivity. Qed.

Example MatchTag_and_all_found :
  Common.MatchTag ["zeph-gcp-daily.json"; "collection:exhaustive"]
    ["zeph"; "exhaustive"] true = true.
Proof. reflexivity. Qed.

Example MatchTag_and_one_missing :
  Common.MatchTag ["zeph-gcp-daily.json"; "collection:exhaustive"]
    ["zeph"; "missing-substr"] true = false.
Proof. reflexivity. Qed.

Example MatchTag_or_one_found :
  Common.MatchTag ["zeph-gcp-daily.json"; "collection:exhaustive"]
    ["zeph"; "missing-substr"] false = true.
Proof. reflexivity. Qed.

Example Quantile_ninety_of_ten :
  Stat.Quantile (9 # 10) Scenario.tenSamples = Some (inject_Z 9).
Proof. reflexivity. Qed.

Example parseMeasAgentUUIDs_more_separators :
  Analyze.parseMeasAgentUUIDs "results__a_b__c_d__e"
  = ("a-b", "c_d__e", None).
Proof. reflexivity. Qed.

Example analyzeHoursGrid_fatal :
  snd (Analyze.analyzeHoursGrid Analyze.defaultFlags (GoTime.Date 2024 6 1 12 0 0)
         [Scenario.daily (5 * GoTime.Hour)])
  = Some (Analyze.FatalError "failed to parse start date").
Proof. reflexivity. Qed.

Example Quantile_binary64_median :
  Stat64.Quantile 0.5%float (map Stat64.ofNat [1; 2; 3; 4; 5; 6; 7; 8; 9; 10]%nat)
  = Some 5%float.
Proof. reflexivity. Qed.

Example Quantile_binary64_ninety :
  Stat64.Quantile 0x1.ccccccccccccdp-1%float
    (map Stat64.ofNat [1; 2; 3; 4; 5; 6; 7; 8; 9; 10]%nat)
  = Some 9%float.
Proof. reflexivity. Qed.

(** The model of [float64] against Rocq's primitive binary64 floats. *)

Example Float64_add_tenths :
  Float64.agrees (Float64.add (Float64.div 1 10) (Float64.div 2 10))
    (1 / 10 + 2 / 10)%float = true.
Proof. vm_compute. reflexivity. Qed.

Example Float64_div_third : Float64.agrees (Float64.div 1 3) (1 / 3)%float = true.
Proof. vm_compute. reflexivity. Qed.

Example Float64_mul_inexact :
  Float64.agrees (Float64.mul (Float64.div 1 3) (Float64.div 7 10))
    (1 / 3 * (7 / 10))%float = true.
Proof. vm_compute. reflexivity. Qed.

Example Float64_tie_to_even :
  Float64.agrees (Float64.div (3 * Float64.pow2 (-1074)) 2)
    (0x1p-1074 * 3 / 2)%float = true
  /\ Float64.agrees (Float64.div (Float64.pow2 (-1074)) 2) (0x1p-1074 / 2)%float = true.
Proof. vm_compute. split; reflexivity. Qed.

Example Float64_ofInt_rounds :
  Float64.agrees (Float64.ofInt (2 ^ 53 + 1)) (Stat64.ofZ (2 ^ 53 + 1)) = true
  /\ Float64.agrees (Float64.ofInt (2 ^ 53 + 3)) (Stat64.ofZ (2 ^ 53 + 3)) = true.
Proof. vm_compute. split; reflexivity. Qed.

(** The threshold [0.9 * n] of the quantile is the whole number
    [9 * n / 10] in binary64 too, for the sizes 10, 20, ..., 2000. *)
Example quantile_threshold_binary64 :
  forallb (fun k : nat =>
             Qeq_bool (Float64.mul (Float64.div 9 10) (Float64.ofInt (10 * Z.of_nat k)))
               (inject_Z (9 * Z.of_nat k)))
    (seq 1 200) = true.
Proof. vm_compute. reflexivity. Qed.

Example Seconds_binary64_half_second :
  Float64.agrees (GoTime.Seconds (200 * 24 * GoTime.Hour + 499999999))
    (Stat64.Seconds 17280000 499999999) = true.
Proof. vm_compute. reflexivity. Qed.

Example Seconds_binary64_longest :
  Float64.agrees (GoTime.Seconds GoTime.maxDuration)
    (Stat64.Seconds 9223372036 854775807) = true
  /\ Float64.agrees (Float64.mul (GoTime.Seconds GoTime.maxDuration)
                       (Float64.ofInt GoTime.Second))
       (Stat64.nanoseconds (Stat64.Seconds 9223372036 854775807)) = true
  /\ Stat64.nanoseconds (Stat64.Seconds 9223372036 854775807) = 0x1p63%float.
Proof. vm_compute. repeat split; reflexivity. Qed.

Example Seconds_negative :
  Qeq (GoTime.Seconds (- 1500000000)) (- (3 # 2))%Q
  /\ GoTime.ofSeconds (GoTime.Seconds (- 1500000000)) = - 1500000000.
Proof. vm_compute. split; reflexivity. Qed.

(** 200 days and 0.499999999 s are 17280000.5 s in binary64, shown as
    4800h0m1s. *)
Example shown_half_second :
  Analyze.shown (GoTime.Seconds (200 * 24 * GoTime.Hour + 499999999))
  = 4800 * GoTime.Hour + GoTime.Second.
Proof. vm_compute. reflexivity. Qed.

(** [Spec.lastConvertible] is the longest duration that converts back. *)
Example lastConvertible_is_last :
  GoTime.ofSeconds (GoTime.Seconds Spec.lastConvertible) = 9223372036854774784
  /\ Float64.trunc (Float64.mul (GoTime.Seconds (Spec.lastConvertible + 1))
                      (Float64.ofInt GoTime.Second)) = 2 ^ 63
  /\ GoTime.ofSeconds (GoTime.Seconds (Spec.lastConvertible + 1)) = GoTime.minDuration.
Proof. vm_compute. repeat split; reflexivity. Qed.

(** The mean of 0.368444991 s and 4.631555009 s, 2.5 s exactly, is
    2.4999999999999996 in binary64 and is shown as 2s. *)
Example Mean_binary64 :
  Float64.agrees (Stat.Mean [GoTime.Seconds 368444991; GoTime.Seconds 4631555009])
    ((Stat64.Seconds 0 368444991 + Stat64.Seconds 4 631555009) / 2)%float = true
  /\ Analyze.shown (Stat.Mean [GoTime.Seconds 368444991; GoTime.Seconds 4631555009])
     = 2 * GoTime.Second.
Proof. vm_compute. split; reflexivity. Qed.
